(** * Baltic regulation analysis: the fetch / normalise / merge / report pipeline

    A shallow embedding of the two scripts of the repository,
    [Task2_version13_VM.py] (fixed analysis window) and
    [Task2_with variable time_version20_VM.py] (window read from the operator),
    together with the properties stated about them.

    Conventions of the embedding.
    - An instant is a number of seconds since the Unix epoch ([Z]); a civil CET
      time is represented by the instant it denotes.
    - A JSON number is an int ([Z]) or a float; floats, and the float columns
      pandas builds from numbers, are rationals ([Q]): rounding is not
      represented.  A column built from ints of the signed 64-bit range is an
      int64 column, with its wrap-around.
    - Python exceptions are values of an error monad; a [try/except Exception]
      becomes a [match] on the result.
    - Console output, HTTP requests and written files are recorded as a list of
      events, in program order.
    - What pandas, pytz and [datetime] compute from text (timestamp parsing,
      calendar fields) is taken as a record of functions, [libs]. *)

From Stdlib Require Import ZArith QArith Qabs Qround Qfield List Ascii String Bool Lia.
Import ListNotations.

Local Open Scope string_scope.
Local Open Scope Z_scope.
Local Open Scope list_scope.
Local Set Warnings "-register-all".

(** ** Parsed JSON values, as Python objects *)

Inductive json : Type :=
| JNull                                   (* None *)
| JBool (b : bool)
| JInt (z : Z)                            (* int: a number written without
                                             fraction or exponent *)
| JNum (q : Q)                            (* float *)
| JStr (s : string)
| JArr (items : list json)                (* list *)
| JObj (fields : list (string * json)).   (* dict, in insertion order *)

Definition instant := Z.

(** [key in d] and [d[key]] on a dict. *)
Fixpoint assoc (key : string) (fields : list (string * json)) : option json :=
  match fields with
  | [] => None
  | (k, v) :: rest => if String.eqb key k then Some v else assoc key rest
  end.

Definition Qlt_bool (x y : Q) : bool := negb (Qle_bool y x).

(** Python truthiness, as used by [if imbalance_data and activation_data]. *)
Definition truthy (v : json) : bool :=
  match v with
  | JNull => false
  | JBool b => b
  | JInt z => negb (z =? 0)
  | JNum q => negb (Qeq_bool q 0)
  | JStr s => negb (String.eqb s "")
  | JArr items => match items with [] => false | _ => true end
  | JObj fields => match fields with [] => false | _ => true end
  end.

(** ** Exceptions *)

Inductive exn : Type :=
| RequestException          (* connection errors and HTTP error statuses *)
| JSONDecodeError
| AttributeError | KeyError | TypeError | IndexError | ValueError
| EOFError.

Inductive result (A : Type) : Type :=
| Ok (a : A)
| Raise (e : exn).
Arguments Ok {A} a.
Arguments Raise {A} e.

Definition bind {A B : Type} (m : result A) (k : A -> result B) : result B :=
  match m with
  | Ok a => k a
  | Raise e => Raise e
  end.

Notation "x <- m ;; k" := (bind m (fun x => k))
  (at level 61, m at next level, right associativity).
Notation "' pat <- m ;; k" := (bind m (fun x => match x with pat => k end))
  (at level 61, pat pattern, m at next level, right associativity).

Fixpoint mapM {A B : Type} (f : A -> result B) (l : list A) : result (list B) :=
  match l with
  | [] => Ok []
  | a :: rest => b <- f a ;; bs <- mapM f rest ;; Ok (b :: bs)
  end.

(** ** The outside world *)

(** What one [requests.get] followed by [raise_for_status] and [json()] can
    meet.  [body = None] stands for a body that is not JSON. *)
Inductive http_outcome : Type :=
| ConnectionFailed
| Response (status : Z) (body : option json).

(** The network is a script of outcomes, one consumed per request issued. *)
Definition world := list http_outcome.

Record params : Type := mk_params {
  id : string;
  start_date : instant;          (* rendered as UTC text on the wire *)
  end_date : instant;
  output_time_zone : string;
  output_format : string;
  json_header_groups : string
}.

(** A data column cell after column extraction; a plotted point. *)
Definition point : Type := instant * json.

Record plot : Type := mk_plot {
  lines : list (string * string * list point);   (* label, colour, data *)
  xlim : instant * instant
}.

Inductive value : Type :=
| VTime (t : instant)
| VNum (q : Q)
| VBool (b : bool)
| VInt (z : Z)
| VDate (d : Z).

Record csv : Type := mk_csv {
  header : list string;
  body_rows : list (list value)
}.

(** Summary figures printed by the analysis.  [None] is a float that is not a
    number (numpy's [nan]). *)
Record summary : Type := mk_summary {
  total_periods : Z;
  effective_periods : Z;
  effectiveness : option Q;
  mean_imbalance_magnitude : option Q;
  max_imbalance : option Q;
  min_imbalance : option Q;
  mean_regulation_magnitude : option Q;
  total_imbalance_energy : Q;
  total_regulation_energy : Q
}.

Inductive event : Type :=
| Say (text : string)                       (* a fixed console line *)
| SayPeriod (from_ to_ : instant)           (* the From: / To: lines *)
| Prompt (text : string)                    (* input(...) *)
| HttpGet (url : string) (p : params)
| FetchError                                (* "Error fetching data: ..." *)
| Processed (data_type : string) (rows : nat)   (* the boundary report *)
| ProcessError (data_type : string)
| SaveFig (file : string) (p : plot)
| VisualizationError
| Report (s : summary)
| SaveCsv (file : string) (c : csv)
| AnalysisError
| Uncaught (e : exn).                       (* the run ends on an exception *)

(** The text of a [print("\n...")]: an empty line, then the words. *)
Definition after_blank_line (text : string) : string := String "010"%char text.

Definition IMBALANCE_URL := "https://api-baltic.transparency-dashboard.eu/api/v1/export".
Definition ACTIVATION_URL := "https://api-baltic.transparency-dashboard.eu/api/v1/export".

(** ** The data fetcher (the same text in both scripts) *)

(** [requests.get(url, params=params)], then [raise_for_status()], then
    [json()]: the parsed body, or an exception. *)
Definition http_get (w : world) : result json * world :=
  match w with
  | [] => (Raise RequestException, [])
  | ConnectionFailed :: w' => (Raise RequestException, w')
  | Response status body :: w' =>
      if (400 <=? status) && (status <? 600) then (Raise RequestException, w')
      else match body with
           | None => (Raise JSONDecodeError, w')
           | Some data => (Ok data, w')
           end
  end.

(** Returns the value handed back to the caller ([JNull] is Python's [None]),
    the remaining world and what was printed or sent. *)
Definition fetch_data (url : string) (p : params) (w : world)
  : json * world * list event :=
  match http_get w with
  | (Ok data, w') =>
      match data with
      | JObj fields =>
          match assoc "data" fields with
          | Some v => (v, w', [HttpGet url p])
          | None => (JNull, w', [HttpGet url p])
          end
      | _ => (JNull, w', [HttpGet url p])
      end
  | (Raise _, w') => (JNull, w', [HttpGet url p; FetchError])
  end.

(** ** pandas, pytz and datetime, as far as the scripts use them *)

Inductive parsed : Type :=
| Unparsable            (* the conversion raises *)
| NaT
| At (t : instant).

(** A record of the payload's [timeseries]: a dict; a key that is absent
    shows up as a missing cell ([None] below, pandas' NaN) in its column. *)
Definition record := list (string * json).

Record frame (I : Type) : Type := mk_frame {
  columns : list string;
  rows : list (I * record)
}.
Arguments mk_frame {I} columns rows.
Arguments columns {I} f.
Arguments rows {I} f.

Record libs : Type := mk_libs {
  (* [pd.to_datetime(cell)] brought to CET, for a cell that is present *)
  to_datetime_cet : json -> parsed;
  (* whether the cells of a column agree in layout and in UTC offset:
     [pd.to_datetime] reads a column with the one format it infers from its
     first text and gives it one zone, and fails on a column that does not
     agree, even when each text would be read on its own *)
  one_format : list (option json) -> bool;
  (* [pd.DataFrame(x)] for [x] other than a list of dicts *)
  DataFrame_other : json -> result (frame nat);
  (* [index.hour] and [index.date] of an instant, read in CET *)
  hour_of : instant -> Z;
  date_of : instant -> Z;
  (* [cet_tz.localize(datetime.strptime(text, "%Y-%m-%d %H:%M"))], [None]
     when it raises [ValueError] *)
  strptime_cet : string -> option instant
}.

Fixpoint as_records (items : list json) : option (list record) :=
  match items with
  | [] => Some []
  | JObj fields :: rest => option_map (cons fields) (as_records rest)
  | _ :: _ => None
  end.

(** [pd.DataFrame(timeseries)]: one row per record, one column per key that
    occurs in some record, a range index. *)
Definition DataFrame (L : libs) (timeseries : json) : result (frame nat) :=
  match timeseries with
  | JArr items =>
      match as_records items with
      | Some recs =>
          Ok (mk_frame (nodup string_dec (flat_map (map fst) recs))
                       (combine (seq 0 (List.length recs)) recs))
      | None => DataFrame_other L timeseries
      end
  | _ => DataFrame_other L timeseries
  end.

Definition has_column {I : Type} (name : string) (df : frame I) : bool :=
  existsb (String.eqb name) (columns df).

(** [df[name]]: the cells of a column, [KeyError] if there is none. *)
Definition column {I : Type} (name : string) (df : frame I)
  : result (list (option json)) :=
  if has_column name df then Ok (map (fun r => assoc name (snd r)) (rows df))
  else Raise KeyError.

Definition to_datetime_cell (L : libs) (cell : option json) : result (option instant) :=
  match cell with
  | None | Some JNull => Ok None
  | Some v =>
      match to_datetime_cet L v with
      | Unparsable => Raise ValueError
      | NaT => Ok None
      | At t => Ok (Some t)
      end
  end.

(** [pd.to_datetime(col).dt.tz_convert('CET')]: every cell has to be
    readable, in the one format and zone of the column; a column without a
    single real timestamp carries no zone and cannot be converted. *)
Definition to_datetime_column (L : libs) (col : list (option json))
  : result (list (option instant)) :=
  stamps <- mapM (to_datetime_cell L) col ;;
  if negb (one_format L col) then Raise ValueError
  else if existsb (fun s => match s with Some _ => true | None => false end) stamps
  then Ok stamps
  else Raise TypeError.

(** [df['timestamp'] = stamps; df.set_index('timestamp', inplace=True)] *)
Definition set_index {I : Type} (stamps : list (option instant)) (df : frame I)
  : frame (option instant) :=
  mk_frame (columns df) (combine stamps (map snd (rows df))).

Definition in_window (start_ end_ : instant) (t : option instant) : bool :=
  match t with
  | Some t => (start_ <=? t) && (t <? end_)
  | None => false                    (* comparisons with NaT are false *)
  end.

(** [df[(df.index >= start) & (df.index < end)]] *)
Definition clip (start_ end_ : instant) (df : frame (option instant))
  : frame instant :=
  mk_frame (columns df)
    (flat_map (fun r => match fst r with
                        | Some t => if in_window start_ end_ (Some t)
                                    then [(t, snd r)] else []
                        | None => []
                        end) (rows df)).

(** [x[i]] on a cell. *)
Definition subscript (x : option json) (i : nat) : result json :=
  match x with
  | None => Raise TypeError                 (* NaN is a float *)
  | Some (JArr items) =>
      match nth_error items i with
      | Some v => Ok v
      | None => Raise IndexError
      end
  | Some (JStr s) =>
      match String.get i s with
      | Some c => Ok (JStr (String c EmptyString))
      | None => Raise IndexError
      end
  | Some (JObj _) => Raise KeyError
  | Some _ => Raise TypeError
  end.

(** [df[name].apply(lambda x: x[i])] *)
Definition apply_subscript {I : Type} (name : string) (i : nat) (df : frame I)
  : result (list json) :=
  col <- column name df ;;
  mapM (fun x => subscript x i) col.

(** [df.drop(names, axis=1)] raises when a name is not a column. *)
Definition can_drop {I : Type} (names : list string) (df : frame I) : bool :=
  forallb (fun n => has_column n df) names.

(** ** Normalised tables *)

Record imbalance_row : Type := mk_imbalance_row {
  imb_timestamp : instant;
  imb_baltic_imbalance : json
}.

Record activation_row : Type := mk_activation_row {
  act_timestamp : instant;
  act_up_regulation : json;
  act_down_regulation : json
}.

(** What [process_data] returns: [pd.DataFrame()], or a table with the
    columns of its data type.  Keys of the records other than [from], [to] and
    [values] are not carried along, although pandas keeps them as further
    columns: what depends on the exact columns of a table is stated on
    payloads whose records have these three keys only. *)
Inductive table : Type :=
| NoFrame
| ImbalanceFrame (rows : list imbalance_row)
| ActivationFrame (rows : list activation_row).

Definition timestamps (df : table) : list instant :=
  match df with
  | NoFrame => []
  | ImbalanceFrame rs => map imb_timestamp rs
  | ActivationFrame rs => map act_timestamp rs
  end.

(** [len(df)] and [df.empty] *)
Definition len (df : table) : nat := List.length (timestamps df).

Definition empty (df : table) : bool :=
  match timestamps df with [] => true | _ => false end.

(** ** Column arithmetic shared by the two scripts *)

(** A cell used as a number: the value of an int or of a float.  Text, lists
    and dicts make pandas' arithmetic or comparisons raise.  JSON null and
    booleans are not part of the payload the API documents (numbers only);
    pandas would compute with them (a null among numbers is a NaN), which is
    not represented: they are made to raise here, and what is stated of the
    values of a column is stated for columns of numbers. *)
Definition num (v : json) : result Q :=
  match v with
  | JInt z => Ok (inject_Z z)
  | JNum q => Ok q
  | _ => Raise TypeError
  end.

(** *** Columns of 64-bit integers *)

(** A column extracted from cells that are all ints of the signed 64-bit
    range gets dtype [int64], and arithmetic on it wraps around; one float
    among the numbers makes the column [float64].  Any other column is
    computed with cell by cell, as Python does on a column of objects; the
    wrap-around of a column of unsigned integers (ints up to 2^64, one of them
    above the signed range) is not represented. *)
Definition int64_cell (v : json) : bool :=
  match v with
  | JInt z => (- 2 ^ 63 <=? z) && (z <? 2 ^ 63)
  | _ => false
  end.

Definition int64_column (cells : list json) : bool := forallb int64_cell cells.

(** The representative of an integer in the signed 64-bit range. *)
Definition wrap64 (z : Z) : Z := (z + 2 ^ 63) mod 2 ^ 64 - 2 ^ 63.

(** [abs(x)] and [x + y]: in an [int64] column when [int64] is set, where
    the values are integers ([Qfloor] reads them back), and exactly
    otherwise. *)
Definition np_abs (int64 : bool) (x : Q) : Q :=
  if int64 then inject_Z (wrap64 (Z.abs (Qfloor x))) else Qabs x.

Definition np_add (int64 : bool) (x y : Q) : Q :=
  if int64 then inject_Z (wrap64 (Qfloor x + Qfloor y)) else (x + y)%Q.

(** [pd.merge(left, right, left_index=True, right_index=True, how='inner')]:
    every pair of a left and a right row that carry the same index value, in
    the order of the left rows. *)
Definition merge {A B : Type} (key_l : A -> instant) (key_r : B -> instant)
  (left : list A) (right : list B) : list (A * B) :=
  flat_map (fun l => map (pair l) (filter (fun r => key_l l =? key_r r) right)) left.

Record analysis_row : Type := mk_analysis_row {
  timestamp : instant;
  baltic_imbalance : Q;
  up_regulation : Q;
  down_regulation : Q;
  imbalance_magnitude : Q;
  regulation_magnitude : Q;
  appropriate_regulation : bool
}.

(** The columns of a merged row, as numbers. *)
Definition numeric_row (j : imbalance_row * activation_row) : result (instant * Q * Q * Q) :=
  bi <- num (imb_baltic_imbalance (fst j)) ;;
  up <- num (act_up_regulation (snd j)) ;;
  down <- num (act_down_regulation (snd j)) ;;
  Ok (imb_timestamp (fst j), bi, up, down).

(** The merged table of two frames; [swapped] tells that the activation
    columns come first.  Frames that lack the columns make the first column
    access raise. *)
Definition merged (left right : table)
  : result (bool * list (imbalance_row * activation_row)) :=
  match left, right with
  | ImbalanceFrame l, ActivationFrame r =>
      Ok (false, merge imb_timestamp act_timestamp l r)
  | ActivationFrame l, ImbalanceFrame r =>
      Ok (true, map (fun p => (snd p, fst p)) (merge act_timestamp imb_timestamp l r))
  | _, _ => Raise KeyError
  end.

Definition Qsum (l : list Q) : Q := fold_right Qplus 0%Q l.

(** [Series.sum()], which stays in the column's dtype. *)
Definition np_sum (int64 : bool) (l : list Q) : Q :=
  if int64 then inject_Z (wrap64 (fold_right Z.add 0 (map Qfloor l))) else Qsum l.

(** Which of the three value columns of the two tables are [int64]. *)
Record dtypes : Type := mk_dtypes {
  imbalance_int64 : bool;
  up_int64 : bool;
  down_int64 : bool
}.

Definition dtypes_of (left right : table) : dtypes :=
  match left, right with
  | ImbalanceFrame l, ActivationFrame r
  | ActivationFrame r, ImbalanceFrame l =>
      mk_dtypes (int64_column (map imb_baltic_imbalance l))
                (int64_column (map act_up_regulation r))
                (int64_column (map act_down_regulation r))
  | _, _ => mk_dtypes false false false
  end.

(** numpy's true division of two integers: not a number when the divisor is
    zero (a warning, no exception). *)
Definition np_divide (n d : Z) : option Q :=
  if d =? 0 then None else Some (inject_Z n / inject_Z d)%Q.

(** [Series.mean()], [max()] and [min()]; not a number on an empty column. *)
Definition mean (l : list Q) : option Q :=
  match l with
  | [] => None
  | _ => Some (Qsum l / inject_Z (Z.of_nat (List.length l)))%Q
  end.

Definition Qmax (x y : Q) : Q := if Qle_bool x y then y else x.
Definition Qmin (x y : Q) : Q := if Qle_bool x y then x else y.

Definition col_max (l : list Q) : option Q :=
  match l with
  | [] => None
  | x :: rest => Some (fold_left Qmax rest x)
  end.

Definition col_min (l : list Q) : option Q :=
  match l with
  | [] => None
  | x :: rest => Some (fold_left Qmin rest x)
  end.

Definition count_true (l : list bool) : Z :=
  Z.of_nat (List.length (filter (fun b => b) l)).

Definition base_header : list string :=
  ["timestamp"; "baltic_imbalance"; "up_regulation"; "down_regulation";
   "imbalance_magnitude"; "regulation_magnitude"; "appropriate_regulation"].

Definition swapped_header : list string :=
  ["timestamp"; "up_regulation"; "down_regulation"; "baltic_imbalance";
   "imbalance_magnitude"; "regulation_magnitude"; "appropriate_regulation"].

Definition base_values (swapped : bool) (r : analysis_row) : list value :=
  (if swapped
   then [VTime (timestamp r); VNum (up_regulation r); VNum (down_regulation r);
         VNum (baltic_imbalance r)]
   else [VTime (timestamp r); VNum (baltic_imbalance r); VNum (up_regulation r);
         VNum (down_regulation r)])
  ++ [VNum (imbalance_magnitude r); VNum (regulation_magnitude r);
      VBool (appropriate_regulation r)].

(** ** The fixed-window script, [Task2_version13_VM.py] *)

Module Fixed.

(** 2024-09-23 00:00 and 2024-09-29 00:00 in zone CET (summer time, UTC+2). *)
Definition start_date_cet : instant := 1727042400.
Definition end_date_cet : instant := 1727560800.

Definition start_date_utc : instant := start_date_cet - 3 * 3600.
Definition end_date_utc : instant := end_date_cet + 3 * 3600.

Definition imbalance_params : params :=
  mk_params "imbalance_volumes" start_date_utc end_date_utc "CET" "json" "0".

Definition activation_params : params :=
  mk_params "normal_activations_total" start_date_utc end_date_utc "CET" "json" "0".

Definition fetch_data := fetch_data.

(** The body of the [try] of [process_data]. *)
Definition process_data_try (L : libs) (data : json) (data_type : string)
  : result table :=
  match data with
  | JObj fields =>
      let timeseries :=
        match assoc "timeseries" fields with Some v => v | None => JArr [] end in
      df <- DataFrame L timeseries ;;
      from_ <- column "from" df ;;
      stamps <- to_datetime_column L from_ ;;
      let df := set_index stamps df in
      let df := clip start_date_cet end_date_cet df in
      out <- (if String.eqb data_type "Imbalance" then
                v0 <- apply_subscript "values" 0 df ;;
                Ok (ImbalanceFrame
                      (map (fun p => mk_imbalance_row (fst (fst p)) (snd p))
                           (combine (rows df) v0)))
              else
                v0 <- apply_subscript "values" 0 df ;;
                v1 <- apply_subscript "values" 1 df ;;
                Ok (ActivationFrame
                      (map (fun p => mk_activation_row (fst (fst (fst p)))
                                                       (snd (fst p)) (snd p))
                           (combine (combine (rows df) v0) v1)))) ;;
      if can_drop ["from"; "to"; "values"] df then Ok out else Raise KeyError
  | _ => Raise AttributeError          (* no [get] on a non-dict *)
  end.

Definition process_data (L : libs) (data : json) (data_type : string)
  : table * list event :=
  match process_data_try L data data_type with
  | Ok df => (df, [Processed data_type (len df)])
  | Raise _ => (NoFrame, [ProcessError data_type])
  end.

(** [-x] on a cell of a column; [int64] tells the column's dtype. *)
Definition negate (int64 : bool) (p : point) : result point :=
  match snd p with
  | JInt z => Ok (fst p, JInt (if int64 then wrap64 (- z) else - z))
  | JNum q => Ok (fst p, JNum (- q)%Q)
  | _ => Raise TypeError
  end.

(** The body of the [try] of [create_visualization]: the lines drawn and the
    limits of the time axis.  matplotlib is taken to draw whatever cells it is
    handed, which it does not (a list in a cell makes it fail): what is stated
    of a figure is stated for columns of numbers.  The unary minus raises on
    text, lists and dicts; on null it is made to raise as well (see [num]). *)
Definition create_visualization_try (imbalance_df activation_df : table)
  : result plot :=
  match imbalance_df, activation_df with
  | ImbalanceFrame irows, ActivationFrame arows =>
      let imbalance := map (fun r => (imb_timestamp r, imb_baltic_imbalance r)) irows in
      let up := map (fun r => (act_timestamp r, act_up_regulation r)) arows in
      down <- mapM (negate (int64_column (map act_down_regulation arows)))
                (map (fun r => (act_timestamp r, act_down_regulation r)) arows) ;;
      Ok (mk_plot [("Baltic Imbalance", "blue", imbalance);
                   ("Upward Regulation", "green", up);
                   ("Downward Regulation", "red", down)]
                  (start_date_cet, end_date_cet))
  | _, _ => Raise KeyError
  end.

Definition create_visualization (imbalance_df activation_df : table)
  : list event :=
  match create_visualization_try imbalance_df activation_df with
  | Ok p => [SaveFig "baltic_regulation_analysis.png" p;
             Say (after_blank_line "Visualization saved as 'baltic_regulation_analysis.png'")]
  | Raise _ => [VisualizationError]
  end.

(** A row of [analysis_df], with the two temporal columns of this script. *)
Record temporal_row : Type := mk_temporal_row {
  core : analysis_row;
  hour : Z;
  day : Z
}.

Definition derive (L : libs) (k : dtypes) (j : imbalance_row * activation_row)
  : result temporal_row :=
  '(t, bi, up, down) <- numeric_row j ;;
  let imbalance_magnitude := np_abs (imbalance_int64 k) bi in
  let regulation_magnitude := np_add (up_int64 k && down_int64 k) up down in
  let appropriate_regulation :=
    (Qlt_bool 0 bi && Qlt_bool 0 down) || (Qlt_bool bi 0 && Qlt_bool 0 up) in
  Ok (mk_temporal_row
        (mk_analysis_row t bi up down imbalance_magnitude regulation_magnitude
                         appropriate_regulation)
        (hour_of L t) (date_of L t)).

Definition to_csv (swapped : bool) (analysis_df : list temporal_row) : csv :=
  mk_csv ((if swapped then swapped_header else base_header) ++ ["hour"; "day"])
         (map (fun r => base_values swapped (core r) ++ [VInt (hour r); VDate (day r)])
              analysis_df).

(** The body of the [try] of [analyze_regulation]: the table, the printed
    figures and the file written. *)
Definition analyze_regulation_try (L : libs) (imbalance_df activation_df : table)
  : result (list temporal_row * summary * csv) :=
  '(swapped, joined) <- merged imbalance_df activation_df ;;
  let k := dtypes_of imbalance_df activation_df in
  analysis_df <- mapM (derive L k) joined ;;
  let total_periods := Z.of_nat (List.length analysis_df) in
  let effective_periods :=
    count_true (map (fun r => appropriate_regulation (core r)) analysis_df) in
  let effectiveness :=
    option_map (fun x => x * 100)%Q (np_divide effective_periods total_periods) in
  let s :=
    mk_summary total_periods effective_periods effectiveness
      (mean (map (fun r => imbalance_magnitude (core r)) analysis_df))
      (col_max (map (fun r => baltic_imbalance (core r)) analysis_df))
      (col_min (map (fun r => baltic_imbalance (core r)) analysis_df))
      (mean (map (fun r => regulation_magnitude (core r)) analysis_df))
      (np_sum (imbalance_int64 k)
              (map (fun r => imbalance_magnitude (core r)) analysis_df))
      (np_sum (up_int64 k && down_int64 k)
              (map (fun r => regulation_magnitude (core r)) analysis_df)) in
  Ok (analysis_df, s, to_csv swapped analysis_df).

Definition analyze_regulation (L : libs) (imbalance_df activation_df : table)
  : list temporal_row * list event :=
  match analyze_regulation_try L imbalance_df activation_df with
  | Ok (analysis_df, s, c) =>
      (analysis_df,
       [Report s; SaveCsv "regulation_analysis.csv" c;
        Say (after_blank_line "Detailed analysis saved to 'regulation_analysis.csv'")])
  | Raise _ => ([], [AnalysisError])
  end.

Definition main (L : libs) (w : world) : list event :=
  let '(imbalance_data, w, fetched_i) := fetch_data IMBALANCE_URL imbalance_params w in
  let '(activation_data, w, fetched_a) := fetch_data ACTIVATION_URL activation_params w in
  [Say "Analysis period (CET):"; SayPeriod start_date_cet end_date_cet;
   Say (after_blank_line "Fetching imbalance data...")] ++ fetched_i ++
  [Say (after_blank_line "Fetching activation data...")] ++ fetched_a ++
  (if truthy imbalance_data && truthy activation_data then
     let '(imbalance_df, processed_i) := process_data L imbalance_data "Imbalance" in
     let '(activation_df, processed_a) := process_data L activation_data "Activation" in
     processed_i ++ processed_a ++
     (if negb (empty imbalance_df) && negb (empty activation_df) then
        create_visualization imbalance_df activation_df ++
        snd (analyze_regulation L imbalance_df activation_df)
      else [Say "No data available for processing"])
   else [Say "Failed to fetch data from one or both APIs"]).

End Fixed.

(** ** The interactive script, [Task2_with variable time_version20_VM.py] *)

Module Interactive.

Definition day_seconds : Z := 86400.

(** [timedelta.days] of the difference of two instants. *)
Definition days (later earlier : instant) : Z := (later - earlier) / day_seconds.

(** [inputs] are the lines the operator will type; [global_start] is the
    module-level [start_date_cet], when it has been assigned.  The result is
    the accepted instant with the lines left, or [None] when the input ends
    before a line is accepted. *)
Fixpoint get_valid_datetime (L : libs) (prompt : string) (is_start : bool)
  (global_start : option instant) (inputs : list string)
  : option (instant * list string) * list event :=
  match inputs with
  | [] => (None, [Prompt prompt; Uncaught EOFError])
  | date_str :: rest =>
      let again (complaint : string) :=
        let '(r, evs) := get_valid_datetime L prompt is_start global_start rest in
        (r, Prompt prompt :: Say complaint :: evs) in
      match strptime_cet L date_str with
      | None => again "Invalid date format. Please use YYYY-MM-DD HH:MM format."
      | Some date_obj =>
          match (if is_start then None else global_start) with
          | Some start_date_cet =>
              if date_obj <=? start_date_cet then
                again "End date must be after start date. Please try again."
              else if days date_obj start_date_cet >? 30 then
                again "Time range cannot exceed 30 days. Please enter a closer date."
              else (Some (date_obj, rest), [Prompt prompt])
          | None => (Some (date_obj, rest), [Prompt prompt])
          end
      end
  end.

Definition fetch_data := fetch_data.

(** The body of the [try] of [process_data]. *)
Definition process_data_try (L : libs) (data : json) (data_type : string)
  (start_date_cet end_date_cet : instant) : result table :=
  match data with
  | JObj fields =>
      let timeseries :=
        match assoc "timeseries" fields with Some v => v | None => JArr [] end in
      df <- DataFrame L timeseries ;;
      from_ <- column "from" df ;;
      stamps <- to_datetime_column L from_ ;;
      let df := set_index stamps df in
      let df := clip start_date_cet end_date_cet df in
      out <- (if String.eqb data_type "Imbalance" then
                v0 <- apply_subscript "values" 0 df ;;
                Ok (ImbalanceFrame
                      (map (fun p => mk_imbalance_row (fst (fst p)) (snd p))
                           (combine (rows df) v0)))
              else
                v0 <- apply_subscript "values" 0 df ;;
                v1 <- apply_subscript "values" 1 df ;;
                Ok (ActivationFrame
                      (map (fun p => mk_activation_row (fst (fst (fst p)))
                                                       (snd (fst p)) (snd p))
                           (combine (combine (rows df) v0) v1)))) ;;
      if can_drop ["from"; "to"; "values"] df then Ok out else Raise KeyError
  | _ => Raise AttributeError
  end.

Definition process_data (L : libs) (data : json) (data_type : string)
  (start_date_cet end_date_cet : instant) : table * list event :=
  match process_data_try L data data_type start_date_cet end_date_cet with
  | Ok df => (df, [Processed data_type (len df)])
  | Raise _ => (NoFrame, [ProcessError data_type])
  end.

(** The body of the [try] of [create_visualization]; as in the fixed script,
    matplotlib is taken to draw whatever cells it is handed. *)
Definition create_visualization_try (imbalance_df activation_df : table)
  (start_date_cet end_date_cet : instant) : result plot :=
  match imbalance_df, activation_df with
  | ImbalanceFrame irows, ActivationFrame arows =>
      let imbalance := map (fun r => (imb_timestamp r, imb_baltic_imbalance r)) irows in
      let up := map (fun r => (act_timestamp r, act_up_regulation r)) arows in
      let down := map (fun r => (act_timestamp r, act_down_regulation r)) arows in
      Ok (mk_plot [("Baltic Imbalance", "blue", imbalance);
                   ("Upward Regulation", "green", up);
                   ("Downward Regulation", "red", down)]
                  (start_date_cet, end_date_cet))
  | _, _ => Raise KeyError
  end.

Definition create_visualization (imbalance_df activation_df : table)
  (start_date_cet end_date_cet : instant) : list event :=
  match create_visualization_try imbalance_df activation_df
          start_date_cet end_date_cet with
  | Ok p => [SaveFig "baltic_regulation_analysis.png" p;
             Say (after_blank_line "Visualization saved as 'baltic_regulation_analysis.png'")]
  | Raise _ => [VisualizationError]
  end.

Definition derive (k : dtypes) (j : imbalance_row * activation_row)
  : result analysis_row :=
  '(t, bi, up, down) <- numeric_row j ;;
  let imbalance_magnitude := np_abs (imbalance_int64 k) bi in
  let regulation_magnitude := np_add (up_int64 k && down_int64 k) up down in
  let appropriate_regulation :=
    (Qlt_bool 0 bi && Qlt_bool 0 down) || (Qlt_bool bi 0 && Qlt_bool 0 up) in
  Ok (mk_analysis_row t bi up down imbalance_magnitude regulation_magnitude
                      appropriate_regulation).

Definition to_csv (swapped : bool) (analysis_df : list analysis_row) : csv :=
  mk_csv (if swapped then swapped_header else base_header)
         (map (base_values swapped) analysis_df).

(** The body of the [try] of [analyze_regulation]. *)
Definition analyze_regulation_try (imbalance_df activation_df : table)
  : result (list analysis_row * summary * csv) :=
  '(swapped, joined) <- merged imbalance_df activation_df ;;
  let k := dtypes_of imbalance_df activation_df in
  analysis_df <- mapM (derive k) joined ;;
  let total_periods := Z.of_nat (List.length analysis_df) in
  let effective_periods := count_true (map appropriate_regulation analysis_df) in
  let effectiveness :=
    option_map (fun x => x * 100)%Q (np_divide effective_periods total_periods) in
  let s :=
    mk_summary total_periods effective_periods effectiveness
      (mean (map imbalance_magnitude analysis_df))
      (col_max (map baltic_imbalance analysis_df))
      (col_min (map baltic_imbalance analysis_df))
      (mean (map regulation_magnitude analysis_df))
      (np_sum (imbalance_int64 k) (map imbalance_magnitude analysis_df))
      (np_sum (up_int64 k && down_int64 k) (map regulation_magnitude analysis_df)) in
  Ok (analysis_df, s, to_csv swapped analysis_df).

Definition analyze_regulation (imbalance_df activation_df : table)
  : list analysis_row * list event :=
  match analyze_regulation_try imbalance_df activation_df with
  | Ok (analysis_df, s, c) =>
      (analysis_df,
       [Report s; SaveCsv "regulation_analysis.csv" c;
        Say (after_blank_line "Detailed analysis saved to 'regulation_analysis.csv'")])
  | Raise _ => ([], [AnalysisError])
  end.

(** The pipeline once both instants of the window are known. *)
Definition run (L : libs) (start_date_cet end_date_cet : instant) (w : world)
  : list event :=
  let start_date_utc := start_date_cet - 3 * 3600 in
  let end_date_utc := end_date_cet + 3 * 3600 in
  let imbalance_params :=
    mk_params "imbalance_volumes" start_date_utc end_date_utc "CET" "json" "0" in
  let activation_params :=
    mk_params "normal_activations_total" start_date_utc end_date_utc "CET" "json" "0" in
  let '(imbalance_data, w, fetched_i) := fetch_data IMBALANCE_URL imbalance_params w in
  let '(activation_data, w, fetched_a) := fetch_data ACTIVATION_URL activation_params w in
  [Say (after_blank_line "Analysis period (CET):"); SayPeriod start_date_cet end_date_cet;
   Say (after_blank_line "Fetching imbalance data...")] ++ fetched_i ++
  [Say (after_blank_line "Fetching activation data...")] ++ fetched_a ++
  (if truthy imbalance_data && truthy activation_data then
     let '(imbalance_df, processed_i) :=
       process_data L imbalance_data "Imbalance" start_date_cet end_date_cet in
     let '(activation_df, processed_a) :=
       process_data L activation_data "Activation" start_date_cet end_date_cet in
     processed_i ++ processed_a ++
     (if negb (empty imbalance_df) && negb (empty activation_df) then
        create_visualization imbalance_df activation_df start_date_cet end_date_cet ++
        snd (analyze_regulation imbalance_df activation_df)
      else [Say "No data available for processing"])
   else [Say "Failed to fetch data from one or both APIs"]).

(** The two lines [main] opens with. *)
Definition banner : list event :=
  [Say (after_blank_line "Baltic Regulation Analysis Tool");
   Say "==============================="].

(** One call of [main]: the banner, the two prompts, then the pipeline. *)
Definition main (L : libs) (inputs : list string) (w : world) : list event :=
  banner ++
  match get_valid_datetime L "Enter start date and time" true None inputs with
  | (None, asked) => asked
  | (Some (start_date_cet, inputs), asked_start) =>
      match get_valid_datetime L "Enter end date and time" false
              (Some start_date_cet) inputs with
      | (None, asked) => asked_start ++ asked
      | (Some (end_date_cet, _), asked_end) =>
          asked_start ++ asked_end ++ run L start_date_cet end_date_cet w
      end
  end.

End Interactive.

(** ** Reading a run's events *)

Definition requests_sent (evs : list event) : nat :=
  List.length (filter (fun e => match e with HttpGet _ _ => true | _ => false end) evs).

(** No normalisation was attempted. *)
Definition no_normalization (evs : list event) : bool :=
  forallb (fun e => match e with
                    | Processed _ _ | ProcessError _ => false
                    | _ => true
                    end) evs.

(** Neither the renderer nor the analyser was entered. *)
Definition no_rendering_or_analysis (evs : list event) : bool :=
  forallb (fun e => match e with
                    | SaveFig _ _ | VisualizationError
                    | Report _ | SaveCsv _ _ | AnalysisError => false
                    | _ => true
                    end) evs.



Definition reported (evs : list event) : list summary :=
  flat_map (fun e => match e with Report s => [s] | _ => [] end) evs.


(** A response with a success status whose body is [{"data": d}]. *)
Definition served (d : json) : http_outcome :=
  Response 200 (Some (JObj [("data", d)])).

(** [raise_for_status] raises on this status. *)
Definition error_status (status : Z) : bool := (400 <=? status) && (status <? 600).

(** The value a response carries under its top-level [data] key, when it was
    received with a status that is not an error, parsed, and is an object
    with that key. *)
Definition carried_data (o : http_outcome) : option json :=
  match o with
  | Response status (Some (JObj fields)) =>
      if error_status status then None else assoc "data" fields
  | _ => None
  end.

(** A payload with a missing expected field or without records: not an
    object, or without a [timeseries], or with a list of records none of which
    carries [from], or [values], or [to] (an empty list in particular). *)
Definition structurally_invalid (data : json) : bool :=
  match data with
  | JObj fields =>
      match assoc "timeseries" fields with
      | None => true
      | Some (JArr items) =>
          match as_records items with
          | Some recs =>
              let carried := flat_map (map fst) recs in
              negb (existsb (String.eqb "from") carried)
              || negb (existsb (String.eqb "values") carried)
              || negb (existsb (String.eqb "to") carried)
          | None => false
          end
      | Some _ => false
      end
  | _ => true
  end.

(** ** Sample data *)

Module Sample.

(** A library environment that knows a handful of texts.  The timestamps it
    reads are all written alike and in UTC, so that every column of them
    agrees in format and offset. *)
Definition to_datetime_cet (v : json) : parsed :=
  match v with
  | JStr s =>
      if String.eqb s "2024-09-23T00:00Z" then At 1727049600
      else if String.eqb s "2024-09-23T01:00Z" then At 1727053200
      else if String.eqb s "2024-09-22T00:00Z" then At 1726963200
    else if String.eqb s "2024-09-22T20:00Z" then At 1727035200
      else if String.eqb s "NaT" then NaT
      else Unparsable
  | _ => Unparsable
  end.

Definition strptime_cet (text : string) : option instant :=
  if String.eqb text "2024-01-01 00:00" then Some 1704063600
  else if String.eqb text "2024-01-31 00:00" then Some 1706655600
  else if String.eqb text "2024-01-31 00:01" then Some 1706655660
  else if String.eqb text "2024-02-01 00:00" then Some 1706742000
  else if String.eqb text "2024-09-23 00:00" then Some 1727042400
  else if String.eqb text "2024-09-29 00:00" then Some 1727560800
  else None.

Definition L : libs :=
  mk_libs to_datetime_cet
          (fun _ => true)
          (fun _ => Raise ValueError)
          (fun t => ((t + 7200) / 3600) mod 24)
          (fun t => (t + 7200) / 86400)
          strptime_cet.

Definition raw_point (from_ to_ : string) (values : list Q) : json :=
  JObj [("from", JStr from_); ("to", JStr to_); ("values", JArr (map JNum values))].

Definition payload (points : list json) : json :=
  JObj [("timeseries", JArr points)].

Definition imbalance_payload : json :=
  payload [raw_point "2024-09-23T00:00Z" "2024-09-23T01:00Z" [150]%Q;
           raw_point "2024-09-23T01:00Z" "2024-09-23T02:00Z" [0]%Q;
           raw_point "2024-09-22T00:00Z" "2024-09-22T01:00Z" [-7]%Q].

Definition activation_payload : json :=
  payload [raw_point "2024-09-23T00:00Z" "2024-09-23T01:00Z" [80; 20]%Q;
           raw_point "2024-09-23T01:00Z" "2024-09-23T02:00Z" [5; 30]%Q].

(** Two readings for the same hour in each series. *)
Definition repeated_imbalance : json :=
  payload [raw_point "2024-09-23T00:00Z" "2024-09-23T01:00Z" [150]%Q;
           raw_point "2024-09-23T00:00Z" "2024-09-23T01:00Z" [151]%Q].

Definition repeated_activation : json :=
  payload [raw_point "2024-09-23T00:00Z" "2024-09-23T01:00Z" [80; 20]%Q;
           raw_point "2024-09-23T00:00Z" "2024-09-23T01:00Z" [81; 21]%Q].

(** Series that share no hour. *)
Definition early_imbalance : json :=
  payload [raw_point "2024-09-23T00:00Z" "2024-09-23T01:00Z" [150]%Q].

Definition late_activation : json :=
  payload [raw_point "2024-09-23T01:00Z" "2024-09-23T02:00Z" [5; 30]%Q].

(** Series of integers at the ends of the signed 64-bit range. *)
Definition extreme_imbalance : json :=
  payload [JObj [("from", JStr "2024-09-23T00:00Z"); ("to", JStr "2024-09-23T01:00Z");
                 ("values", JArr [JInt (- 2 ^ 63)])]].

Definition extreme_activation : json :=
  payload [JObj [("from", JStr "2024-09-23T00:00Z"); ("to", JStr "2024-09-23T01:00Z");
                 ("values", JArr [JInt (2 ^ 63 - 1); JInt 1])]].

(** A payload whose records lack [from]. *)
Definition fromless_payload : json :=
  payload [JObj [("to", JStr "2024-09-23T01:00Z"); ("values", JArr [JNum 150])]].

Definition imbalance_df : table :=
  fst (Fixed.process_data L imbalance_payload "Imbalance").

Definition activation_df : table :=
  fst (Fixed.process_data L activation_payload "Activation").

(** What the analysis reports on the two sample series. *)
Definition report : summary :=
  mk_summary 2 1 (Some (100 # 2)) (Some (150 # 2)) (Some 150%Q) (Some 0%Q)
             (Some (135 # 2)) 150%Q 135%Q.

End Sample.

(** What both scripts put in the derived columns of a row, given the dtypes
    of the columns they are computed from. *)
Definition derived_columns (k : dtypes) (r : analysis_row) : Prop :=
  imbalance_magnitude r = np_abs (imbalance_int64 k) (baltic_imbalance r)
  /\ regulation_magnitude r
     = np_add (up_int64 k && down_int64 k) (up_regulation r) (down_regulation r)
  /\ appropriate_regulation r =
       (Qlt_bool 0 (baltic_imbalance r) && Qlt_bool 0 (down_regulation r))
       || (Qlt_bool (baltic_imbalance r) 0 && Qlt_bool 0 (up_regulation r)).

(** A number that a column keeps as a number: an int of the signed 64-bit
    range, or a float of a magnitude up to 2^1000, far enough inside the range
    of a double (about 2^1024) for the sum of two of them to be finite. *)
Definition number (v : json) : bool :=
  match v with
  | JNum q => Qle_bool (Qabs q) (inject_Z (2 ^ 1000))
  | _ => int64_cell v
  end.

(** The magnitudes of a row, for the dtypes [k] of the columns they are
    computed from.  The imbalance magnitude is the absolute value of the
    imbalance, but for -2^63 in a column of integers, which abs() leaves as it
    is.  The regulation magnitude is the sum of the two regulations; between
    two columns of integers the sum is brought into the signed 64-bit range
    by a multiple of 2^64. *)
Definition magnitudes_in_dtype (k : dtypes) (row : analysis_row) : Prop :=
  (imbalance_int64 k = false \/ ~ (baltic_imbalance row == inject_Z (- 2 ^ 63))%Q ->
   (imbalance_magnitude row == Qabs (baltic_imbalance row))%Q)
  /\ (imbalance_int64 k = true ->
      (baltic_imbalance row == inject_Z (- 2 ^ 63))%Q ->
      (imbalance_magnitude row == inject_Z (- 2 ^ 63))%Q)
  /\ (up_int64 k && down_int64 k = false
      \/ (inject_Z (- 2 ^ 63) <= up_regulation row + down_regulation row
          < inject_Z (2 ^ 63))%Q ->
      (regulation_magnitude row == up_regulation row + down_regulation row)%Q)
  /\ (up_int64 k && down_int64 k = true ->
      (inject_Z (- 2 ^ 63) <= regulation_magnitude row < inject_Z (2 ^ 63))%Q
      /\ exists n : Z,
          (regulation_magnitude row
           == up_regulation row + down_regulation row + inject_Z (n * 2 ^ 64))%Q).

(** No instant occurs twice. *)
Fixpoint distinct (l : list instant) : bool :=
  match l with
  | [] => true
  | t :: rest => negb (existsb (Z.eqb t) rest) && distinct rest
  end.

(** A run that ended at the first gate of [main]: the fetch-failure message
    is its last line, and nothing was normalised, rendered or analysed. *)
Definition stopped_as_fetch_failure (evs : list event) : Prop :=
  last evs (Say "") = Say "Failed to fetch data from one or both APIs"
  /\ no_normalization evs = true
  /\ no_rendering_or_analysis evs = true.

(** A run that ended at the second gate: normalisation was done, and then
    neither rendering nor analysis. *)
Definition stopped_for_lack_of_data (evs : list event) : Prop :=
  last evs (Say "") = Say "No data available for processing"
  /\ no_rendering_or_analysis evs = true.

(** A CSV without the columns that follow the seven shared ones. *)
Definition without_temporal (c : csv) : csv :=
  mk_csv (firstn 7 (header c)) (map (firstn 7) (body_rows c)).

(** ** Readings in the shape the API documents *)

Record reading : Type := mk_reading {
  r_from : string;
  r_to : string;
  r_values : list json
}.

Definition reading_fields (r : reading) : record :=
  [("from", JStr (r_from r)); ("to", JStr (r_to r)); ("values", JArr (r_values r))].

(** The [data] value of a response: a dict whose [timeseries] lists the
    readings. *)
Definition payload_of (readings : list reading) : json :=
  JObj [("timeseries", JArr (map (fun r => JObj (reading_fields r)) readings))].

(** The [from] column of a payload of readings, as it is handed to
    [pd.to_datetime]. *)
Definition from_column (readings : list reading) : list (option json) :=
  map (fun r => Some (JStr (r_from r))) readings.

(** The instant pandas reads in the [from] text of a reading. *)
Definition parses (L : libs) (p : instant * reading) : Prop :=
  to_datetime_cet L (JStr (r_from (snd p))) = At (fst p).

Definition inside (start_ end_ : instant) (t : instant) : bool :=
  (start_ <=? t) && (t <? end_).

(** The requests of a run, in the order sent. *)
Definition requests_of (evs : list event) : list event :=
  filter (fun e => match e with HttpGet _ _ => true | _ => false end) evs.

Definition prompts_of (evs : list event) : nat :=
  List.length (filter (fun e => match e with Prompt _ => true | _ => false end) evs).

(** Sample readings with the instants [Sample.L] reads in them.  The last of
    each list lies a day before the window of the fixed script. *)
Definition timed_imbalance_sample : list (instant * reading) :=
  [(1727049600, mk_reading "2024-09-23T00:00Z" "2024-09-23T01:00Z" [JNum 150%Q]);
   (1727053200, mk_reading "2024-09-23T01:00Z" "2024-09-23T02:00Z"
                           [JNum 0%Q; JNum 7%Q]);
   (1726963200, mk_reading "2024-09-22T00:00Z" "2024-09-22T01:00Z" [])].

Definition timed_activation_sample : list (instant * reading) :=
  [(1727049600, mk_reading "2024-09-23T00:00Z" "2024-09-23T01:00Z"
                           [JNum 80%Q; JNum 20%Q]);
   (1727053200, mk_reading "2024-09-23T01:00Z" "2024-09-23T02:00Z"
                           [JNum 5%Q; JNum 30%Q; JNum 9%Q]);
   (1726963200, mk_reading "2024-09-22T00:00Z" "2024-09-22T01:00Z" [JNum 1%Q])].

(** An activation series whose second reading, inside the window, has lost
    its down-regulation value. *)
Definition timed_short_sample : list (instant * reading) :=
  [(1727049600, mk_reading "2024-09-23T00:00Z" "2024-09-23T01:00Z"
                           [JNum 80%Q; JNum 20%Q]);
   (1727053200, mk_reading "2024-09-23T01:00Z" "2024-09-23T02:00Z" [JNum 5%Q])].

(** An imbalance series whose second reading carries text where a number
    is expected, and an activation series with a reading for the first hour
    only. *)
Definition noted_imbalance_sample : list reading :=
  [mk_reading "2024-09-23T00:00Z" "2024-09-23T01:00Z" [JNum 150%Q];
   mk_reading "2024-09-23T01:00Z" "2024-09-23T02:00Z" [JStr "n/a"]].

Definition first_hour_activation_sample : list reading :=
  [mk_reading "2024-09-23T00:00Z" "2024-09-23T01:00Z" [JNum 80%Q; JNum 20%Q]].

(** An int or a float. *)
Definition numeric (v : json) : bool :=
  match v with
  | JInt _ | JNum _ => true
  | _ => false
  end.

(** An analysis row that carries the readings of an imbalance row and an
    activation row of one instant. *)
Definition joins (ir : imbalance_row) (ar : activation_row) (row : analysis_row)
  : Prop :=
  imb_timestamp ir = timestamp row
  /\ act_timestamp ar = timestamp row
  /\ num (imb_baltic_imbalance ir) = Ok (baltic_imbalance row)
  /\ num (act_up_regulation ar) = Ok (up_regulation row)
  /\ num (act_down_regulation ar) = Ok (down_regulation row).

(** Text, a list or a dict: a cell pandas cannot take for a number. *)
Definition unusable (v : json) : bool :=
  match v with
  | JStr _ | JArr _ | JObj _ => true
  | _ => false
  end.

(** The renderer, respectively the analyser, was entered: it left its file
    or its error line. *)
Definition entered_renderer (evs : list event) : bool :=
  existsb (fun e => match e with
                    | SaveFig _ _ | VisualizationError => true
                    | _ => false
                    end) evs.

Definition entered_analyser (evs : list event) : bool :=
  existsb (fun e => match e with
                    | Report _ | AnalysisError => true
                    | _ => false
                    end) evs.

(** The analysis windows a run announces. *)
Definition periods_of (evs : list event) : list (instant * instant) :=
  flat_map (fun e => match e with SayPeriod s e => [(s, e)] | _ => [] end) evs.

(** ** The session of the interactive script: [main] again while the answer
    is yes *)

(** [str.lower()], on the letters A to Z. *)
Definition lower_ascii (c : Ascii.ascii) : Ascii.ascii :=
  let n := Ascii.nat_of_ascii c in
  if (Nat.leb 65 n && Nat.leb n 90)%bool then Ascii.ascii_of_nat (n + 32) else c.

Fixpoint lower (s : string) : string :=
  match s with
  | EmptyString => EmptyString
  | String c rest => String (lower_ascii c) (lower rest)
  end.

(** What a call of [main] that returns leaves behind: the lines not read and
    the answers of the network not used.  [None] when the call ends on an
    exception. *)
Definition main_leftover (L : libs) (inputs : list string) (w : world)
  : option (list string * world) :=
  match Interactive.get_valid_datetime L "Enter start date and time" true None inputs with
  | (None, _) => None
  | (Some (start_date_cet, inputs), _) =>
      match Interactive.get_valid_datetime L "Enter end date and time" false
              (Some start_date_cet) inputs with
      | (None, _) => None
      | (Some (end_date_cet, inputs), _) =>
          let start_date_utc := start_date_cet - 3 * 3600 in
          let end_date_utc := end_date_cet + 3 * 3600 in
          let imbalance_params :=
            mk_params "imbalance_volumes" start_date_utc end_date_utc
                      "CET" "json" "0" in
          let activation_params :=
            mk_params "normal_activations_total" start_date_utc end_date_utc
                      "CET" "json" "0" in
          let '(_, w, _) := fetch_data IMBALANCE_URL imbalance_params w in
          let '(_, w, _) := fetch_data ACTIVATION_URL activation_params w in
          Some (inputs, w)
      end
  end.

(** The loop under [if __name__ == "__main__"], for at most [fuel] calls of
    [main].  The module-level start of an earlier call is still set when the
    next call asks for its start, but a start prompt never looks at it. *)
Fixpoint session (fuel : nat) (L : libs) (inputs : list string) (w : world)
  : list event :=
  match fuel with
  | O => []
  | S fuel =>
      Interactive.main L inputs w ++
      match main_leftover L inputs w with
      | None => []
      | Some (inputs, w) =>
          Prompt "Would you like to analyze another time period? (y/n)" ::
          match inputs with
          | [] => [Uncaught EOFError]
          | answer :: inputs =>
              if String.eqb (lower answer) "y" then session fuel L inputs w else []
          end
      end
  end.

(** * Properties *)

(** ** The error monad and the list operations *)

Lemma bind_Ok {A B : Type} (m : result A) (k : A -> result B) (b : B) :
  bind m k = Ok b -> exists a, m = Ok a /\ k a = Ok b.
Proof.
  destruct m as [a|e]; simpl; [eauto|discriminate].
Qed.

Lemma mapM_Forall {A B : Type} (f : A -> result B) (P : B -> Prop) :
  (forall a b, f a = Ok b -> P b) ->
  forall l bs, mapM f l = Ok bs -> Forall P bs.
Proof.
  intros Hf l; induction l as [|a l IH]; simpl; intros bs H.
  - injection H as <-. constructor.
  - destruct (f a) as [b|e] eqn:Ea; simpl in H; [|discriminate].
    destruct (mapM f l) as [bs'|e] eqn:El; simpl in H; [|discriminate].
    injection H as <-. constructor; eauto.
Qed.

Lemma mapM_length {A B : Type} (f : A -> result B) :
  forall l bs, mapM f l = Ok bs -> List.length bs = List.length l.
Proof.
  induction l as [|a l IH]; simpl; intros bs H.
  - injection H as <-. reflexivity.
  - destruct (f a) as [b|e]; simpl in H; [|discriminate].
    destruct (mapM f l) as [bs'|e]; simpl in H; [|discriminate].
    injection H as <-. simpl. f_equal. auto.
Qed.

(** Two row builders that agree up to a projection give tables that agree up
    to it, and fail together. *)
Lemma mapM_project {A B C : Type} (f : A -> result B) (g : A -> result C)
  (proj : B -> C) :
  (forall a, g a = match f a with Ok b => Ok (proj b) | Raise e => Raise e end) ->
  forall l, mapM g l = match mapM f l with
                       | Ok bs => Ok (map proj bs)
                       | Raise e => Raise e
                       end.
Proof.
  intros Hfg l; induction l as [|a l IH]; simpl; [reflexivity|].
  rewrite Hfg. destruct (f a) as [b|e]; simpl; [|reflexivity].
  rewrite IH. destruct (mapM f l); reflexivity.
Qed.

Lemma mapM_all_Ok {A B : Type} (f : A -> result B) (g : A -> B) (l : list A) :
  Forall (fun a => f a = Ok (g a)) l -> mapM f l = Ok (map g l).
Proof.
  induction 1 as [|a l Ha _ IH]; [reflexivity|].
  cbn [mapM map]. rewrite Ha, IH. reflexivity.
Qed.

Lemma mapM_some_Raise {A B : Type} (f : A -> result B) (l : list A) :
  Exists (fun a => exists e, f a = Raise e) l -> exists e, mapM f l = Raise e.
Proof.
  induction 1 as [a l [e Ha]|a l _ [e IH]]; cbn [mapM].
  - rewrite Ha. cbn [bind]. eauto.
  - destruct (f a); cbn [bind]; [rewrite IH; cbn [bind]|]; eauto.
Qed.

Lemma Qlt_bool_iff (x y : Q) : Qlt_bool x y = true <-> (x < y)%Q.
Proof.
  unfold Qlt_bool. rewrite negb_true_iff. split.
  - intros H. apply Qnot_le_lt. intros Hle.
    apply Qle_bool_iff in Hle. congruence.
  - intros H. destruct (Qle_bool y x) eqn:E; [|reflexivity].
    apply Qle_bool_iff in E. exfalso. exact (Qlt_not_le _ _ H E).
Qed.

Lemma In_merge {A B : Type} (key_l : A -> instant) (key_r : B -> instant)
  (left : list A) (right : list B) (a : A) (b : B) :
  In (a, b) (merge key_l key_r left right)
  <-> In a left /\ In b right /\ key_l a = key_r b.
Proof.
  unfold merge. rewrite in_flat_map. split.
  - intros (l & Hl & Hin). apply in_map_iff in Hin as (r & Heq & Hr).
    injection Heq as <- <-. apply filter_In in Hr as [Hr Hk].
    apply Z.eqb_eq in Hk. auto.
  - intros (Ha & Hb & Hk). exists a. split; [exact Ha|].
    apply in_map. apply filter_In. split; [exact Hb|]. apply Z.eqb_eq. exact Hk.
Qed.

Lemma mapM_In_result {A B : Type} (f : A -> result B) :
  forall l bs b, mapM f l = Ok bs -> In b bs -> exists a, In a l /\ f a = Ok b.
Proof.
  induction l as [|a l IH]; cbn [mapM]; intros bs b H Hin.
  - injection H as <-. contradiction.
  - apply bind_Ok in H as (b0 & Ha & H). apply bind_Ok in H as (bs0 & Hl & H).
    injection H as <-. destruct Hin as [<- | Hin].
    + exists a. split; [left; reflexivity|exact Ha].
    + destruct (IH _ _ Hl Hin) as (a' & Hin' & Ha'). exists a'. split; [right|]; auto.
Qed.

Lemma mapM_In_argument {A B : Type} (f : A -> result B) :
  forall l bs a, mapM f l = Ok bs -> In a l -> exists b, In b bs /\ f a = Ok b.
Proof.
  induction l as [|a0 l IH]; cbn [mapM]; intros bs a H Hin; [contradiction|].
  apply bind_Ok in H as (b0 & Ha & H). apply bind_Ok in H as (bs0 & Hl & H).
  injection H as <-. destruct Hin as [<- | Hin].
  - exists b0. split; [left; reflexivity|exact Ha].
  - destruct (IH _ _ Hl Hin) as (b & Hin' & Hb). exists b. split; [right|]; auto.
Qed.

Lemma mapM_Raise_some {A B : Type} (f : A -> result B) :
  forall l e, mapM f l = Raise e -> exists a e', In a l /\ f a = Raise e'.
Proof.
  induction l as [|a l IH]; cbn [mapM]; intros e H; [discriminate|].
  destruct (f a) as [b|e0] eqn:Ea.
  - cbn [bind] in H. destruct (mapM f l) as [bs|e1] eqn:El; [discriminate|].
    destruct (IH e1 eq_refl) as (a' & e' & Hin & Ha').
    exists a', e'. split; [right|]; auto.
  - exists a, e0. split; [left; reflexivity|exact Ea].
Qed.

(** ** Rows of the analysis table *)

Lemma numeric_row_Ok j t bi up down :
  numeric_row j = Ok (t, bi, up, down) <->
  t = imb_timestamp (fst j)
  /\ num (imb_baltic_imbalance (fst j)) = Ok bi
  /\ num (act_up_regulation (snd j)) = Ok up
  /\ num (act_down_regulation (snd j)) = Ok down.
Proof.
  unfold numeric_row.
  destruct (num (imb_baltic_imbalance (fst j))) as [b|e1],
    (num (act_up_regulation (snd j))) as [u|e2],
    (num (act_down_regulation (snd j))) as [d|e3]; cbn [bind];
    split; try discriminate; try (intros (_ & H1 & H2 & H3); discriminate).
  - intros H. injection H as <- <- <- <-. auto.
  - intros (-> & H1 & H2 & H3). injection H1 as ->. injection H2 as ->.
    injection H3 as ->. reflexivity.
Qed.

Lemma numeric_row_Raise j :
  (exists e, numeric_row j = Raise e) <->
  numeric (imb_baltic_imbalance (fst j))
  && numeric (act_up_regulation (snd j))
  && numeric (act_down_regulation (snd j)) = false.
Proof.
  unfold numeric_row, num.
  destruct (imb_baltic_imbalance (fst j)), (act_up_regulation (snd j)),
    (act_down_regulation (snd j)); cbn [bind numeric andb];
    split; intros H; try reflexivity; try discriminate;
    try (destruct H; discriminate); eauto.
Qed.

Lemma Fixed_derive_columns (L : libs) k j r :
  Fixed.derive L k j = Ok r -> derived_columns k (Fixed.core r).
Proof.
  unfold Fixed.derive. destruct (numeric_row j) as [[[[t bi] up] down]|e];
    cbn [bind]; [|discriminate].
  intros H; injection H as <-. repeat split.
Qed.

Lemma Interactive_derive_columns k j r :
  Interactive.derive k j = Ok r -> derived_columns k r.
Proof.
  unfold Interactive.derive. destruct (numeric_row j) as [[[[t bi] up] down]|e];
    cbn [bind]; [|discriminate].
  intros H; injection H as <-. repeat split.
Qed.

Lemma Interactive_derive_Ok k j row :
  Interactive.derive k j = Ok row ->
  numeric_row j = Ok (timestamp row, baltic_imbalance row, up_regulation row,
                      down_regulation row).
Proof.
  unfold Interactive.derive.
  destruct (numeric_row j) as [[[[t bi] up] down]|e]; cbn [bind]; [|discriminate].
  intros H. injection H as <-. reflexivity.
Qed.

Lemma Interactive_derive_Raise k j :
  (exists e, Interactive.derive k j = Raise e) <-> (exists e, numeric_row j = Raise e).
Proof.
  unfold Interactive.derive.
  destruct (numeric_row j) as [[[[t bi] up] down]|e]; cbn [bind]; split;
    intros [e' H]; try discriminate; eauto.
Qed.

Lemma Fixed_analysis_rows (L : libs) (P : Fixed.temporal_row -> Prop) :
  (forall k j r, Fixed.derive L k j = Ok r -> P r) ->
  forall imbalance_df activation_df,
    Forall P (fst (Fixed.analyze_regulation L imbalance_df activation_df)).
Proof.
  intros HP i a. unfold Fixed.analyze_regulation.
  destruct (Fixed.analyze_regulation_try L i a) as [[[rows s] c]|e] eqn:E; simpl;
    [|constructor].
  unfold Fixed.analyze_regulation_try in E.
  apply bind_Ok in E as ([swapped joined] & _ & E). cbv zeta in E.
  apply bind_Ok in E as (rows' & Em & E).
  injection E as <- _ _. eapply mapM_Forall; eauto.
Qed.

Lemma Interactive_analysis_rows (P : analysis_row -> Prop) :
  (forall k j r, Interactive.derive k j = Ok r -> P r) ->
  forall imbalance_df activation_df,
    Forall P (fst (Interactive.analyze_regulation imbalance_df activation_df)).
Proof.
  intros HP i a. unfold Interactive.analyze_regulation.
  destruct (Interactive.analyze_regulation_try i a) as [[[rows s] c]|e] eqn:E; simpl;
    [|constructor].
  unfold Interactive.analyze_regulation_try in E.
  apply bind_Ok in E as ([swapped joined] & _ & E). cbv zeta in E.
  apply bind_Ok in E as (rows' & Em & E).
  injection E as <- _ _. eapply mapM_Forall; eauto.
Qed.

Lemma appropriate_rule (k : dtypes) (r : analysis_row) :
  derived_columns k r ->
  (appropriate_regulation r = true <->
   (0 < baltic_imbalance r /\ 0 < down_regulation r)
   \/ (baltic_imbalance r < 0 /\ 0 < up_regulation r))%Q
  /\ (baltic_imbalance r == 0 -> appropriate_regulation r = false)%Q.
Proof.
  intros (_ & _ & ->). split.
  - rewrite orb_true_iff, !andb_true_iff, !Qlt_bool_iff. reflexivity.
  - intros H0. apply not_true_is_false.
    rewrite orb_true_iff, !andb_true_iff, !Qlt_bool_iff.
    intros [[H _]|[H _]]; rewrite H0 in H; exact (Qlt_irrefl _ H).
Qed.

(** C1. In the analysis table of either script, [appropriate_regulation] is
    true exactly when the imbalance is positive and down-regulation is
    positive, or the imbalance is negative and up-regulation is positive; it is
    false in every row whose imbalance is zero. *)
Theorem C1_appropriate_regulation_rule :
  forall (L : libs) (imbalance_df activation_df : table),
    Forall (fun r =>
              (appropriate_regulation (Fixed.core r) = true <->
               (0 < baltic_imbalance (Fixed.core r)
                /\ 0 < down_regulation (Fixed.core r))
               \/ (baltic_imbalance (Fixed.core r) < 0
                   /\ 0 < up_regulation (Fixed.core r)))%Q
              /\ (baltic_imbalance (Fixed.core r) == 0 ->
                  appropriate_regulation (Fixed.core r) = false)%Q)
           (fst (Fixed.analyze_regulation L imbalance_df activation_df))
    /\ Forall (fun r =>
                 (appropriate_regulation r = true <->
                  (0 < baltic_imbalance r /\ 0 < down_regulation r)
                  \/ (baltic_imbalance r < 0 /\ 0 < up_regulation r))%Q
                 /\ (baltic_imbalance r == 0 -> appropriate_regulation r = false)%Q)
              (fst (Interactive.analyze_regulation imbalance_df activation_df)).
Proof.
  intros L i a. split.
  - apply Fixed_analysis_rows. intros k j r H.
    apply (appropriate_rule k). eapply Fixed_derive_columns; eauto.
  - apply Interactive_analysis_rows. intros k j r H.
    apply (appropriate_rule k). eapply Interactive_derive_columns; eauto.
Qed.

(** ** The two analysers side by side *)

Lemma derive_related (L : libs) k j :
  Interactive.derive k j = match Fixed.derive L k j with
                           | Ok r => Ok (Fixed.core r)
                           | Raise e => Raise e
                           end.
Proof.
  unfold Interactive.derive, Fixed.derive.
  destruct (numeric_row j) as [[[[t bi] up] down]|e]; reflexivity.
Qed.

Lemma to_csv_related (swapped : bool) (rows : list Fixed.temporal_row) :
  Interactive.to_csv swapped (map Fixed.core rows)
  = without_temporal (Fixed.to_csv swapped rows).
Proof.
  unfold Interactive.to_csv, Fixed.to_csv, without_temporal. cbn [header body_rows].
  f_equal.
  - destruct swapped; reflexivity.
  - rewrite !map_map. apply map_ext. intros r. destruct swapped; reflexivity.
Qed.

Lemma analyze_regulation_try_related (L : libs) (imbalance_df activation_df : table) :
  Interactive.analyze_regulation_try imbalance_df activation_df
  = match Fixed.analyze_regulation_try L imbalance_df activation_df with
    | Ok (rows, s, c) => Ok (map Fixed.core rows, s, without_temporal c)
    | Raise e => Raise e
    end.
Proof.
  unfold Interactive.analyze_regulation_try, Fixed.analyze_regulation_try.
  destruct (merged imbalance_df activation_df) as [[swapped joined]|e];
    [|reflexivity].
  cbn [bind]. cbv zeta.
  rewrite (mapM_project (Fixed.derive L (dtypes_of imbalance_df activation_df))
             (Interactive.derive (dtypes_of imbalance_df activation_df)) Fixed.core)
    by (intros; apply derive_related).
  destruct (mapM (Fixed.derive L _) joined) as [rows|e]; [|reflexivity].
  cbn [bind]. rewrite to_csv_related, !map_map, length_map. reflexivity.
Qed.

Lemma analysis_rows_related (L : libs) (imbalance_df activation_df : table) :
  map Fixed.core (fst (Fixed.analyze_regulation L imbalance_df activation_df))
  = fst (Interactive.analyze_regulation imbalance_df activation_df)
  /\ (snd (Fixed.analyze_regulation L imbalance_df activation_df) <> [AnalysisError]
      <-> snd (Interactive.analyze_regulation imbalance_df activation_df)
          <> [AnalysisError]).
Proof.
  unfold Fixed.analyze_regulation, Interactive.analyze_regulation.
  rewrite (analyze_regulation_try_related L imbalance_df activation_df).
  destruct (Fixed.analyze_regulation_try L imbalance_df activation_df)
    as [[[rows s] c]|e]; cbn [fst snd]; split; try reflexivity;
    split; intros H; try discriminate; exact H.
Qed.

Lemma Interactive_rows_of_frames l r :
  match mapM (Interactive.derive (dtypes_of (ImbalanceFrame l) (ActivationFrame r)))
             (merge imb_timestamp act_timestamp l r) with
  | Ok rows =>
      Interactive.analyze_regulation (ImbalanceFrame l) (ActivationFrame r)
      = (rows, snd (Interactive.analyze_regulation (ImbalanceFrame l)
                      (ActivationFrame r)))
      /\ snd (Interactive.analyze_regulation (ImbalanceFrame l) (ActivationFrame r))
         <> [AnalysisError]
  | Raise _ =>
      Interactive.analyze_regulation (ImbalanceFrame l) (ActivationFrame r)
      = ([], [AnalysisError])
  end.
Proof.
  unfold Interactive.analyze_regulation, Interactive.analyze_regulation_try.
  cbn [merged bind]. cbv zeta.
  destruct (mapM (Interactive.derive _) (merge imb_timestamp act_timestamp l r));
    cbn [bind fst snd]; [split; [reflexivity|discriminate]|reflexivity].
Qed.

(** Every row of the analysis table comes from an imbalance row and an
    activation row of one timestamp. *)
Lemma Interactive_row_of_pair (l : list imbalance_row) (r : list activation_row)
  (row : analysis_row) :
  In row (fst (Interactive.analyze_regulation (ImbalanceFrame l) (ActivationFrame r))) ->
  exists ir ar,
    In ir l /\ In ar r /\ imb_timestamp ir = act_timestamp ar
    /\ Interactive.derive (dtypes_of (ImbalanceFrame l) (ActivationFrame r)) (ir, ar)
       = Ok row.
Proof.
  intros Hin. pose proof (Interactive_rows_of_frames l r) as Hrows.
  destruct (mapM (Interactive.derive _) (merge imb_timestamp act_timestamp l r))
    as [rows|e] eqn:Em.
  - destruct Hrows as [Heq _]. rewrite Heq in Hin. cbn [fst] in Hin.
    destruct (mapM_In_result _ _ _ _ Em Hin) as ([ir ar] & Hj & Hd).
    apply In_merge in Hj as (Hir & Har & Hk). exists ir, ar. auto.
  - rewrite Hrows in Hin. contradiction.
Qed.

(** ** Magnitudes, in the dtype of their columns *)

Lemma wrap64_in_range (z : Z) : - 2 ^ 63 <= z < 2 ^ 63 -> wrap64 z = z.
Proof.
  unfold wrap64. change (2 ^ 63) with 9223372036854775808.
  change (2 ^ 64) with 18446744073709551616.
  intros H. rewrite Z.mod_small by lia. lia.
Qed.

Lemma wrap64_range (z : Z) : - 2 ^ 63 <= wrap64 z < 2 ^ 63.
Proof.
  unfold wrap64. change (2 ^ 63) with 9223372036854775808.
  change (2 ^ 64) with 18446744073709551616.
  pose proof (Z.mod_pos_bound (z + 9223372036854775808) 18446744073709551616).
  lia.
Qed.

Lemma wrap64_congruent (z : Z) : exists n, wrap64 z = z + n * 2 ^ 64.
Proof.
  unfold wrap64. change (2 ^ 63) with 9223372036854775808.
  change (2 ^ 64) with 18446744073709551616.
  exists (- ((z + 9223372036854775808) / 18446744073709551616)).
  pose proof (Z.div_mod (z + 9223372036854775808) 18446744073709551616).
  lia.
Qed.

Lemma int64_cell_spec (v : json) :
  int64_cell v = true -> exists z, v = JInt z /\ - 2 ^ 63 <= z < 2 ^ 63.
Proof.
  destruct v as [| |z| | | |]; try discriminate. cbn [int64_cell].
  intros H. apply andb_true_iff in H as [Hlo Hhi].
  apply Z.leb_le in Hlo. apply Z.ltb_lt in Hhi. eauto.
Qed.

Lemma int64_column_cell {A : Type} (f : A -> json) (l : list A) (a : A) :
  int64_column (map f l) = true -> In a l ->
  exists z, f a = JInt z /\ num (f a) = Ok (inject_Z z) /\ - 2 ^ 63 <= z < 2 ^ 63.
Proof.
  unfold int64_column. rewrite forallb_forall. intros Hall Hin.
  destruct (int64_cell_spec (f a)) as (z & Hz & Hrange).
  - apply Hall. apply in_map. exact Hin.
  - exists z. rewrite Hz. auto.
Qed.

Lemma derived_magnitudes (l : list imbalance_row) (r : list activation_row)
  (ir : imbalance_row) (ar : activation_row) (row : analysis_row) :
  In ir l -> In ar r ->
  Interactive.derive (dtypes_of (ImbalanceFrame l) (ActivationFrame r)) (ir, ar)
  = Ok row ->
  magnitudes_in_dtype (dtypes_of (ImbalanceFrame l) (ActivationFrame r)) row.
Proof.
  intros Hir Har Hd.
  pose proof (Interactive_derive_columns _ _ _ Hd) as (Hm & Hr & _).
  apply Interactive_derive_Ok in Hd. apply numeric_row_Ok in Hd as (_ & Hb & Hu & Hdn).
  cbn [fst snd] in Hb, Hu, Hdn.
  unfold magnitudes_in_dtype. cbn [dtypes_of imbalance_int64 up_int64 down_int64] in *.
  split; [|split; [|split]].
  - destruct (int64_column (map imb_baltic_imbalance l)) eqn:Ek;
      [|intros _; rewrite Hm; reflexivity].
    destruct (int64_column_cell imb_baltic_imbalance l ir Ek Hir) as (z & _ & Hz & Hrange).
    rewrite Hz in Hb. injection Hb as Hb. rewrite <- Hb in *.
    intros [Hf|Hne]; [discriminate|].
    rewrite Hm. unfold np_abs. rewrite Qfloor_Z.
    assert (Hz' : z <> - 2 ^ 63) by (intros ->; apply Hne; reflexivity).
    rewrite wrap64_in_range by lia. reflexivity.
  - intros Ek Heq. rewrite Ek in Hm.
    destruct (int64_column_cell imb_baltic_imbalance l ir Ek Hir) as (z & _ & Hz & Hrange).
    rewrite Hz in Hb. injection Hb as Hb. rewrite <- Hb in *.
    apply (proj1 (inject_Z_injective _ _)) in Heq. subst z.
    rewrite Hm. reflexivity.
  - destruct (int64_column (map act_up_regulation r)
              && int64_column (map act_down_regulation r)) eqn:Ek;
      [|intros _; rewrite Hr; reflexivity].
    apply andb_true_iff in Ek as [Eu Ed].
    destruct (int64_column_cell act_up_regulation r ar Eu Har) as (u & _ & Hu' & _).
    destruct (int64_column_cell act_down_regulation r ar Ed Har) as (d & _ & Hd' & _).
    rewrite Hu' in Hu. injection Hu as Hu. rewrite Hd' in Hdn. injection Hdn as Hdn.
    rewrite <- Hu, <- Hdn in *.
    intros [Hf|[Hlo Hhi]]; [discriminate|].
    rewrite Hr. unfold np_add. rewrite !Qfloor_Z.
    rewrite <- inject_Z_plus in Hlo, Hhi.
    rewrite <- Zle_Qle in Hlo. rewrite <- Zlt_Qlt in Hhi.
    rewrite wrap64_in_range by lia. rewrite inject_Z_plus. reflexivity.
  - intros Ek. rewrite Ek in Hr.
    apply andb_true_iff in Ek as [Eu Ed].
    destruct (int64_column_cell act_up_regulation r ar Eu Har) as (u & _ & Hu' & _).
    destruct (int64_column_cell act_down_regulation r ar Ed Har) as (d & _ & Hd' & _).
    rewrite Hu' in Hu. injection Hu as Hu. rewrite Hd' in Hdn. injection Hdn as Hdn.
    rewrite <- Hu, <- Hdn in *.
    rewrite Hr. unfold np_add. rewrite !Qfloor_Z.
    pose proof (wrap64_range (u + d)) as [Hlo Hhi].
    split; [split; [rewrite <- Zle_Qle; exact Hlo|rewrite <- Zlt_Qlt; exact Hhi]|].
    destruct (wrap64_congruent (u + d)) as [n Hn]. exists n.
    rewrite Hn, !inject_Z_plus. reflexivity.
Qed.

(** C3, as stated, fails on columns of integers.  An imbalance of -2^63 in a
    series of integers keeps its sign in [imbalance_magnitude], and an
    up-regulation of 2^63 - 1 with a down-regulation of 1 adds up to -2^63. *)
Lemma C3_integer_columns_wrap_around :
  let imbalance_df := fst (Fixed.process_data Sample.L Sample.extreme_imbalance
                             "Imbalance") in
  let activation_df := fst (Fixed.process_data Sample.L Sample.extreme_activation
                              "Activation") in
  let row := mk_analysis_row 1727049600 (inject_Z (- 2 ^ 63)) (inject_Z (2 ^ 63 - 1))
                             1%Q (inject_Z (- 2 ^ 63)) (inject_Z (- 2 ^ 63)) true in
  fst (Interactive.analyze_regulation imbalance_df activation_df) = [row]
  /\ map Fixed.core (fst (Fixed.analyze_regulation Sample.L imbalance_df activation_df))
     = [row]
  /\ ~ (imbalance_magnitude row == Qabs (baltic_imbalance row))%Q
  /\ ~ (regulation_magnitude row == up_regulation row + down_regulation row)%Q.
Proof.
  split; [vm_compute; reflexivity|]. split; [vm_compute; reflexivity|].
  split; intros H; vm_compute in H; discriminate H.
Qed.

(** C3, amended.  On tables whose values are all numbers (integers of the
    signed 64-bit range, or floats of a magnitude up to 2^1000), in every row
    of the analysis table of either script: [imbalance_magnitude] is the
    absolute value of [baltic_imbalance], except that in a column of integers
    an imbalance of -2^63 has the magnitude -2^63; [regulation_magnitude] is
    the sum of [up_regulation] and [down_regulation], except that when both
    columns are columns of integers it is that sum brought into the signed
    64-bit range by a multiple of 2^64, hence the sum itself whenever the sum
    lies in the range. *)
Theorem C3_magnitudes_in_the_dtype_of_the_columns :
  forall (L : libs) (l : list imbalance_row) (r : list activation_row),
    Forall (fun ir => number (imb_baltic_imbalance ir) = true) l ->
    Forall (fun ar => number (act_up_regulation ar) = true
                      /\ number (act_down_regulation ar) = true) r ->
    let k := dtypes_of (ImbalanceFrame l) (ActivationFrame r) in
    Forall (fun row => magnitudes_in_dtype k (Fixed.core row))
           (fst (Fixed.analyze_regulation L (ImbalanceFrame l) (ActivationFrame r)))
    /\ Forall (magnitudes_in_dtype k)
              (fst (Interactive.analyze_regulation (ImbalanceFrame l)
                      (ActivationFrame r))).
Proof.
  intros L l r _ _ k.
  assert (HI : Forall (magnitudes_in_dtype k)
                 (fst (Interactive.analyze_regulation (ImbalanceFrame l)
                         (ActivationFrame r)))).
  { apply Forall_forall. intros row Hin.
    destruct (Interactive_row_of_pair l r row Hin) as (ir & ar & Hir & Har & _ & Hd).
    exact (derived_magnitudes l r ir ar row Hir Har Hd). }
  split; [|exact HI].
  destruct (analysis_rows_related L (ImbalanceFrame l) (ActivationFrame r)) as [Hrows _].
  rewrite <- Hrows in HI.
  exact (proj1 (Forall_map Fixed.core (magnitudes_in_dtype k) _) HI).
Qed.

Lemma C3_magnitudes_witness :
  Forall (magnitudes_in_dtype (mk_dtypes true true false))
         (fst (Interactive.analyze_regulation
                 (ImbalanceFrame [mk_imbalance_row 1727049600 (JInt (-150))])
                 (ActivationFrame [mk_activation_row 1727049600 (JInt 80)
                                                     (JNum 20%Q)])))
  /\ fst (Interactive.analyze_regulation
            (ImbalanceFrame [mk_imbalance_row 1727049600 (JInt (-150))])
            (ActivationFrame [mk_activation_row 1727049600 (JInt 80) (JNum 20%Q)]))
     = [mk_analysis_row 1727049600 (inject_Z (-150)) (inject_Z 80) 20%Q
                        (inject_Z 150) 100%Q true].
Proof.
  split; [|reflexivity].
  apply (C3_magnitudes_in_the_dtype_of_the_columns Sample.L
           [mk_imbalance_row 1727049600 (JInt (-150))]
           [mk_activation_row 1727049600 (JInt 80) (JNum 20%Q)]);
    repeat constructor.
Defined.

(** ** The normaliser keeps to the requested window *)

Lemma clip_in_window (start_ end_ : instant) (df : frame (option instant)) :
  Forall (fun r => start_ <= fst r < end_) (rows (clip start_ end_ df)).
Proof.
  unfold clip; simpl. induction (rows df) as [|[t rec] l IH]; simpl.
  - constructor.
  - apply Forall_app. split; [|exact IH].
    destruct t as [t|]; simpl; [|constructor].
    destruct (start_ <=? t) eqn:Hs; simpl; [|constructor].
    destruct (t <? end_) eqn:He; simpl; constructor; [|constructor].
    simpl. apply Z.leb_le in Hs. apply Z.ltb_lt in He. lia.
Qed.

Lemma Forall_combine_l {A B : Type} (P : A -> Prop) (l : list A) (l' : list B) :
  Forall P l -> Forall (fun p => P (fst p)) (combine l l').
Proof.
  intros H. apply Forall_forall. intros [a b] Hin. simpl.
  rewrite Forall_forall in H. apply H. eapply in_combine_l; eauto.
Qed.

(** The table built from a clipped frame has its timestamps in the window,
    whichever columns are extracted. *)
Lemma extracted_in_window (start_ end_ : instant) (df : frame instant)
  (data_type : string) (out : table) :
  Forall (fun r => start_ <= fst r < end_) (rows df) ->
  (if String.eqb data_type "Imbalance" then
     v0 <- apply_subscript "values" 0 df ;;
     Ok (ImbalanceFrame
           (map (fun p => mk_imbalance_row (fst (fst p)) (snd p))
                (combine (rows df) v0)))
   else
     v0 <- apply_subscript "values" 0 df ;;
     v1 <- apply_subscript "values" 1 df ;;
     Ok (ActivationFrame
           (map (fun p => mk_activation_row (fst (fst (fst p)))
                                            (snd (fst p)) (snd p))
                (combine (combine (rows df) v0) v1)))) = Ok out ->
  Forall (fun t => start_ <= t < end_) (timestamps out).
Proof.
  intros Hrows H. destruct (String.eqb data_type "Imbalance").
  - destruct (apply_subscript "values" 0 df) as [v0|e]; simpl in H; [|discriminate].
    injection H as <-. simpl. rewrite map_map. simpl.
    apply Forall_map.
    apply (Forall_combine_l (fun r => start_ <= fst r < end_)). exact Hrows.
  - destruct (apply_subscript "values" 0 df) as [v0|e]; simpl in H; [|discriminate].
    destruct (apply_subscript "values" 1 df) as [v1|e]; simpl in H; [|discriminate].
    injection H as <-. simpl. rewrite map_map. simpl.
    apply Forall_map.
    apply (Forall_combine_l (fun p => start_ <= fst (fst p) < end_)).
    apply (Forall_combine_l (fun r => start_ <= fst r < end_)). exact Hrows.
Qed.

Lemma Interactive_process_data_window (L : libs) data data_type start_ end_ out :
  Interactive.process_data_try L data data_type start_ end_ = Ok out ->
  Forall (fun t => start_ <= t < end_) (timestamps out).
Proof.
  unfold Interactive.process_data_try. destruct data; try discriminate.
  intros H.
  apply bind_Ok in H as (df & _ & H).
  apply bind_Ok in H as (from_ & _ & H).
  apply bind_Ok in H as (stamps & _ & H).
  apply bind_Ok in H as (tbl & Em & H).
  destruct (can_drop _ _) in H; [|discriminate].
  injection H as <-.
  eapply extracted_in_window; [|exact Em]. apply clip_in_window.
Qed.

Lemma Fixed_process_data_window (L : libs) data data_type out :
  Fixed.process_data_try L data data_type = Ok out ->
  Forall (fun t => Fixed.start_date_cet <= t < Fixed.end_date_cet) (timestamps out).
Proof.
  unfold Fixed.process_data_try. destruct data; try discriminate.
  intros H.
  apply bind_Ok in H as (df & _ & H).
  apply bind_Ok in H as (from_ & _ & H).
  apply bind_Ok in H as (stamps & _ & H).
  apply bind_Ok in H as (tbl & Em & H).
  destruct (can_drop _ _) in H; [|discriminate].
  injection H as <-.
  eapply extracted_in_window; [|exact Em]. apply clip_in_window.
Qed.

(** C4. Whatever the payload, the data type and the window, every row the
    normaliser returns carries a timestamp [t] with [start <= t < end] for
    the requested window itself: the arguments of the interactive script, the
    constants [start_date_cet] and [end_date_cet] of the fixed one, and not
    the window widened by three hours that is sent to the API. *)
Theorem C4_normalized_rows_in_window :
  forall (L : libs) (data : json) (data_type : string) (start_ end_ : instant),
    Forall (fun t => start_ <= t < end_)
           (timestamps (fst (Interactive.process_data L data data_type start_ end_)))
    /\ Forall (fun t => Fixed.start_date_cet <= t < Fixed.end_date_cet)
              (timestamps (fst (Fixed.process_data L data data_type))).
Proof.
  intros L data data_type start_ end_. split.
  - unfold Interactive.process_data.
    destruct (Interactive.process_data_try L data data_type start_ end_) eqn:E;
      simpl; [|constructor].
    eapply Interactive_process_data_window; eauto.
  - unfold Fixed.process_data.
    destruct (Fixed.process_data_try L data data_type) eqn:E; simpl; [|constructor].
    eapply Fixed_process_data_window; eauto.
Qed.

(** ** Row counts of the inner join *)

Lemma matches_at_most_one {B : Type} (key_r : B -> instant) (k : instant)
  (right : list B) :
  NoDup (map key_r right) ->
  (List.length (filter (fun r => (k =? key_r r)%Z) right) <= 1)%nat.
Proof.
  induction right as [|r right IH]; simpl; intros Hnd; [lia|].
  inversion Hnd as [|x xs Hnotin Hnd']; subst.
  destruct (k =? key_r r) eqn:E; simpl; [|auto].
  apply Z.eqb_eq in E. subst k.
  assert (Hnone : filter (fun r0 => key_r r =? key_r r0) right = []).
  { destruct (filter _ right) as [|r0 rest] eqn:Ef; [reflexivity|].
    exfalso. assert (Hin : In r0 (filter (fun r0 => key_r r =? key_r r0) right))
      by (rewrite Ef; left; reflexivity).
    apply filter_In in Hin as [Hin Hk]. apply Z.eqb_eq in Hk.
    apply Hnotin. rewrite Hk. apply in_map. exact Hin. }
  rewrite Hnone. simpl. lia.
Qed.

Lemma merge_length_le_left {A B : Type} (key_l : A -> instant) (key_r : B -> instant)
  (left : list A) (right : list B) :
  NoDup (map key_r right) ->
  (List.length (merge key_l key_r left right) <= List.length left)%nat.
Proof.
  intros Hnd. unfold merge. induction left as [|l left IH]; simpl; [lia|].
  rewrite length_app, length_map.
  pose proof (matches_at_most_one key_r (key_l l) right Hnd). lia.
Qed.

Lemma merge_cons_right {A B : Type} (key_l : A -> instant) (key_r : B -> instant)
  (left : list A) (r : B) (right : list B) :
  List.length (merge key_l key_r left (r :: right)) =
  (List.length (filter (fun l => (key_l l =? key_r r)%Z) left)
   + List.length (merge key_l key_r left right))%nat.
Proof.
  unfold merge. induction left as [|l left IH]; [reflexivity|].
  cbn [flat_map]. rewrite length_app, IH, length_map. cbn [filter].
  destruct (key_l l =? key_r r); cbn [List.length]; rewrite length_app, length_map; lia.
Qed.

Lemma merge_length_sym {A B : Type} (key_l : A -> instant) (key_r : B -> instant)
  (left : list A) (right : list B) :
  List.length (merge key_l key_r left right) =
  List.length (merge key_r key_l right left).
Proof.
  induction left as [|l left IH].
  - unfold merge. simpl. induction right as [|r right IHr]; simpl; auto.
  - rewrite merge_cons_right, <- IH. unfold merge. simpl.
    rewrite length_app, length_map. f_equal.
    f_equal. apply filter_ext. intros r. apply Z.eqb_sym.
Qed.

Lemma merge_length_le_min {A B : Type} (key_l : A -> instant) (key_r : B -> instant)
  (left : list A) (right : list B) :
  NoDup (map key_l left) -> NoDup (map key_r right) ->
  (List.length (merge key_l key_r left right)
   <= Nat.min (List.length left) (List.length right))%nat.
Proof.
  intros Hl Hr. apply Nat.min_glb.
  - apply merge_length_le_left. exact Hr.
  - rewrite merge_length_sym. apply merge_length_le_left. exact Hl.
Qed.

Lemma merged_length_le_min (left right : table) swapped joined :
  NoDup (timestamps left) -> NoDup (timestamps right) ->
  merged left right = Ok (swapped, joined) ->
  (List.length joined <= Nat.min (len left) (len right))%nat.
Proof.
  intros Hl Hr. unfold merged, len.
  destruct left as [|l|l], right as [|r|r]; try discriminate;
    intros H; injection H as _ <-; simpl in *;
    rewrite ?length_map; apply merge_length_le_min; assumption.
Qed.

Lemma distinct_NoDup (l : list instant) : distinct l = true -> NoDup l.
Proof.
  induction l as [|t l IH]; simpl; intros H; constructor.
  - apply andb_true_iff in H as [H _]. apply negb_true_iff in H.
    intros Hin. assert (Hex : existsb (Z.eqb t) l = true).
    { apply existsb_exists. exists t. split; [exact Hin|apply Z.eqb_refl]. }
    congruence.
  - apply IH. apply andb_true_iff in H as [_ H]. exact H.
Qed.

Lemma Fixed_analysis_of_merged (L : libs) imbalance_df activation_df rows s c :
  Fixed.analyze_regulation_try L imbalance_df activation_df = Ok (rows, s, c) ->
  exists swapped joined,
    merged imbalance_df activation_df = Ok (swapped, joined)
    /\ mapM (Fixed.derive L (dtypes_of imbalance_df activation_df)) joined = Ok rows.
Proof.
  unfold Fixed.analyze_regulation_try. intros H.
  apply bind_Ok in H as ([swapped joined] & Hm & H). cbv zeta in H.
  apply bind_Ok in H as (rows' & Hd & H).
  injection H as <- _ _. eauto.
Qed.

Lemma Interactive_analysis_of_merged imbalance_df activation_df rows s c :
  Interactive.analyze_regulation_try imbalance_df activation_df = Ok (rows, s, c) ->
  exists swapped joined,
    merged imbalance_df activation_df = Ok (swapped, joined)
    /\ mapM (Interactive.derive (dtypes_of imbalance_df activation_df)) joined
       = Ok rows.
Proof.
  unfold Interactive.analyze_regulation_try. intros H.
  apply bind_Ok in H as ([swapped joined] & Hm & H). cbv zeta in H.
  apply bind_Ok in H as (rows' & Hd & H).
  injection H as <- _ _. eauto.
Qed.

(** C5, as stated, fails: two readings for one hour in each series give four
    joined rows out of two and two. *)
Lemma C5_repeated_hours_grow_the_join :
  let imbalance_df :=
    fst (Interactive.process_data Sample.L Sample.repeated_imbalance "Imbalance"
           Fixed.start_date_cet Fixed.end_date_cet) in
  let activation_df :=
    fst (Interactive.process_data Sample.L Sample.repeated_activation "Activation"
           Fixed.start_date_cet Fixed.end_date_cet) in
  len imbalance_df = 2%nat
  /\ len activation_df = 2%nat
  /\ List.length (fst (Interactive.analyze_regulation imbalance_df activation_df)) = 4%nat
  /\ ~ (List.length (fst (Interactive.analyze_regulation imbalance_df activation_df))
        <= Nat.min (len imbalance_df) (len activation_df))%nat.
Proof.
  vm_compute. repeat split; try reflexivity. intros H.
  repeat (apply le_S_n in H). inversion H.
Qed.

(** C5, amended. When no timestamp occurs twice in the imbalance table and
    none occurs twice in the activation table, the analysis table of either
    script has at most as many rows as the smaller of the two. *)
Theorem C5_join_row_count :
  forall (L : libs) (imbalance_df activation_df : table),
    NoDup (timestamps imbalance_df) ->
    NoDup (timestamps activation_df) ->
    (List.length (fst (Fixed.analyze_regulation L imbalance_df activation_df))
     <= Nat.min (len imbalance_df) (len activation_df))%nat
    /\ (List.length (fst (Interactive.analyze_regulation imbalance_df activation_df))
        <= Nat.min (len imbalance_df) (len activation_df))%nat.
Proof.
  intros L i a Hi Ha. split.
  - unfold Fixed.analyze_regulation.
    destruct (Fixed.analyze_regulation_try L i a) as [[[rows s] c]|e] eqn:E;
      simpl; [|lia].
    apply Fixed_analysis_of_merged in E as (swapped & joined & Hm & Hd).
    rewrite (mapM_length _ _ _ Hd). eapply merged_length_le_min; eauto.
  - unfold Interactive.analyze_regulation.
    destruct (Interactive.analyze_regulation_try i a) as [[[rows s] c]|e] eqn:E;
      simpl; [|lia].
    apply Interactive_analysis_of_merged in E as (swapped & joined & Hm & Hd).
    rewrite (mapM_length _ _ _ Hd). eapply merged_length_le_min; eauto.
Qed.

Lemma C5_join_row_count_witness :
  NoDup (timestamps Sample.imbalance_df)
  /\ NoDup (timestamps Sample.activation_df)
  /\ (List.length (fst (Fixed.analyze_regulation Sample.L Sample.imbalance_df
                          Sample.activation_df))
      <= Nat.min (len Sample.imbalance_df) (len Sample.activation_df))%nat
  /\ (List.length (fst (Interactive.analyze_regulation Sample.imbalance_df
                          Sample.activation_df))
      <= Nat.min (len Sample.imbalance_df) (len Sample.activation_df))%nat.
Proof.
  assert (Hi : NoDup (timestamps Sample.imbalance_df))
    by (apply distinct_NoDup; vm_compute; reflexivity).
  assert (Ha : NoDup (timestamps Sample.activation_df))
    by (apply distinct_NoDup; vm_compute; reflexivity).
  split; [exact Hi|]. split; [exact Ha|].
  exact (C5_join_row_count Sample.L Sample.imbalance_df Sample.activation_df Hi Ha).
Defined.

(** ** The effectiveness percentage *)

Lemma count_true_map {A : Type} (f : A -> bool) (l : list A) :
  count_true (map f l) = Z.of_nat (List.length (filter f l)).
Proof.
  unfold count_true. f_equal.
  induction l as [|a l IH]; simpl; [reflexivity|].
  destruct (f a); simpl; congruence.
Qed.

Lemma percentage_of_quotient (effective total : Z) :
  (total <> 0 ->
   exists e, option_map (fun x => x * 100)%Q (np_divide effective total) = Some e
             /\ (e == 100 * inject_Z effective / inject_Z total)%Q)
  /\ (total = 0 ->
      option_map (fun x => x * 100)%Q (np_divide effective total) = None).
Proof.
  unfold np_divide. split; intros H.
  - destruct (total =? 0) eqn:E; [apply Z.eqb_eq in E; contradiction|].
    simpl. eexists. split; [reflexivity|].
    field. unfold Qeq. simpl. lia.
  - subst. reflexivity.
Qed.

(** C6, as stated, fails: the two series of this run are not empty but share
    no hour; the analysis is entered, the joined table has no row, and the
    quotient is evaluated all the same, with a zero divisor. *)
Lemma C6_empty_join_is_not_guarded :
  exists s,
    reported (Fixed.main Sample.L [served Sample.early_imbalance;
                                   served Sample.late_activation]) = [s]
    /\ total_periods s = 0
    /\ effectiveness s =
       option_map (fun x => x * 100)%Q (np_divide (effective_periods s) 0)
    /\ effectiveness s = None.
Proof.
  eexists. split; [vm_compute; reflexivity|]. repeat split.
Qed.

(** C6, amended. In the report of either script, the effectiveness is
    100 x (rows with [appropriate_regulation]) / (rows of the joined table)
    when the joined table has a row; the division is not guarded: when the
    joined table has no row the quotient is evaluated with a zero divisor and
    the reported effectiveness is not a number. *)
Theorem C6_effectiveness :
  forall (L : libs) (imbalance_df activation_df : table) (s : summary),
    (In (Report s) (snd (Fixed.analyze_regulation L imbalance_df activation_df)) ->
     let rows := fst (Fixed.analyze_regulation L imbalance_df activation_df) in
     total_periods s = Z.of_nat (List.length rows)
     /\ effective_periods s =
        Z.of_nat (List.length
                    (filter (fun r => appropriate_regulation (Fixed.core r)) rows))
     /\ (rows <> [] ->
         exists e, effectiveness s = Some e
                   /\ (e == 100 * inject_Z (effective_periods s)
                            / inject_Z (total_periods s))%Q)
     /\ (rows = [] -> effectiveness s = None))
    /\ (In (Report s) (snd (Interactive.analyze_regulation imbalance_df activation_df)) ->
        let rows := fst (Interactive.analyze_regulation imbalance_df activation_df) in
        total_periods s = Z.of_nat (List.length rows)
        /\ effective_periods s =
           Z.of_nat (List.length (filter appropriate_regulation rows))
        /\ (rows <> [] ->
            exists e, effectiveness s = Some e
                      /\ (e == 100 * inject_Z (effective_periods s)
                               / inject_Z (total_periods s))%Q)
        /\ (rows = [] -> effectiveness s = None)).
Proof.
  intros L i a s. split.
  - unfold Fixed.analyze_regulation.
    destruct (Fixed.analyze_regulation_try L i a) as [[[rows s'] c]|e] eqn:E;
      simpl; [|intros [H|[]]; discriminate].
    intros [H|[H|[H|[]]]]; try discriminate. injection H as ->.
    unfold Fixed.analyze_regulation_try in E.
    apply bind_Ok in E as ([swapped joined] & _ & E).
    apply bind_Ok in E as (rows' & _ & E).
    injection E as <- <- _. cbn [total_periods effective_periods effectiveness].
    rewrite !(count_true_map (fun r => appropriate_regulation (Fixed.core r))).
    repeat split.
    + intros Hne. apply percentage_of_quotient.
      destruct rows'; [contradiction|simpl; lia].
    + intros ->. reflexivity.
  - unfold Interactive.analyze_regulation.
    destruct (Interactive.analyze_regulation_try i a) as [[[rows s'] c]|e] eqn:E;
      simpl; [|intros [H|[]]; discriminate].
    intros [H|[H|[H|[]]]]; try discriminate. injection H as ->.
    unfold Interactive.analyze_regulation_try in E.
    apply bind_Ok in E as ([swapped joined] & _ & E).
    apply bind_Ok in E as (rows' & _ & E).
    injection E as <- <- _. cbn [total_periods effective_periods effectiveness].
    rewrite !count_true_map.
    repeat split.
    + intros Hne. apply percentage_of_quotient.
      destruct rows'; [contradiction|simpl; lia].
    + intros ->. reflexivity.
Qed.

Lemma C6_effectiveness_witness :
  In (Report Sample.report)
     (snd (Fixed.analyze_regulation Sample.L Sample.imbalance_df Sample.activation_df))
  /\ In (Report Sample.report)
        (snd (Interactive.analyze_regulation Sample.imbalance_df Sample.activation_df))
  /\ fst (Fixed.analyze_regulation Sample.L Sample.imbalance_df Sample.activation_df)
     <> []
  /\ (exists e, effectiveness Sample.report = Some e
                /\ (e == 100 * inject_Z (effective_periods Sample.report)
                         / inject_Z (total_periods Sample.report))%Q)
  /\ total_periods Sample.report =
     Z.of_nat (List.length (fst (Interactive.analyze_regulation Sample.imbalance_df
                                   Sample.activation_df))).
Proof.
  assert (HF : In (Report Sample.report)
                 (snd (Fixed.analyze_regulation Sample.L Sample.imbalance_df
                         Sample.activation_df)))
    by (vm_compute; left; reflexivity).
  assert (HI : In (Report Sample.report)
                 (snd (Interactive.analyze_regulation Sample.imbalance_df
                         Sample.activation_df)))
    by (vm_compute; left; reflexivity).
  assert (Hne : fst (Fixed.analyze_regulation Sample.L Sample.imbalance_df
                       Sample.activation_df) <> [])
    by (vm_compute; discriminate).
  destruct (C6_effectiveness Sample.L Sample.imbalance_df Sample.activation_df
              Sample.report) as [Fixed_case Interactive_case].
  destruct (Fixed_case HF) as (_ & _ & Hsome & _).
  destruct (Interactive_case HI) as (Htotal & _).
  split; [exact HF|]. split; [exact HI|]. split; [exact Hne|].
  split; [apply Hsome; exact Hne|exact Htotal].
Defined.

(** ** The fetcher *)

(** C7. The fetcher issues one request and never a second one.  It returns
    the value under the [data] key exactly when the response arrived with a
    status that is not an error, parsed, and is an object with that key; in
    every other case it returns null: an error status, a failed connection or
    a body that does not parse (the exceptions), a parsed body that is not an
    object, and an object without a [data] key. *)
Theorem C7_fetch_data :
  forall (url : string) (p : params) (o : http_outcome) (rest : world),
    snd (fst (fetch_data url p (o :: rest))) = rest
    /\ requests_sent (snd (fetch_data url p (o :: rest))) = 1%nat
    /\ (forall v, carried_data o = Some v ->
                  fetch_data url p (o :: rest) = (v, rest, [HttpGet url p]))
    /\ (carried_data o = None -> fst (fst (fetch_data url p (o :: rest))) = JNull)
    /\ (forall status body,
           o = Response status body -> error_status status = true ->
           fetch_data url p (o :: rest) = (JNull, rest, [HttpGet url p; FetchError]))
    /\ (o = ConnectionFailed ->
        fetch_data url p (o :: rest) = (JNull, rest, [HttpGet url p; FetchError]))
    /\ (forall status,
           o = Response status None ->
           fetch_data url p (o :: rest) = (JNull, rest, [HttpGet url p; FetchError]))
    /\ (forall status fields,
           o = Response status (Some (JObj fields)) ->
           error_status status = false -> assoc "data" fields = None ->
           fetch_data url p (o :: rest) = (JNull, rest, [HttpGet url p])).
Proof.
  intros url p o rest. unfold fetch_data, http_get, carried_data, error_status.
  destruct o as [|status body]; [|destruct ((400 <=? status) && (status <? 600)) eqn:Es;
                                  [|destruct body as [[| | | | | |fields]|];
                                    [| | | | | |destruct (assoc "data" fields) eqn:Ea|]]];
    repeat split; intros; try reflexivity; try discriminate; try congruence.
  destruct body as [[]|]; discriminate.
Qed.

Lemma C7_fetch_data_witness :
  fetch_data IMBALANCE_URL Fixed.imbalance_params
             [served Sample.imbalance_payload; ConnectionFailed]
  = (Sample.imbalance_payload, [ConnectionFailed],
     [HttpGet IMBALANCE_URL Fixed.imbalance_params])
  /\ fst (fst (fetch_data IMBALANCE_URL Fixed.imbalance_params
                 [Response 500 (Some (JObj [("data", Sample.imbalance_payload)]))]))
     = JNull
  /\ fetch_data IMBALANCE_URL Fixed.imbalance_params
                [Response 200 (Some (JObj [("error", JStr "no such series")]))]
     = (JNull, [], [HttpGet IMBALANCE_URL Fixed.imbalance_params]).
Proof.
  split; [|split].
  - apply (C7_fetch_data IMBALANCE_URL Fixed.imbalance_params
             (served Sample.imbalance_payload) [ConnectionFailed]).
    reflexivity.
  - apply (C7_fetch_data IMBALANCE_URL Fixed.imbalance_params
             (Response 500 (Some (JObj [("data", Sample.imbalance_payload)]))) []).
    reflexivity.
  - apply (proj2 (proj2 (proj2 (proj2 (proj2 (proj2 (proj2
             (C7_fetch_data IMBALANCE_URL Fixed.imbalance_params
                (Response 200 (Some (JObj [("error", JStr "no such series")])))
                []))))))) 200 [("error", JStr "no such series")]);
      reflexivity.
Defined.

(** ** The caller's gates *)

Lemma fetch_data_events (url : string) (p : params) (w : world) :
  snd (fetch_data url p w) = [HttpGet url p]
  \/ snd (fetch_data url p w) = [HttpGet url p; FetchError].
Proof.
  unfold fetch_data. destruct (http_get w) as [[data|e] w'].
  - destruct data as [| | | | | |fields]; auto. destruct (assoc "data" fields); auto.
  - auto.
Qed.

(** The shape of a run of the fixed script: the two fetches come first, then
    the gates. *)
Lemma Fixed_main_shape (L : libs) (w : world) :
  let fi := fetch_data IMBALANCE_URL Fixed.imbalance_params w in
  let fa := fetch_data ACTIVATION_URL Fixed.activation_params (snd (fst fi)) in
  Fixed.main L w =
  [Say "Analysis period (CET):";
   SayPeriod Fixed.start_date_cet Fixed.end_date_cet;
   Say (after_blank_line "Fetching imbalance data...")] ++ snd fi ++
  [Say (after_blank_line "Fetching activation data...")] ++ snd fa ++
  (if truthy (fst (fst fi)) && truthy (fst (fst fa)) then
     let pi := Fixed.process_data L (fst (fst fi)) "Imbalance" in
     let pa := Fixed.process_data L (fst (fst fa)) "Activation" in
     snd pi ++ snd pa ++
     (if negb (empty (fst pi)) && negb (empty (fst pa)) then
        Fixed.create_visualization (fst pi) (fst pa) ++
        snd (Fixed.analyze_regulation L (fst pi) (fst pa))
      else [Say "No data available for processing"])
   else [Say "Failed to fetch data from one or both APIs"]).
Proof.
  unfold Fixed.main, Fixed.fetch_data.
  destruct (fetch_data IMBALANCE_URL Fixed.imbalance_params w) as [[i w1] ei].
  cbn [fst snd].
  destruct (fetch_data ACTIVATION_URL Fixed.activation_params w1) as [[a w2] ea].
  cbn [fst snd].
  destruct (Fixed.process_data L i "Imbalance") as [ti pi].
  destruct (Fixed.process_data L a "Activation") as [ta pa].
  reflexivity.
Qed.

Lemma Interactive_run_shape (L : libs) (start_ end_ : instant) (w : world) :
  let imbalance_params :=
    mk_params "imbalance_volumes" (start_ - 3 * 3600) (end_ + 3 * 3600)
              "CET" "json" "0" in
  let activation_params :=
    mk_params "normal_activations_total" (start_ - 3 * 3600) (end_ + 3 * 3600)
              "CET" "json" "0" in
  let fi := fetch_data IMBALANCE_URL imbalance_params w in
  let fa := fetch_data ACTIVATION_URL activation_params (snd (fst fi)) in
  Interactive.run L start_ end_ w =
  [Say (after_blank_line "Analysis period (CET):"); SayPeriod start_ end_;
   Say (after_blank_line "Fetching imbalance data...")] ++ snd fi ++
  [Say (after_blank_line "Fetching activation data...")] ++ snd fa ++
  (if truthy (fst (fst fi)) && truthy (fst (fst fa)) then
     let pi := Interactive.process_data L (fst (fst fi)) "Imbalance" start_ end_ in
     let pa := Interactive.process_data L (fst (fst fa)) "Activation" start_ end_ in
     snd pi ++ snd pa ++
     (if negb (empty (fst pi)) && negb (empty (fst pa)) then
        Interactive.create_visualization (fst pi) (fst pa) start_ end_ ++
        snd (Interactive.analyze_regulation (fst pi) (fst pa))
      else [Say "No data available for processing"])
   else [Say "Failed to fetch data from one or both APIs"]).
Proof.
  unfold Interactive.run, Interactive.fetch_data. cbv zeta.
  destruct (fetch_data IMBALANCE_URL _ w) as [[i w1] ei].
  cbn [fst snd].
  destruct (fetch_data ACTIVATION_URL _ w1) as [[a w2] ea].
  cbn [fst snd].
  destruct (Interactive.process_data L i "Imbalance" start_ end_) as [ti pi].
  destruct (Interactive.process_data L a "Activation" start_ end_) as [ta pa].
  reflexivity.
Qed.

Lemma fetch_data_answered (url : string) (p : params) status fields d rest :
  error_status status = false -> assoc "data" fields = Some d ->
  fetch_data url p (Response status (Some (JObj fields)) :: rest)
  = (d, rest, [HttpGet url p]).
Proof.
  unfold fetch_data, http_get, error_status. intros -> ->. reflexivity.
Qed.

Lemma fetch_data_dataless (url : string) (p : params) status rest :
  error_status status = false ->
  fetch_data url p (Response status (Some (JObj [])) :: rest)
  = (JNull, rest, [HttpGet url p]).
Proof.
  unfold fetch_data, http_get, error_status. intros ->. reflexivity.
Qed.

Lemma fetch_data_consumes (url : string) (p : params) o rest :
  snd (fst (fetch_data url p (o :: rest))) = rest.
Proof.
  unfold fetch_data, http_get.
  destruct o as [|status [[| | | | | |fields]|]]; try reflexivity;
    destruct ((400 <=? status) && (status <? 600)); try reflexivity.
  destruct (assoc "data" fields); reflexivity.
Qed.

Lemma fetch_data_quiet (url : string) (p : params) (w : world) :
  no_normalization (snd (fetch_data url p w)) = true
  /\ no_rendering_or_analysis (snd (fetch_data url p w)) = true.
Proof.
  destruct (fetch_data_events url p w) as [-> | ->]; split; reflexivity.
Qed.

(** A run whose fetched values do not both pass the truthiness gate. *)
Lemma Fixed_main_failed (L : libs) (w : world) :
  let fi := fetch_data IMBALANCE_URL Fixed.imbalance_params w in
  let fa := fetch_data ACTIVATION_URL Fixed.activation_params (snd (fst fi)) in
  truthy (fst (fst fi)) && truthy (fst (fst fa)) = false ->
  Fixed.main L w =
  [Say "Analysis period (CET):";
   SayPeriod Fixed.start_date_cet Fixed.end_date_cet;
   Say (after_blank_line "Fetching imbalance data...")] ++ snd fi ++
  [Say (after_blank_line "Fetching activation data...")] ++ snd fa ++
  [Say "Failed to fetch data from one or both APIs"].
Proof.
  intros fi fa H. rewrite Fixed_main_shape. fold fi. fold fa. rewrite H. reflexivity.
Qed.

Lemma Interactive_run_failed (L : libs) (start_ end_ : instant) (w : world) :
  let imbalance_params :=
    mk_params "imbalance_volumes" (start_ - 3 * 3600) (end_ + 3 * 3600)
              "CET" "json" "0" in
  let activation_params :=
    mk_params "normal_activations_total" (start_ - 3 * 3600) (end_ + 3 * 3600)
              "CET" "json" "0" in
  let fi := fetch_data IMBALANCE_URL imbalance_params w in
  let fa := fetch_data ACTIVATION_URL activation_params (snd (fst fi)) in
  truthy (fst (fst fi)) && truthy (fst (fst fa)) = false ->
  Interactive.run L start_ end_ w =
  [Say (after_blank_line "Analysis period (CET):"); SayPeriod start_ end_;
   Say (after_blank_line "Fetching imbalance data...")] ++ snd fi ++
  [Say (after_blank_line "Fetching activation data...")] ++ snd fa ++
  [Say "Failed to fetch data from one or both APIs"].
Proof.
  intros ip ap fi fa H. rewrite Interactive_run_shape.
  fold ip. fold ap. fold fi. fold fa. rewrite H. reflexivity.
Qed.

(** What can be read off a run that ended at the first gate. *)
Lemma failed_run_reading (period fetched_i between fetched_a : list event) :
  no_normalization (period ++ fetched_i ++ between ++ fetched_a) = true ->
  no_rendering_or_analysis (period ++ fetched_i ++ between ++ fetched_a) = true ->
  let evs := period ++ fetched_i ++ between ++ fetched_a ++
             [Say "Failed to fetch data from one or both APIs"] in
  last evs (Say "") = Say "Failed to fetch data from one or both APIs"
  /\ no_normalization evs = true
  /\ no_rendering_or_analysis evs = true.
Proof.
  intros Hn Hr evs. subst evs.
  replace (period ++ fetched_i ++ between ++ fetched_a ++
           [Say "Failed to fetch data from one or both APIs"])
    with ((period ++ fetched_i ++ between ++ fetched_a) ++
          [Say "Failed to fetch data from one or both APIs"])
    by (rewrite <- !app_assoc; reflexivity).
  split; [apply last_last|].
  unfold no_normalization, no_rendering_or_analysis in *.
  split; rewrite forallb_app; [rewrite Hn|rewrite Hr]; reflexivity.
Qed.

Lemma fetch_data_head (url : string) (p : params) o rest rest' :
  fst (fst (fetch_data url p (o :: rest))) = fst (fst (fetch_data url p (o :: rest')))
  /\ snd (fetch_data url p (o :: rest)) = snd (fetch_data url p (o :: rest')).
Proof.
  unfold fetch_data, http_get.
  destruct o as [|status [[| | | | | |fields]|]]; try (split; reflexivity);
    destruct ((400 <=? status) && (status <? 600)); try (split; reflexivity).
  destruct (assoc "data" fields); split; reflexivity.
Qed.

Lemma no_normalization_app (a b : list event) :
  no_normalization (a ++ b) = no_normalization a && no_normalization b.
Proof. apply forallb_app. Qed.

Lemma no_rendering_or_analysis_app (a b : list event) :
  no_rendering_or_analysis (a ++ b)
  = no_rendering_or_analysis a && no_rendering_or_analysis b.
Proof. apply forallb_app. Qed.

Lemma Fixed_main_failed_reading (L : libs) (w : world) :
  let fi := fetch_data IMBALANCE_URL Fixed.imbalance_params w in
  let fa := fetch_data ACTIVATION_URL Fixed.activation_params (snd (fst fi)) in
  truthy (fst (fst fi)) && truthy (fst (fst fa)) = false ->
  stopped_as_fetch_failure (Fixed.main L w).
Proof.
  intros fi fa H. rewrite (Fixed_main_failed L w H).
  apply (failed_run_reading
           [Say "Analysis period (CET):";
            SayPeriod Fixed.start_date_cet Fixed.end_date_cet;
            Say (after_blank_line "Fetching imbalance data...")]
           (snd (fetch_data IMBALANCE_URL Fixed.imbalance_params w))
           [Say (after_blank_line "Fetching activation data...")]);
    rewrite ?no_normalization_app, ?no_rendering_or_analysis_app,
      ?(proj1 (fetch_data_quiet _ _ _)), ?(proj2 (fetch_data_quiet _ _ _));
    reflexivity.
Qed.

Lemma Interactive_run_failed_reading (L : libs) (start_ end_ : instant) (w : world) :
  let imbalance_params :=
    mk_params "imbalance_volumes" (start_ - 3 * 3600) (end_ + 3 * 3600)
              "CET" "json" "0" in
  let activation_params :=
    mk_params "normal_activations_total" (start_ - 3 * 3600) (end_ + 3 * 3600)
              "CET" "json" "0" in
  let fi := fetch_data IMBALANCE_URL imbalance_params w in
  let fa := fetch_data ACTIVATION_URL activation_params (snd (fst fi)) in
  truthy (fst (fst fi)) && truthy (fst (fst fa)) = false ->
  stopped_as_fetch_failure (Interactive.run L start_ end_ w).
Proof.
  intros ip ap fi fa H. rewrite (Interactive_run_failed L start_ end_ w H).
  apply (failed_run_reading
           [Say (after_blank_line "Analysis period (CET):"); SayPeriod start_ end_;
            Say (after_blank_line "Fetching imbalance data...")]
           (snd (fetch_data IMBALANCE_URL ip w))
           [Say (after_blank_line "Fetching activation data...")]);
    rewrite ?no_normalization_app, ?no_rendering_or_analysis_app,
      ?(proj1 (fetch_data_quiet _ _ _)), ?(proj2 (fetch_data_quiet _ _ _));
    reflexivity.
Qed.

(** C10. When a fetch succeeds with a [data] value that is falsy (an empty
    object or list, for instance), the fetcher hands that value back, and the
    run of either script, whichever of the two series it concerns, is the run
    of a fetch failure: its events are those of a run in which the response
    has no [data] key at all, it ends on the fetch-failure message, and nothing
    is normalised, rendered or analysed. *)
Theorem C10_falsy_data_is_a_fetch_failure :
  forall (L : libs) (status : Z) (fields : list (string * json)) (d : json)
         (other : http_outcome) (rest : world) (start_ end_ : instant),
    error_status status = false ->
    assoc "data" fields = Some d ->
    truthy d = false ->
    let answered := Response status (Some (JObj fields)) in
    let dataless := Response status (Some (JObj [])) in
    fst (fst (fetch_data IMBALANCE_URL Fixed.imbalance_params (answered :: rest))) = d
    /\ stopped_as_fetch_failure (Fixed.main L (answered :: other :: rest))
    /\ Fixed.main L (answered :: other :: rest) = Fixed.main L (dataless :: other :: rest)
    /\ stopped_as_fetch_failure (Fixed.main L (other :: answered :: rest))
    /\ Fixed.main L (other :: answered :: rest) = Fixed.main L (other :: dataless :: rest)
    /\ stopped_as_fetch_failure (Interactive.run L start_ end_ (answered :: other :: rest))
    /\ Interactive.run L start_ end_ (answered :: other :: rest)
       = Interactive.run L start_ end_ (dataless :: other :: rest)
    /\ stopped_as_fetch_failure (Interactive.run L start_ end_ (other :: answered :: rest))
    /\ Interactive.run L start_ end_ (other :: answered :: rest)
       = Interactive.run L start_ end_ (other :: dataless :: rest).
Proof.
  intros L status fields d other rest start_ end_ Hs Hd Hf answered dataless.
  assert (Hfirst : forall url p w,
             truthy (fst (fst (fetch_data url p (answered :: w)))) = false)
    by (intros; unfold answered; rewrite (fetch_data_answered _ _ _ _ _ _ Hs Hd);
        exact Hf).
  assert (Hfirst' : forall url p w,
             truthy (fst (fst (fetch_data url p (dataless :: w)))) = false)
    by (intros; unfold dataless; rewrite (fetch_data_dataless _ _ _ _ Hs);
        reflexivity).
  assert (Hsecond : forall url p url' p' (o : http_outcome) w,
             (o = answered \/ o = dataless) ->
             truthy (fst (fst (fetch_data url p (other :: o :: w))))
             && truthy (fst (fst (fetch_data url' p'
                                    (snd (fst (fetch_data url p (other :: o :: w)))))))
             = false).
  { intros url p url' p' o w Ho. rewrite fetch_data_consumes.
    destruct Ho as [-> | ->]; [rewrite Hfirst|rewrite Hfirst']; apply andb_false_r. }
  repeat split.
  - unfold answered. rewrite (fetch_data_answered _ _ _ _ _ _ Hs Hd). reflexivity.
  - apply Fixed_main_failed_reading. rewrite Hfirst. reflexivity.
  - apply Fixed_main_failed_reading. rewrite Hfirst. reflexivity.
  - apply Fixed_main_failed_reading. rewrite Hfirst. reflexivity.
  - rewrite !Fixed_main_failed by (rewrite ?Hfirst, ?Hfirst'; reflexivity).
    unfold answered, dataless.
    rewrite (fetch_data_answered _ _ _ _ _ _ Hs Hd), (fetch_data_dataless _ _ _ _ Hs).
    reflexivity.
  - apply Fixed_main_failed_reading. apply Hsecond. auto.
  - apply Fixed_main_failed_reading. apply Hsecond. auto.
  - apply Fixed_main_failed_reading. apply Hsecond. auto.
  - rewrite !Fixed_main_failed by (apply Hsecond; auto).
    rewrite !fetch_data_consumes.
    rewrite (proj2 (fetch_data_head IMBALANCE_URL Fixed.imbalance_params other
                      (answered :: rest) (dataless :: rest))).
    unfold answered, dataless.
    rewrite (fetch_data_answered _ _ _ _ _ _ Hs Hd), (fetch_data_dataless _ _ _ _ Hs).
    reflexivity.
  - apply Interactive_run_failed_reading. rewrite Hfirst. reflexivity.
  - apply Interactive_run_failed_reading. rewrite Hfirst. reflexivity.
  - apply Interactive_run_failed_reading. rewrite Hfirst. reflexivity.
  - rewrite !Interactive_run_failed by (rewrite ?Hfirst, ?Hfirst'; reflexivity).
    unfold answered, dataless.
    rewrite (fetch_data_answered _ _ _ _ _ _ Hs Hd), (fetch_data_dataless _ _ _ _ Hs).
    reflexivity.
  - apply Interactive_run_failed_reading. apply Hsecond. auto.
  - apply Interactive_run_failed_reading. apply Hsecond. auto.
  - apply Interactive_run_failed_reading. apply Hsecond. auto.
  - rewrite !Interactive_run_failed by (apply Hsecond; auto).
    rewrite !fetch_data_consumes.
    match goal with
    | |- context [fetch_data IMBALANCE_URL ?ip (other :: answered :: rest)] =>
        rewrite (proj2 (fetch_data_head IMBALANCE_URL ip other
                          (answered :: rest) (dataless :: rest)))
    end.
    unfold answered, dataless.
    rewrite (fetch_data_answered _ _ _ _ _ _ Hs Hd), (fetch_data_dataless _ _ _ _ Hs).
    reflexivity.
Qed.

Lemma C10_falsy_data_witness :
  truthy (JObj []) = false
  /\ fst (fst (fetch_data IMBALANCE_URL Fixed.imbalance_params [served (JObj [])]))
     = JObj []
  /\ stopped_as_fetch_failure
       (Fixed.main Sample.L [served (JObj []); served Sample.activation_payload])
  /\ stopped_as_fetch_failure
       (Interactive.run Sample.L Fixed.start_date_cet Fixed.end_date_cet
          [served Sample.imbalance_payload; served (JObj [])]).
Proof.
  pose proof (C10_falsy_data_is_a_fetch_failure Sample.L 200 [("data", JObj [])]
                (JObj []) (served Sample.activation_payload) []
                Fixed.start_date_cet Fixed.end_date_cet
                eq_refl eq_refl eq_refl) as H.
  pose proof (C10_falsy_data_is_a_fetch_failure Sample.L 200 [("data", JObj [])]
                (JObj []) (served Sample.imbalance_payload) []
                Fixed.start_date_cet Fixed.end_date_cet
                eq_refl eq_refl eq_refl) as H'.
  cbv zeta in H, H'.
  split; [reflexivity|]. split; [apply H|]. split; [apply H|]. apply H'.
Defined.

(** ** Payloads the normaliser cannot use *)

Lemma existsb_nodup (p : string -> bool) (l : list string) :
  existsb p (nodup string_dec l) = existsb p l.
Proof.
  destruct (existsb p l) eqn:E.
  - apply existsb_exists in E as (x & Hin & Hp).
    apply existsb_exists. exists x. split; [apply nodup_In; exact Hin|exact Hp].
  - destruct (existsb p (nodup string_dec l)) eqn:E'; [|reflexivity].
    apply existsb_exists in E' as (x & Hin & Hp). apply nodup_In in Hin.
    assert (existsb p l = true) by (apply existsb_exists; eauto). congruence.
Qed.

Lemma column_Ok {I : Type} (name : string) (df : frame I) cells :
  column name df = Ok cells -> has_column name df = true.
Proof.
  unfold column. destruct (has_column name df); [reflexivity|discriminate].
Qed.

Lemma extraction_needs_values (df : frame instant) (data_type : string) out :
  (if String.eqb data_type "Imbalance" then
     v0 <- apply_subscript "values" 0 df ;;
     Ok (ImbalanceFrame
           (map (fun p => mk_imbalance_row (fst (fst p)) (snd p))
                (combine (rows df) v0)))
   else
     v0 <- apply_subscript "values" 0 df ;;
     v1 <- apply_subscript "values" 1 df ;;
     Ok (ActivationFrame
           (map (fun p => mk_activation_row (fst (fst (fst p)))
                                            (snd (fst p)) (snd p))
                (combine (combine (rows df) v0) v1)))) = Ok out ->
  has_column "values" df = true.
Proof.
  intros H. destruct (String.eqb data_type "Imbalance");
    apply bind_Ok in H as (v0 & Hv & _);
    unfold apply_subscript in Hv; apply bind_Ok in Hv as (col & Hc & _);
    eapply column_Ok; eauto.
Qed.

(** A successful normalisation has met the three columns in the frame built
    from the payload's [timeseries]. *)
Lemma Interactive_process_data_columns (L : libs) fields data_type start_ end_ out :
  Interactive.process_data_try L (JObj fields) data_type start_ end_ = Ok out ->
  exists df,
    DataFrame L (match assoc "timeseries" fields with
                 | Some v => v
                 | None => JArr []
                 end) = Ok df
    /\ has_column "from" df = true
    /\ has_column "values" df = true
    /\ has_column "to" df = true.
Proof.
  unfold Interactive.process_data_try. intros H.
  apply bind_Ok in H as (df & Hdf & H).
  apply bind_Ok in H as (from_ & Hfrom & H).
  apply bind_Ok in H as (stamps & _ & H).
  apply bind_Ok in H as (tbl & Hv & H).
  apply extraction_needs_values in Hv.
  exists df. split; [exact Hdf|]. split; [eapply column_Ok; eauto|].
  split; [exact Hv|].
  destruct (can_drop _ _) eqn:Ed in H; [|discriminate].
  unfold can_drop in Ed. simpl in Ed.
  apply andb_true_iff in Ed as [_ Ed]. apply andb_true_iff in Ed as [Ed _].
  exact Ed.
Qed.

Lemma Fixed_process_data_columns (L : libs) fields data_type out :
  Fixed.process_data_try L (JObj fields) data_type = Ok out ->
  exists df,
    DataFrame L (match assoc "timeseries" fields with
                 | Some v => v
                 | None => JArr []
                 end) = Ok df
    /\ has_column "from" df = true
    /\ has_column "values" df = true
    /\ has_column "to" df = true.
Proof.
  unfold Fixed.process_data_try. intros H.
  apply bind_Ok in H as (df & Hdf & H).
  apply bind_Ok in H as (from_ & Hfrom & H).
  apply bind_Ok in H as (stamps & _ & H).
  apply bind_Ok in H as (tbl & Hv & H).
  apply extraction_needs_values in Hv.
  exists df. split; [exact Hdf|]. split; [eapply column_Ok; eauto|].
  split; [exact Hv|].
  destruct (can_drop _ _) eqn:Ed in H; [|discriminate].
  unfold can_drop in Ed. simpl in Ed.
  apply andb_true_iff in Ed as [_ Ed]. apply andb_true_iff in Ed as [Ed _].
  exact Ed.
Qed.

(** The frame of a structurally invalid dict lacks one of the columns. *)
Lemma invalid_frame_lacks_a_column (L : libs) fields df :
  structurally_invalid (JObj fields) = true ->
  DataFrame L (match assoc "timeseries" fields with
               | Some v => v
               | None => JArr []
               end) = Ok df ->
  has_column "from" df && has_column "values" df && has_column "to" df = false.
Proof.
  unfold structurally_invalid, DataFrame.
  destruct (assoc "timeseries" fields) as [[| | | | |items|]|]; try discriminate.
  - destruct (as_records items) as [recs|]; [|discriminate].
    intros Hinv H. injection H as <-. unfold has_column. cbn [columns].
    rewrite !existsb_nodup.
    destruct (existsb (String.eqb "from") _), (existsb (String.eqb "values") _),
      (existsb (String.eqb "to") _); cbn [negb orb andb] in *; congruence.
  - intros _ H. simpl in H. injection H as <-. reflexivity.
Qed.

Lemma invalid_payload_raises (L : libs) (data : json) (data_type : string)
  (start_ end_ : instant) :
  structurally_invalid data = true ->
  (exists e, Fixed.process_data_try L data data_type = Raise e)
  /\ (exists e, Interactive.process_data_try L data data_type start_ end_ = Raise e).
Proof.
  intros Hinv. split.
  - destruct (Fixed.process_data_try L data data_type) as [out|e] eqn:E; [|eauto].
    exfalso. destruct data as [| | | | | |fields]; try discriminate.
    apply Fixed_process_data_columns in E as (df & Hdf & Hf & Hv & Ht).
    pose proof (invalid_frame_lacks_a_column L fields df Hinv Hdf) as Hlack.
    rewrite Hf, Hv, Ht in Hlack. discriminate.
  - destruct (Interactive.process_data_try L data data_type start_ end_)
      as [out|e] eqn:E; [|eauto].
    exfalso. destruct data as [| | | | | |fields]; try discriminate.
    apply Interactive_process_data_columns in E as (df & Hdf & Hf & Hv & Ht).
    pose proof (invalid_frame_lacks_a_column L fields df Hinv Hdf) as Hlack.
    rewrite Hf, Hv, Ht in Hlack. discriminate.
Qed.

Lemma Fixed_process_data_quiet (L : libs) data data_type :
  no_rendering_or_analysis (snd (Fixed.process_data L data data_type)) = true.
Proof.
  unfold Fixed.process_data.
  destruct (Fixed.process_data_try L data data_type); reflexivity.
Qed.

Lemma Interactive_process_data_quiet (L : libs) data data_type start_ end_ :
  no_rendering_or_analysis
    (snd (Interactive.process_data L data data_type start_ end_)) = true.
Proof.
  unfold Interactive.process_data.
  destruct (Interactive.process_data_try L data data_type start_ end_); reflexivity.
Qed.

Lemma lack_of_data_reading (before : list event) :
  no_rendering_or_analysis before = true ->
  stopped_for_lack_of_data (before ++ [Say "No data available for processing"]).
Proof.
  intros H. split; [apply last_last|].
  rewrite no_rendering_or_analysis_app, H. reflexivity.
Qed.

(** A run of the fixed script on two answers that carry data, one of which
    normalises to an empty table. *)
Lemma Fixed_main_no_data (L : libs) (d_i d_a : json) (rest : world) :
  truthy d_i = true -> truthy d_a = true ->
  empty (fst (Fixed.process_data L d_i "Imbalance")) = true
  \/ empty (fst (Fixed.process_data L d_a "Activation")) = true ->
  stopped_for_lack_of_data (Fixed.main L (served d_i :: served d_a :: rest)).
Proof.
  intros Hi Ha Hempty. rewrite Fixed_main_shape. cbv zeta.
  unfold served. rewrite (fetch_data_answered _ _ 200 _ d_i) by reflexivity.
  cbn [fst snd]. rewrite (fetch_data_answered _ _ 200 _ d_a) by reflexivity.
  cbn [fst snd]. rewrite Hi, Ha. cbn [andb].
  replace (negb (empty (fst (Fixed.process_data L d_i "Imbalance")))
           && negb (empty (fst (Fixed.process_data L d_a "Activation"))))
    with false
    by (destruct Hempty as [-> | ->]; [reflexivity|symmetry; apply andb_false_r]).
  rewrite !app_assoc. apply lack_of_data_reading.
  rewrite !no_rendering_or_analysis_app, Fixed_process_data_quiet,
    Fixed_process_data_quiet. reflexivity.
Qed.

Lemma Interactive_run_no_data (L : libs) (start_ end_ : instant) (d_i d_a : json)
  (rest : world) :
  truthy d_i = true -> truthy d_a = true ->
  empty (fst (Interactive.process_data L d_i "Imbalance" start_ end_)) = true
  \/ empty (fst (Interactive.process_data L d_a "Activation" start_ end_)) = true ->
  stopped_for_lack_of_data
    (Interactive.run L start_ end_ (served d_i :: served d_a :: rest)).
Proof.
  intros Hi Ha Hempty. rewrite Interactive_run_shape. cbv zeta.
  unfold served. rewrite (fetch_data_answered _ _ 200 _ d_i) by reflexivity.
  cbn [fst snd]. rewrite (fetch_data_answered _ _ 200 _ d_a) by reflexivity.
  cbn [fst snd]. rewrite Hi, Ha. cbn [andb].
  replace (negb (empty (fst (Interactive.process_data L d_i "Imbalance" start_ end_)))
           && negb (empty (fst (Interactive.process_data L d_a "Activation"
                                  start_ end_))))
    with false
    by (destruct Hempty as [-> | ->]; [reflexivity|symmetry; apply andb_false_r]).
  rewrite !app_assoc. apply lack_of_data_reading.
  rewrite !no_rendering_or_analysis_app, Interactive_process_data_quiet,
    Interactive_process_data_quiet. reflexivity.
Qed.

(** C9, as stated, fails on the empty payload: the normaliser would return an
    empty table for it, but the caller never hands it over; the run ends on
    the fetch-failure message and never says that no data is available. *)
Lemma C9_empty_payload_is_reported_as_fetch_failure :
  structurally_invalid (JObj []) = true
  /\ fst (Fixed.process_data Sample.L (JObj []) "Imbalance") = NoFrame
  /\ last (Fixed.main Sample.L [served (JObj []); served Sample.activation_payload])
          (Say "")
     = Say "Failed to fetch data from one or both APIs"
  /\ ~ In (Say "No data available for processing")
          (Fixed.main Sample.L [served (JObj []); served Sample.activation_payload])
  /\ ~ stopped_for_lack_of_data
         (Fixed.main Sample.L [served (JObj []); served Sample.activation_payload]).
Proof.
  split; [reflexivity|]. split; [reflexivity|]. split; [reflexivity|]. split.
  - vm_compute. intuition discriminate.
  - intros [H _]. vm_compute in H. discriminate.
Qed.

(** C9, amended. For a payload that is not an object, has no [timeseries],
    or whose records nowhere carry [from], or [values], or [to], the
    normaliser of either script returns the empty table and reports the
    failure instead of raising.  When that payload and the other series'
    payload are both truthy, hence handed to the normaliser, the run then
    skips rendering and analysis and ends by saying that no data is
    available. *)
Theorem C9_invalid_payload :
  forall (L : libs) (d : json) (data_type : string) (other : json) (rest : world)
         (start_ end_ : instant),
    structurally_invalid d = true ->
    Fixed.process_data L d data_type = (NoFrame, [ProcessError data_type])
    /\ Interactive.process_data L d data_type start_ end_
       = (NoFrame, [ProcessError data_type])
    /\ (truthy d = true -> truthy other = true ->
        stopped_for_lack_of_data (Fixed.main L (served d :: served other :: rest))
        /\ stopped_for_lack_of_data (Fixed.main L (served other :: served d :: rest))
        /\ stopped_for_lack_of_data
             (Interactive.run L start_ end_ (served d :: served other :: rest))
        /\ stopped_for_lack_of_data
             (Interactive.run L start_ end_ (served other :: served d :: rest))).
Proof.
  intros L d data_type other rest start_ end_ Hinv.
  assert (HF : forall dt, Fixed.process_data L d dt = (NoFrame, [ProcessError dt])).
  { intros dt. unfold Fixed.process_data.
    destruct (proj1 (invalid_payload_raises L d dt start_ end_ Hinv)) as [e ->].
    reflexivity. }
  assert (HI : forall dt, Interactive.process_data L d dt start_ end_
                          = (NoFrame, [ProcessError dt])).
  { intros dt. unfold Interactive.process_data.
    destruct (proj2 (invalid_payload_raises L d dt start_ end_ Hinv)) as [e ->].
    reflexivity. }
  split; [apply HF|]. split; [apply HI|].
  intros Hd Ho.
  split; [|split; [|split]].
  - apply Fixed_main_no_data; auto. rewrite HF. auto.
  - apply Fixed_main_no_data; auto. rewrite HF. auto.
  - apply Interactive_run_no_data; auto. rewrite HI. auto.
  - apply Interactive_run_no_data; auto. rewrite HI. auto.
Qed.

Lemma C9_invalid_payload_witness :
  structurally_invalid Sample.fromless_payload = true
  /\ truthy Sample.fromless_payload = true
  /\ Fixed.process_data Sample.L Sample.fromless_payload "Imbalance"
     = (NoFrame, [ProcessError "Imbalance"])
  /\ stopped_for_lack_of_data
       (Fixed.main Sample.L [served Sample.fromless_payload;
                             served Sample.activation_payload]).
Proof.
  pose proof (C9_invalid_payload Sample.L Sample.fromless_payload "Imbalance"
                Sample.activation_payload [] Fixed.start_date_cet Fixed.end_date_cet
                eq_refl) as (HF & _ & Hrun).
  split; [reflexivity|]. split; [reflexivity|]. split; [exact HF|].
  apply (Hrun eq_refl eq_refl).
Defined.

(** ** The two scripts side by side *)






(** ** The end of the interactive window *)

Lemma end_not_after_start_is_asked_again (L : libs) prompt start_ text rest e :
  strptime_cet L text = Some e -> e <= start_ ->
  Interactive.get_valid_datetime L prompt false (Some start_) (text :: rest)
  = (fst (Interactive.get_valid_datetime L prompt false (Some start_) rest),
     Prompt prompt
     :: Say "End date must be after start date. Please try again."
     :: snd (Interactive.get_valid_datetime L prompt false (Some start_) rest)).
Proof.
  intros Hp Hle. cbn [Interactive.get_valid_datetime]. rewrite Hp.
  apply Z.leb_le in Hle. rewrite Hle.
  destruct (Interactive.get_valid_datetime L prompt false (Some start_) rest).
  reflexivity.
Qed.

(** The span test reads whole days only: every end less than 31 days after
    the start passes it. *)
Lemma end_less_than_31_days_later_is_accepted (L : libs) prompt start_ text rest e :
  strptime_cet L text = Some e ->
  start_ < e -> e - start_ < 31 * 86400 ->
  Interactive.get_valid_datetime L prompt false (Some start_) (text :: rest)
  = (Some (e, rest), [Prompt prompt]).
Proof.
  intros Hp Hlt Hspan. cbn [Interactive.get_valid_datetime]. rewrite Hp.
  assert (Hleb : (e <=? start_) = false) by (apply Z.leb_gt; lia).
  rewrite Hleb.
  assert (Hdays : (Interactive.days e start_ >? 30) = false).
  { unfold Interactive.days, Interactive.day_seconds.
    rewrite Z.gtb_ltb. apply Z.ltb_ge.
    assert ((e - start_) / 86400 < 31) by (apply Z.div_lt_upper_bound; lia). lia. }
  rewrite Hdays. reflexivity.
Qed.

Lemma end_31_days_later_is_asked_again (L : libs) prompt start_ text rest e :
  strptime_cet L text = Some e ->
  31 * 86400 <= e - start_ ->
  Interactive.get_valid_datetime L prompt false (Some start_) (text :: rest)
  = (fst (Interactive.get_valid_datetime L prompt false (Some start_) rest),
     Prompt prompt
     :: Say "Time range cannot exceed 30 days. Please enter a closer date."
     :: snd (Interactive.get_valid_datetime L prompt false (Some start_) rest)).
Proof.
  intros Hp Hspan. cbn [Interactive.get_valid_datetime]. rewrite Hp.
  assert (Hleb : (e <=? start_) = false) by (apply Z.leb_gt; lia).
  rewrite Hleb.
  assert (Hdays : (Interactive.days e start_ >? 30) = true).
  { unfold Interactive.days, Interactive.day_seconds.
    rewrite Z.gtb_ltb. apply Z.ltb_lt.
    assert (31 <= (e - start_) / 86400) by (apply Z.div_le_lower_bound; lia). lia. }
  rewrite Hdays.
  destruct (Interactive.get_valid_datetime L prompt false (Some start_) rest).
  reflexivity.
Qed.

(** C2, at the input on which the script departs from it.  The operator
    enters 2024-01-01 00:00 as start and 2024-01-31 00:01 as end: the span is
    thirty days and one minute, it exceeds 30 days, and the end is accepted at
    once; the run goes on with that window. *)
Theorem C2_end_30_days_and_a_minute_later_is_accepted :
  strptime_cet Sample.L "2024-01-01 00:00" = Some 1704063600
  /\ strptime_cet Sample.L "2024-01-31 00:01" = Some 1706655660
  /\ 1706655660 - 1704063600 = 30 * 86400 + 60
  /\ Interactive.get_valid_datetime Sample.L "Enter end date and time" false
       (Some 1704063600) ["2024-01-31 00:01"]
     = (Some (1706655660, []), [Prompt "Enter end date and time"])
  /\ In (SayPeriod 1704063600 1706655660)
        (Interactive.main Sample.L ["2024-01-01 00:00"; "2024-01-31 00:01"] []).
Proof.
  split; [reflexivity|]. split; [reflexivity|]. split; [reflexivity|].
  split; [reflexivity|]. vm_compute. tauto.
Qed.

(** ** Sample runs *)

(** The reading before the window is clipped away; the two inside stay. *)
Example sample_imbalance_table :
  Sample.imbalance_df
  = ImbalanceFrame [mk_imbalance_row 1727049600 (JNum 150%Q);
                    mk_imbalance_row 1727053200 (JNum 0%Q)].
Proof. reflexivity. Qed.

Example sample_analysis_rows :
  fst (Interactive.analyze_regulation Sample.imbalance_df Sample.activation_df)
  = [mk_analysis_row 1727049600 150%Q 80%Q 20%Q 150%Q 100%Q true;
     mk_analysis_row 1727053200 0%Q 5%Q 30%Q 0%Q 35%Q false].
Proof. reflexivity. Qed.

(** A record without [from] among records that have it becomes a row without
    timestamp, which the window drops; the other rows are kept. *)
Example sample_one_record_without_from :
  fst (Fixed.process_data Sample.L
         (Sample.payload
            [Sample.raw_point "2024-09-23T00:00Z" "2024-09-23T01:00Z" [150]%Q;
             JObj [("to", JStr "2024-09-23T02:00Z"); ("values", JArr [JNum 1%Q])]])
         "Imbalance")
  = ImbalanceFrame [mk_imbalance_row 1727049600 (JNum 150%Q)].
Proof. reflexivity. Qed.

(** An activation record with a single value cannot give [x[1]]. *)
Example sample_short_values :
  Fixed.process_data Sample.L
    (Sample.payload
       [Sample.raw_point "2024-09-23T00:00Z" "2024-09-23T01:00Z" [80]%Q])
    "Activation"
  = (NoFrame, [ProcessError "Activation"]).
Proof. reflexivity. Qed.

Example sample_end_equal_to_start :
  fst (Interactive.get_valid_datetime Sample.L "Enter end date and time" false
         (Some 1704063600) ["2024-01-01 00:00"])
  = None.
Proof. reflexivity. Qed.

Example sample_end_exactly_30_days_later :
  Interactive.get_valid_datetime Sample.L "Enter end date and time" false
    (Some 1704063600) ["2024-01-31 00:00"]
  = (Some (1706655600, []), [Prompt "Enter end date and time"]).
Proof. reflexivity. Qed.

Example sample_end_31_days_later :
  Interactive.get_valid_datetime Sample.L "Enter end date and time" false
    (Some 1704063600) ["2024-02-01 00:00"; "2024-01-31 00:00"]
  = (Some (1706655600, []),
     [Prompt "Enter end date and time";
      Say "Time range cannot exceed 30 days. Please enter a closer date.";
      Prompt "Enter end date and time"]).
Proof. reflexivity. Qed.

(** The requests ask for three hours more on either side; a reading from the
    padding is not kept. *)
Example sample_requested_window :
  start_date Fixed.imbalance_params = Fixed.start_date_cet - 3 * 3600
  /\ end_date Fixed.activation_params = Fixed.end_date_cet + 3 * 3600.
Proof. split; reflexivity. Qed.

Example sample_padding_is_clipped :
  Fixed.process_data Sample.L
    (Sample.payload
       [Sample.raw_point "2024-09-22T20:00Z" "2024-09-22T21:00Z" [12]%Q;
        Sample.raw_point "2024-09-23T00:00Z" "2024-09-23T01:00Z" [150]%Q])
    "Imbalance"
  = (ImbalanceFrame [mk_imbalance_row 1727049600 (JNum 150%Q)],
     [Processed "Imbalance" 1]).
Proof. reflexivity. Qed.

(** * Further properties of the scripts *)

(** ** The prompt loop *)

(** X1. Without a start to compare with (the start prompt, or an end prompt
    while the module-level start is unset) the loop skips the lines that do not
    parse, complaining about each, and returns the first line that parses,
    whatever instant it denotes. *)
Theorem unchecked_prompt_takes_first_parsable :
  forall (L : libs) (prompt : string) (is_start : bool) (global_start : option instant)
         (bad : list string) (text : string) (rest : list string) (t : instant),
    is_start = true \/ global_start = None ->
    Forall (fun line => strptime_cet L line = None) bad ->
    strptime_cet L text = Some t ->
    Interactive.get_valid_datetime L prompt is_start global_start (bad ++ text :: rest)
    = (Some (t, rest),
       flat_map (fun _ => [Prompt prompt;
                           Say "Invalid date format. Please use YYYY-MM-DD HH:MM format."])
                bad
       ++ [Prompt prompt]).
Proof.
  intros L prompt is_start g bad text rest t Hfree Hbad Ht.
  assert (Hnone : (if is_start then None else g) = None)
    by (destruct Hfree as [-> | ->]; [reflexivity|destruct is_start; reflexivity]).
  induction Hbad as [|line bad Hline _ IH].
  - cbn [app flat_map Interactive.get_valid_datetime]. rewrite Ht, Hnone. reflexivity.
  - cbn [app flat_map Interactive.get_valid_datetime]. rewrite Hline, IH. reflexivity.
Qed.

Lemma unchecked_prompt_witness :
  Interactive.get_valid_datetime Sample.L "Enter start date and time" true
    (Some 1727560800) ["yesterday"; "2024-01-01"; "2024-01-01 00:00"; "2024-01-31 00:00"]
  = (Some (1704063600, ["2024-01-31 00:00"]),
     [Prompt "Enter start date and time";
      Say "Invalid date format. Please use YYYY-MM-DD HH:MM format.";
      Prompt "Enter start date and time";
      Say "Invalid date format. Please use YYYY-MM-DD HH:MM format.";
      Prompt "Enter start date and time"]).
Proof.
  apply (unchecked_prompt_takes_first_parsable Sample.L "Enter start date and time"
           true (Some 1727560800) ["yesterday"; "2024-01-01"] "2024-01-01 00:00"
           ["2024-01-31 00:00"] 1704063600).
  - left. reflexivity.
  - repeat constructor.
  - reflexivity.
Defined.

Lemma whole_days_bound (later earlier : instant) :
  Interactive.days later earlier <= 30 -> later - earlier < 31 * 86400.
Proof.
  unfold Interactive.days, Interactive.day_seconds. intros Hdays.
  destruct (Z_lt_le_dec (later - earlier) (31 * 86400)) as [Hlt|Hge]; [exact Hlt|].
  assert (31 <= (later - earlier) / 86400) by (apply Z.div_le_lower_bound; lia). lia.
Qed.

Lemma accepted_end_passed_the_tests (L : libs) (prompt : string) (start_ : instant)
  (inputs : list string) (e : instant) (rest : list string) :
  fst (Interactive.get_valid_datetime L prompt false (Some start_) inputs)
  = Some (e, rest) ->
  start_ < e
  /\ Interactive.days e start_ <= 30
  /\ exists skipped text,
      inputs = skipped ++ text :: rest /\ strptime_cet L text = Some e.
Proof.
  induction inputs as [|line inputs IH]; [discriminate|].
  cbn [Interactive.get_valid_datetime].
  destruct (Interactive.get_valid_datetime L prompt false (Some start_) inputs)
    as [r evs] eqn:Erec.
  cbn [fst] in IH.
  assert (Hagain : r = Some (e, rest) ->
                   start_ < e /\ Interactive.days e start_ <= 30
                   /\ exists skipped text,
                       line :: inputs = skipped ++ text :: rest
                       /\ strptime_cet L text = Some e).
  { intros Hr. destruct (IH Hr) as (H1 & H2 & skipped & text & -> & Ht).
    repeat split; auto. exists (line :: skipped), text. split; [reflexivity|exact Ht]. }
  destruct (strptime_cet L line) as [d|] eqn:Ed; [|exact Hagain].
  destruct (d <=? start_) eqn:Hle; [exact Hagain|].
  destruct (Interactive.days d start_ >? 30) eqn:Hdays; [exact Hagain|].
  cbn [fst]. intros H. injection H as <- <-.
  apply Z.leb_gt in Hle. rewrite Z.gtb_ltb in Hdays. apply Z.ltb_ge in Hdays.
  repeat split; auto.
  exists [], line. split; [reflexivity|exact Ed].
Qed.

(** X2. Whatever the operator types, an end the loop accepts lies strictly
    after the start and less than 31 days after it (its whole-day span is at
    most 30); it is the instant of one of the lines typed, and the lines left
    are those after it. *)
Theorem accepted_end_is_in_range :
  forall (L : libs) (prompt : string) (start_ : instant) (inputs : list string)
         (e : instant) (rest : list string),
    fst (Interactive.get_valid_datetime L prompt false (Some start_) inputs)
    = Some (e, rest) ->
    start_ < e
    /\ Interactive.days e start_ <= 30
    /\ e - start_ < 31 * 86400
    /\ exists skipped text,
        inputs = skipped ++ text :: rest /\ strptime_cet L text = Some e.
Proof.
  intros L prompt start_ inputs e rest H.
  destruct (accepted_end_passed_the_tests L prompt start_ inputs e rest H)
    as (Hlt & Hdays & Hline).
  split; [exact Hlt|]. split; [exact Hdays|].
  split; [apply whole_days_bound; exact Hdays|exact Hline].
Qed.

Lemma accepted_end_witness :
  1704063600 < 1706655600
  /\ Interactive.days 1706655600 1704063600 <= 30
  /\ 1706655600 - 1704063600 < 31 * 86400.
Proof.
  destruct (accepted_end_is_in_range Sample.L "Enter end date and time" 1704063600
              ["2023-12-31 00:00"; "2024-02-01 00:00"; "2024-01-31 00:00"; "y"]
              1706655600 ["y"] eq_refl) as (H1 & H2 & H3 & _).
  split; [exact H1|]. split; [exact H2|exact H3].
Defined.

Lemma prompts_and_lines :
  forall (L : libs) (prompt : string) (is_start : bool) (global_start : option instant)
         (inputs : list string),
    match Interactive.get_valid_datetime L prompt is_start global_start inputs with
    | (Some (_, rest), evs) =>
        (prompts_of evs + List.length rest = List.length inputs)%nat
        /\ (0 < prompts_of evs)%nat
    | (None, evs) =>
        prompts_of evs = S (List.length inputs)
        /\ last evs (Say "") = Uncaught EOFError
    end.
Proof.
  intros L prompt is_start g inputs.
  induction inputs as [|line inputs IH]; [split; reflexivity|].
  cbn [Interactive.get_valid_datetime].
  destruct (Interactive.get_valid_datetime L prompt is_start g inputs)
    as [[[t rest]|] evs] eqn:Erec.
  - assert (Hagain : forall complaint,
               (prompts_of (Prompt prompt :: Say complaint :: evs)
                + List.length rest = List.length (line :: inputs))%nat
               /\ (0 < prompts_of (Prompt prompt :: Say complaint :: evs))%nat).
    { intros c. unfold prompts_of in *. cbn [filter List.length]. lia. }
    destruct (strptime_cet L line) as [d|]; [|apply Hagain].
    destruct (if is_start then None else g) as [s|];
      [|unfold prompts_of; cbn [filter List.length]; lia].
    destruct (d <=? s); [apply Hagain|].
    destruct (Interactive.days d s >? 30); [apply Hagain|].
    unfold prompts_of; cbn [filter List.length]; lia.
  - assert (Hagain : forall complaint,
               prompts_of (Prompt prompt :: Say complaint :: evs)
               = S (List.length (line :: inputs))
               /\ last (Prompt prompt :: Say complaint :: evs) (Say "")
                  = Uncaught EOFError).
    { intros c. destruct IH as [IHp IHl]. split.
      - unfold prompts_of in *. cbn [filter List.length]. lia.
      - destruct evs as [|ev evs']; [discriminate IHp|].
        cbn [last]. cbn [last] in IHl. exact IHl. }
    destruct (strptime_cet L line) as [d|]; [|apply Hagain].
    destruct (if is_start then None else g) as [s|];
      [|unfold prompts_of; cbn [filter List.length]; lia].
    destruct (d <=? s); [apply Hagain|].
    destruct (Interactive.days d s >? 30); [apply Hagain|].
    unfold prompts_of; cbn [filter List.length]; lia.
Qed.

(** X3. The loop asks once per line it reads: when it returns an instant the
    number of prompts is the number of lines consumed, and when the input ends
    first it has asked once more than there were lines and the run ends on
    [EOFError]. *)
Theorem one_prompt_per_line_read :
  forall (L : libs) (prompt : string) (is_start : bool) (global_start : option instant)
         (inputs : list string),
    let outcome :=
      Interactive.get_valid_datetime L prompt is_start global_start inputs in
    (forall t rest,
        fst outcome = Some (t, rest) ->
        (prompts_of (snd outcome) + List.length rest = List.length inputs)%nat
        /\ (0 < prompts_of (snd outcome))%nat)
    /\ (fst outcome = None ->
        prompts_of (snd outcome) = S (List.length inputs)
        /\ last (snd outcome) (Say "") = Uncaught EOFError).
Proof.
  intros L prompt is_start g inputs outcome. subst outcome.
  pose proof (prompts_and_lines L prompt is_start g inputs) as H.
  destruct (Interactive.get_valid_datetime L prompt is_start g inputs)
    as [[[t' rest']|] evs]; cbn [fst snd]; split.
  - intros t rest Heq. injection Heq as <- <-. exact H.
  - discriminate.
  - discriminate.
  - intros _. exact H.
Qed.

Lemma one_prompt_per_line_witness :
  (prompts_of
     (snd (Interactive.get_valid_datetime Sample.L "Enter end date and time" false
             (Some 1704063600%Z) ["2024-02-01 00:00"; "2024-01-31 00:00"; "y"]))
   + 1 = 3)%nat
  /\ last (snd (Interactive.get_valid_datetime Sample.L "Enter end date and time"
                  false (Some 1704063600) ["2024-02-01 00:00"; "soon"]))
          (Say "")
     = Uncaught EOFError.
Proof.
  split.
  - apply (proj1 (one_prompt_per_line_read Sample.L "Enter end date and time" false
                    (Some 1704063600)
                    ["2024-02-01 00:00"; "2024-01-31 00:00"; "y"])
             1706655600 ["y"] eq_refl).
  - apply (proj2 (one_prompt_per_line_read Sample.L "Enter end date and time" false
                    (Some 1704063600) ["2024-02-01 00:00"; "soon"]) eq_refl).
Defined.

(** ** The requests of a run *)

Lemma requests_of_app (a b : list event) :
  requests_of (a ++ b) = requests_of a ++ requests_of b.
Proof. apply filter_app. Qed.

Lemma fetch_data_requests (url : string) (p : params) (w : world) :
  requests_of (snd (fetch_data url p w)) = [HttpGet url p].
Proof.
  destruct (fetch_data_events url p w) as [-> | ->]; reflexivity.
Qed.

Lemma Fixed_after_fetch_no_requests (L : libs) (d_i d_a : json) :
  requests_of
    (snd (Fixed.process_data L d_i "Imbalance")
     ++ snd (Fixed.process_data L d_a "Activation")
     ++ (if negb (empty (fst (Fixed.process_data L d_i "Imbalance")))
            && negb (empty (fst (Fixed.process_data L d_a "Activation")))
         then Fixed.create_visualization (fst (Fixed.process_data L d_i "Imbalance"))
                (fst (Fixed.process_data L d_a "Activation"))
              ++ snd (Fixed.analyze_regulation L
                        (fst (Fixed.process_data L d_i "Imbalance"))
                        (fst (Fixed.process_data L d_a "Activation")))
         else [Say "No data available for processing"])) = [].
Proof.
  unfold Fixed.process_data.
  destruct (Fixed.process_data_try L d_i "Imbalance") as [ti|e1];
    destruct (Fixed.process_data_try L d_a "Activation") as [ta|e2];
    cbn [fst snd]; rewrite !requests_of_app;
    try (destruct (negb (empty _) && negb (empty _)));
    unfold Fixed.create_visualization, Fixed.analyze_regulation;
    try (destruct (Fixed.create_visualization_try _ _));
    try (destruct (Fixed.analyze_regulation_try L _ _) as [[[rows s] c]|e3]);
    reflexivity.
Qed.

Lemma Interactive_after_fetch_no_requests (L : libs) (d_i d_a : json)
  (start_ end_ : instant) :
  requests_of
    (snd (Interactive.process_data L d_i "Imbalance" start_ end_)
     ++ snd (Interactive.process_data L d_a "Activation" start_ end_)
     ++ (if negb (empty (fst (Interactive.process_data L d_i "Imbalance" start_ end_)))
            && negb (empty (fst (Interactive.process_data L d_a "Activation"
                                   start_ end_)))
         then Interactive.create_visualization
                (fst (Interactive.process_data L d_i "Imbalance" start_ end_))
                (fst (Interactive.process_data L d_a "Activation" start_ end_))
                start_ end_
              ++ snd (Interactive.analyze_regulation
                        (fst (Interactive.process_data L d_i "Imbalance" start_ end_))
                        (fst (Interactive.process_data L d_a "Activation" start_ end_)))
         else [Say "No data available for processing"])) = [].
Proof.
  unfold Interactive.process_data.
  destruct (Interactive.process_data_try L d_i "Imbalance" start_ end_) as [ti|e1];
    destruct (Interactive.process_data_try L d_a "Activation" start_ end_) as [ta|e2];
    cbn [fst snd]; rewrite !requests_of_app;
    try (destruct (negb (empty _) && negb (empty _)));
    unfold Interactive.create_visualization, Interactive.analyze_regulation;
    try (destruct (Interactive.create_visualization_try _ _ _ _));
    try (destruct (Interactive.analyze_regulation_try _ _) as [[[rows s] c]|e3]);
    reflexivity.
Qed.

Lemma Fixed_main_requests (L : libs) (w : world) :
  requests_of (Fixed.main L w)
  = [HttpGet IMBALANCE_URL Fixed.imbalance_params;
     HttpGet ACTIVATION_URL Fixed.activation_params].
Proof.
  rewrite Fixed_main_shape. cbv zeta.
  rewrite !requests_of_app, !fetch_data_requests.
  match goal with
  | |- context [if ?c then _ else _] => destruct c
  end.
  - rewrite Fixed_after_fetch_no_requests. reflexivity.
  - reflexivity.
Qed.

Lemma Interactive_run_requests (L : libs) (start_ end_ : instant) (w : world) :
  requests_of (Interactive.run L start_ end_ w)
  = [HttpGet IMBALANCE_URL
       (mk_params "imbalance_volumes" (start_ - 3 * 3600) (end_ + 3 * 3600)
                  "CET" "json" "0");
     HttpGet ACTIVATION_URL
       (mk_params "normal_activations_total" (start_ - 3 * 3600) (end_ + 3 * 3600)
                  "CET" "json" "0")].
Proof.
  rewrite Interactive_run_shape. cbv zeta.
  rewrite !requests_of_app, !fetch_data_requests.
  match goal with
  | |- context [if ?c then _ else _] => destruct c
  end.
  - rewrite Interactive_after_fetch_no_requests. reflexivity.
  - reflexivity.
Qed.

(** X4. A run of the fixed script, and a run of the pipeline of the
    interactive script once its two prompts have returned a window, send
    exactly two requests, first for the imbalance series and then for the
    activation series, whatever the first one meets: a failed first fetch does
    not save the second.  Both ask for the analysis window widened by three
    hours on either side, in zone CET and as JSON. *)
Theorem both_requests_always_sent :
  forall (L : libs) (w : world) (start_ end_ : instant),
    requests_of (Fixed.main L w)
    = [HttpGet IMBALANCE_URL
         (mk_params "imbalance_volumes" (Fixed.start_date_cet - 10800)
                    (Fixed.end_date_cet + 10800) "CET" "json" "0");
       HttpGet ACTIVATION_URL
         (mk_params "normal_activations_total" (Fixed.start_date_cet - 10800)
                    (Fixed.end_date_cet + 10800) "CET" "json" "0")]
    /\ requests_of (Interactive.run L start_ end_ w)
       = [HttpGet IMBALANCE_URL
            (mk_params "imbalance_volumes" (start_ - 10800) (end_ + 10800)
                       "CET" "json" "0");
          HttpGet ACTIVATION_URL
            (mk_params "normal_activations_total" (start_ - 10800) (end_ + 10800)
                       "CET" "json" "0")].
Proof.
  intros L w start_ end_. split.
  - rewrite Fixed_main_requests. reflexivity.
  - rewrite Interactive_run_requests. reflexivity.
Qed.

(** ** The normaliser on readings of the documented shape *)

Lemma as_records_readings (readings : list reading) :
  as_records (map (fun r => JObj (reading_fields r)) readings)
  = Some (map reading_fields readings).
Proof.
  induction readings as [|r readings IH]; [reflexivity|].
  cbn [map as_records]. rewrite IH. reflexivity.
Qed.

Lemma map_snd_combine {A B : Type} (a : list A) (b : list B) :
  List.length a = List.length b -> map snd (combine a b) = b.
Proof.
  revert b. induction a as [|x a IH]; intros [|y b] H; try discriminate;
    [reflexivity|].
  cbn [combine map snd]. f_equal. apply IH. injection H as H. exact H.
Qed.

Lemma combine_map_map {A B C : Type} (f : A -> B) (g : A -> C) (l : list A) :
  combine (map f l) (map g l) = map (fun x => (f x, g x)) l.
Proof.
  induction l as [|x l IH]; [reflexivity|]. cbn [map combine]. rewrite IH. reflexivity.
Qed.

Lemma combine_map_r {A B : Type} (g : A -> B) (l : list A) :
  combine l (map g l) = map (fun x => (x, g x)) l.
Proof.
  induction l as [|x l IH]; [reflexivity|]. cbn [map combine]. rewrite IH. reflexivity.
Qed.

Lemma readings_have_the_columns (readings : list reading) (name : string) :
  readings <> [] ->
  name = "from" \/ name = "to" \/ name = "values" ->
  existsb (String.eqb name)
          (nodup string_dec (flat_map (map fst) (map reading_fields readings))) = true.
Proof.
  intros Hne Hname. rewrite existsb_nodup.
  destruct readings as [|r readings]; [contradiction|].
  destruct Hname as [-> | [-> | ->]]; reflexivity.
Qed.

Lemma stamps_of_readings (L : libs) (timed : list (instant * reading)) :
  Forall (parses L) timed ->
  mapM (to_datetime_cell L) (map (fun p => Some (JStr (r_from (snd p)))) timed)
  = Ok (map (fun p => Some (fst p)) timed).
Proof.
  induction 1 as [|p timed Hp _ IH]; [reflexivity|].
  cbn [map mapM]. unfold to_datetime_cell at 1. unfold parses in Hp. rewrite Hp.
  cbn [bind]. rewrite IH. reflexivity.
Qed.

Lemma clip_readings (start_ end_ : instant) (cols : list string)
  (timed : list (instant * reading)) :
  clip start_ end_
       (mk_frame cols (map (fun p => (Some (fst p), reading_fields (snd p))) timed))
  = mk_frame cols
      (map (fun p => (fst p, reading_fields (snd p)))
           (filter (fun p => inside start_ end_ (fst p)) timed)).
Proof.
  unfold clip. cbn [columns rows]. f_equal.
  induction timed as [|p timed IH]; [reflexivity|].
  cbn [map flat_map]. rewrite IH. cbn [fst snd in_window filter]. unfold inside at 2.
  destruct ((start_ <=? fst p) && (fst p <? end_)); reflexivity.
Qed.

Lemma map_over_range_index {A B : Type} (f : A -> B) (l : list A) :
  map (fun r : nat * A => f (snd r)) (combine (seq 0 (List.length l)) l) = map f l.
Proof.
  rewrite <- (map_map snd f), map_snd_combine by (rewrite length_seq; reflexivity).
  reflexivity.
Qed.

Lemma from_column_of_timed (timed : list (instant * reading)) :
  map (fun p => Some (JStr (r_from (snd p)))) timed = from_column (map snd timed).
Proof.
  unfold from_column. rewrite map_map. reflexivity.
Qed.

(** The frame on which the columns are extracted, for readings whose [from]
    texts all parse and agree in format. *)
Lemma normaliser_reaches_extraction (L : libs) (timed : list (instant * reading))
  (data_type : string) (start_ end_ : instant) :
  timed <> [] ->
  Forall (parses L) timed ->
  one_format L (from_column (map snd timed)) = true ->
  Interactive.process_data_try L (payload_of (map snd timed)) data_type start_ end_
  = let df :=
      mk_frame (nodup string_dec
                      (flat_map (map fst) (map reading_fields (map snd timed))))
               (map (fun p => (fst p, reading_fields (snd p)))
                    (filter (fun p => inside start_ end_ (fst p)) timed)) in
    if String.eqb data_type "Imbalance" then
      v0 <- apply_subscript "values" 0 df ;;
      Ok (ImbalanceFrame
            (map (fun p => mk_imbalance_row (fst (fst p)) (snd p))
                 (combine (rows df) v0)))
    else
      v0 <- apply_subscript "values" 0 df ;;
      v1 <- apply_subscript "values" 1 df ;;
      Ok (ActivationFrame
            (map (fun p => mk_activation_row (fst (fst (fst p)))
                                             (snd (fst p)) (snd p))
                 (combine (combine (rows df) v0) v1))).
Proof.
  intros Hne Hparse Hone.
  assert (Hne' : map snd timed <> [])
    by (destruct timed; [contradiction|discriminate]).
  set (recs := map reading_fields (map snd timed)).
  set (df0 := mk_frame (nodup string_dec (flat_map (map fst) recs))
                       (combine (seq 0 (List.length recs)) recs)).
  assert (H1 : DataFrame L (JArr (map (fun r => JObj (reading_fields r))
                                      (map snd timed))) = Ok df0)
    by (unfold DataFrame; rewrite as_records_readings; reflexivity).
  assert (H2 : column "from" df0
               = Ok (map (fun p => Some (JStr (r_from (snd p)))) timed)).
  { unfold column, has_column, df0. cbn [columns rows].
    unfold recs at 1. rewrite (readings_have_the_columns _ "from" Hne') by auto.
    rewrite map_over_range_index. unfold recs. rewrite !map_map. reflexivity. }
  assert (H3 : to_datetime_column L (map (fun p => Some (JStr (r_from (snd p)))) timed)
               = Ok (map (fun p => Some (fst p)) timed)).
  { unfold to_datetime_column. rewrite (stamps_of_readings L timed Hparse).
    cbn [bind]. rewrite from_column_of_timed, Hone.
    destruct timed; [contradiction|reflexivity]. }
  assert (H4 : clip start_ end_ (set_index (map (fun p => Some (fst p)) timed) df0)
               = mk_frame (nodup string_dec (flat_map (map fst) recs))
                   (map (fun p => (fst p, reading_fields (snd p)))
                        (filter (fun p => inside start_ end_ (fst p)) timed))).
  { unfold set_index, df0. cbn [columns rows].
    rewrite map_snd_combine by (rewrite length_seq; reflexivity).
    unfold recs at 2. rewrite map_map, combine_map_map. apply clip_readings. }
  unfold Interactive.process_data_try, payload_of.
  cbn [assoc String.eqb Ascii.eqb Bool.eqb].
  rewrite H1. cbn [bind]. rewrite H2. cbn [bind]. rewrite H3. cbn [bind].
  rewrite H4. cbv zeta.
  match goal with
  | |- bind ?m _ = _ => destruct m as [out|e]; [|reflexivity]
  end.
  cbn [bind]. unfold can_drop, has_column. cbn [columns forallb].
  unfold recs. rewrite !(readings_have_the_columns _ _ Hne') by auto. reflexivity.
Qed.

(** Readings whose [from] texts do not agree in format give no table. *)
Lemma mixed_formats_lose_the_table (L : libs) (readings : list reading)
  (data_type : string) (start_ end_ : instant) :
  readings <> [] ->
  one_format L (from_column readings) = false ->
  Interactive.process_data L (payload_of readings) data_type start_ end_
  = (NoFrame, [ProcessError data_type]).
Proof.
  intros Hne Hone.
  unfold Interactive.process_data, Interactive.process_data_try, payload_of.
  cbn [assoc String.eqb Ascii.eqb Bool.eqb].
  unfold DataFrame. rewrite as_records_readings. cbn [bind].
  unfold column at 1, has_column at 1. cbn [columns rows].
  rewrite (readings_have_the_columns _ "from" Hne) by auto.
  rewrite map_over_range_index. cbn [bind].
  unfold to_datetime_column.
  replace (map (assoc "from") (map reading_fields readings))
    with (from_column readings) by (rewrite map_map; reflexivity).
  rewrite Hone.
  destruct (mapM (to_datetime_cell L) (from_column readings)); reflexivity.
Qed.

Lemma values_column_of_readings (cols : list string) (kept : list (instant * reading))
  (i : nat) :
  existsb (String.eqb "values") cols = true ->
  apply_subscript "values" i
    (mk_frame cols (map (fun p => (fst p, reading_fields (snd p))) kept))
  = mapM (fun p => subscript (Some (JArr (r_values (snd p)))) i) kept.
Proof.
  intros Hcol. unfold apply_subscript, column, has_column. cbn [columns rows].
  rewrite Hcol. cbn [bind]. rewrite map_map.
  induction kept as [|p kept IH]; [reflexivity|].
  cbn [map mapM]. rewrite IH. reflexivity.
Qed.

Lemma values_column_Ok (cols : list string) (kept : list (instant * reading)) (i : nat) :
  existsb (String.eqb "values") cols = true ->
  Forall (fun p => (i < List.length (r_values (snd p)))%nat) kept ->
  apply_subscript "values" i
    (mk_frame cols (map (fun p => (fst p, reading_fields (snd p))) kept))
  = Ok (map (fun p => nth i (r_values (snd p)) JNull) kept).
Proof.
  intros Hcol Hlen. rewrite values_column_of_readings by exact Hcol.
  apply mapM_all_Ok. eapply Forall_impl; [|exact Hlen].
  intros p Hp. cbv beta in Hp. cbn [subscript].
  destruct (nth_error (r_values (snd p)) i) as [v|] eqn:E.
  - rewrite (nth_error_nth _ _ JNull E). reflexivity.
  - apply nth_error_None in E. lia.
Qed.

Lemma values_column_Raise (cols : list string) (kept : list (instant * reading))
  (i : nat) :
  existsb (String.eqb "values") cols = true ->
  Exists (fun p => (List.length (r_values (snd p)) <= i)%nat) kept ->
  exists e, apply_subscript "values" i
              (mk_frame cols (map (fun p => (fst p, reading_fields (snd p))) kept))
            = Raise e.
Proof.
  intros Hcol Hshort. rewrite values_column_of_readings by exact Hcol.
  apply mapM_some_Raise. eapply Exists_impl; [|exact Hshort].
  intros p Hp. cbv beta in Hp. cbn [subscript].
  destruct (nth_error (r_values (snd p)) i) as [v|] eqn:E; [|eauto].
  assert (Hsome : nth_error (r_values (snd p)) i <> None) by congruence.
  apply nth_error_Some in Hsome. lia.
Qed.

Lemma kept_readings_long_enough (start_ end_ : instant) (n : nat)
  (timed : list (instant * reading)) :
  Forall (fun p => inside start_ end_ (fst p) = true ->
                   (n <= List.length (r_values (snd p)))%nat) timed ->
  Forall (fun p => (n <= List.length (r_values (snd p)))%nat)
         (filter (fun p => inside start_ end_ (fst p)) timed).
Proof.
  intros H. apply Forall_forall. intros p Hin. apply filter_In in Hin as [Hin Hp].
  rewrite Forall_forall in H. auto.
Qed.

Lemma imbalance_table_of_readings_at (L : libs) (timed : list (instant * reading))
  (start_ end_ : instant) :
  timed <> [] ->
  Forall (parses L) timed ->
  one_format L (from_column (map snd timed)) = true ->
  Forall (fun p => inside start_ end_ (fst p) = true ->
                   (1 <= List.length (r_values (snd p)))%nat) timed ->
  Interactive.process_data L (payload_of (map snd timed)) "Imbalance" start_ end_
  = (ImbalanceFrame
       (map (fun p => mk_imbalance_row (fst p) (nth 0 (r_values (snd p)) JNull))
            (filter (fun p => inside start_ end_ (fst p)) timed)),
     [Processed "Imbalance"
        (List.length (filter (fun p => inside start_ end_ (fst p)) timed))]).
Proof.
  intros Hne Hparse Hone Hlen.
  assert (Hne' : map snd timed <> [])
    by (destruct timed; [contradiction|discriminate]).
  unfold Interactive.process_data.
  rewrite (normaliser_reaches_extraction L timed "Imbalance" start_ end_ Hne Hparse
             Hone).
  cbv zeta. cbn [String.eqb Ascii.eqb Bool.eqb rows].
  rewrite values_column_Ok
    by (try (apply (readings_have_the_columns _ "values" Hne'); auto);
        apply (kept_readings_long_enough start_ end_ 1 timed Hlen)).
  cbn [bind]. rewrite combine_map_map, map_map. cbn [fst snd].
  unfold len. cbn [timestamps]. rewrite !length_map. reflexivity.
Qed.

Lemma activation_table_of_readings_at (L : libs) (timed : list (instant * reading))
  (data_type : string) (start_ end_ : instant) :
  String.eqb data_type "Imbalance" = false ->
  timed <> [] ->
  Forall (parses L) timed ->
  one_format L (from_column (map snd timed)) = true ->
  Forall (fun p => inside start_ end_ (fst p) = true ->
                   (2 <= List.length (r_values (snd p)))%nat) timed ->
  Interactive.process_data L (payload_of (map snd timed)) data_type start_ end_
  = (ActivationFrame
       (map (fun p => mk_activation_row (fst p) (nth 0 (r_values (snd p)) JNull)
                                        (nth 1 (r_values (snd p)) JNull))
            (filter (fun p => inside start_ end_ (fst p)) timed)),
     [Processed data_type
        (List.length (filter (fun p => inside start_ end_ (fst p)) timed))]).
Proof.
  intros Htype Hne Hparse Hone Hlen.
  assert (Hne' : map snd timed <> [])
    by (destruct timed; [contradiction|discriminate]).
  assert (Hcol : existsb (String.eqb "values")
                   (nodup string_dec
                      (flat_map (map fst) (map reading_fields (map snd timed)))) = true)
    by (apply readings_have_the_columns; auto).
  pose proof (kept_readings_long_enough start_ end_ 2 timed Hlen) as Hkept.
  unfold Interactive.process_data.
  rewrite (normaliser_reaches_extraction L timed data_type start_ end_ Hne Hparse
             Hone).
  cbv zeta. rewrite Htype. cbn [rows].
  rewrite (values_column_Ok _ _ 0 Hcol)
    by (eapply Forall_impl; [|exact Hkept]; intros p Hp; cbv beta in Hp; lia).
  cbn [bind].
  rewrite (values_column_Ok _ _ 1 Hcol)
    by (eapply Forall_impl; [|exact Hkept]; intros p Hp; cbv beta in Hp; lia).
  cbn [bind]. rewrite combine_map_map, combine_map_map, map_map. cbn [fst snd].
  unfold len. cbn [timestamps]. rewrite !length_map. reflexivity.
Qed.

(** X5. On a payload of the documented shape whose [from] texts all parse
    and agree in format and UTC offset, where every reading inside the window
    carries at least one value, the imbalance normaliser of either script
    succeeds: it returns, in payload order, one row per reading inside the
    window, with the reading's instant and its first value, and says how many
    rows there are.  Further values of a reading are ignored. *)
Theorem imbalance_table_of_readings :
  forall (L : libs) (timed : list (instant * reading)) (start_ end_ : instant),
    timed <> [] ->
    Forall (parses L) timed ->
    one_format L (from_column (map snd timed)) = true ->
    (Forall (fun p => inside start_ end_ (fst p) = true ->
                      (1 <= List.length (r_values (snd p)))%nat) timed ->
     Interactive.process_data L (payload_of (map snd timed)) "Imbalance" start_ end_
     = (ImbalanceFrame
          (map (fun p => mk_imbalance_row (fst p) (nth 0 (r_values (snd p)) JNull))
               (filter (fun p => inside start_ end_ (fst p)) timed)),
        [Processed "Imbalance"
           (List.length (filter (fun p => inside start_ end_ (fst p)) timed))]))
    /\ (Forall (fun p => inside Fixed.start_date_cet Fixed.end_date_cet (fst p) = true ->
                         (1 <= List.length (r_values (snd p)))%nat) timed ->
        Fixed.process_data L (payload_of (map snd timed)) "Imbalance"
        = (ImbalanceFrame
             (map (fun p => mk_imbalance_row (fst p) (nth 0 (r_values (snd p)) JNull))
                  (filter (fun p => inside Fixed.start_date_cet Fixed.end_date_cet
                                           (fst p)) timed)),
           [Processed "Imbalance"
              (List.length (filter (fun p => inside Fixed.start_date_cet
                                                    Fixed.end_date_cet (fst p))
                                   timed))])).
Proof.
  intros L timed start_ end_ Hne Hparse Hone. split; intros Hlen.
  - apply imbalance_table_of_readings_at; assumption.
  - change (Fixed.process_data L (payload_of (map snd timed)) "Imbalance")
      with (Interactive.process_data L (payload_of (map snd timed)) "Imbalance"
              Fixed.start_date_cet Fixed.end_date_cet).
    apply imbalance_table_of_readings_at; assumption.
Qed.

(** X6. Likewise for the activation series, which is what either normaliser
    takes any data type other than the text "Imbalance" to be: on readings
    whose [from] texts all parse and agree in format and UTC offset, when
    every reading inside the window carries at least two values, the table has
    one row per such reading, in payload order, with its first value as
    up-regulation and its second as down-regulation. *)
Theorem activation_table_of_readings :
  forall (L : libs) (timed : list (instant * reading)) (data_type : string)
         (start_ end_ : instant),
    String.eqb data_type "Imbalance" = false ->
    timed <> [] ->
    Forall (parses L) timed ->
    one_format L (from_column (map snd timed)) = true ->
    (Forall (fun p => inside start_ end_ (fst p) = true ->
                      (2 <= List.length (r_values (snd p)))%nat) timed ->
     Interactive.process_data L (payload_of (map snd timed)) data_type start_ end_
     = (ActivationFrame
          (map (fun p => mk_activation_row (fst p) (nth 0 (r_values (snd p)) JNull)
                                           (nth 1 (r_values (snd p)) JNull))
               (filter (fun p => inside start_ end_ (fst p)) timed)),
        [Processed data_type
           (List.length (filter (fun p => inside start_ end_ (fst p)) timed))]))
    /\ (Forall (fun p => inside Fixed.start_date_cet Fixed.end_date_cet (fst p) = true ->
                         (2 <= List.length (r_values (snd p)))%nat) timed ->
        Fixed.process_data L (payload_of (map snd timed)) data_type
        = (ActivationFrame
             (map (fun p => mk_activation_row (fst p) (nth 0 (r_values (snd p)) JNull)
                                              (nth 1 (r_values (snd p)) JNull))
                  (filter (fun p => inside Fixed.start_date_cet Fixed.end_date_cet
                                           (fst p)) timed)),
           [Processed data_type
              (List.length (filter (fun p => inside Fixed.start_date_cet
                                                    Fixed.end_date_cet (fst p))
                                   timed))])).
Proof.
  intros L timed data_type start_ end_ Htype Hne Hparse Hone. split; intros Hlen.
  - apply activation_table_of_readings_at; assumption.
  - change (Fixed.process_data L (payload_of (map snd timed)) data_type)
      with (Interactive.process_data L (payload_of (map snd timed)) data_type
              Fixed.start_date_cet Fixed.end_date_cet).
    apply activation_table_of_readings_at; assumption.
Qed.

Lemma imbalance_table_of_readings_witness :
  timed_imbalance_sample <> []
  /\ Forall (parses Sample.L) timed_imbalance_sample
  /\ one_format Sample.L (from_column (map snd timed_imbalance_sample)) = true
  /\ Fixed.process_data Sample.L (payload_of (map snd timed_imbalance_sample))
       "Imbalance"
     = (ImbalanceFrame [mk_imbalance_row 1727049600 (JNum 150%Q);
                        mk_imbalance_row 1727053200 (JNum 0%Q)],
        [Processed "Imbalance" 2]).
Proof.
  assert (Hne : timed_imbalance_sample <> []) by discriminate.
  assert (Hparse : Forall (parses Sample.L) timed_imbalance_sample)
    by (repeat constructor).
  split; [exact Hne|]. split; [exact Hparse|]. split; [reflexivity|].
  apply (imbalance_table_of_readings Sample.L timed_imbalance_sample
           Fixed.start_date_cet Fixed.end_date_cet Hne Hparse eq_refl).
  repeat constructor; simpl; intros; try discriminate; lia.
Defined.

Lemma activation_table_of_readings_witness :
  String.eqb "Activation" "Imbalance" = false
  /\ Forall (parses Sample.L) timed_activation_sample
  /\ one_format Sample.L (from_column (map snd timed_activation_sample)) = true
  /\ Interactive.process_data Sample.L (payload_of (map snd timed_activation_sample))
       "Activation" Fixed.start_date_cet Fixed.end_date_cet
     = (ActivationFrame [mk_activation_row 1727049600 (JNum 80%Q) (JNum 20%Q);
                         mk_activation_row 1727053200 (JNum 5%Q) (JNum 30%Q)],
        [Processed "Activation" 2]).
Proof.
  assert (Hne : timed_activation_sample <> []) by discriminate.
  assert (Hparse : Forall (parses Sample.L) timed_activation_sample)
    by (repeat constructor).
  split; [reflexivity|]. split; [exact Hparse|]. split; [reflexivity|].
  apply (activation_table_of_readings Sample.L timed_activation_sample "Activation"
           Fixed.start_date_cet Fixed.end_date_cet eq_refl Hne Hparse eq_refl).
  repeat constructor; simpl; intros; try discriminate; lia.
Defined.

(** X7. One reading inside the window with too few values (none for the
    imbalance series, fewer than two for the activation series) costs the
    whole table: either normaliser reports the failure and returns the empty
    table, whatever the other readings carry. *)
Theorem short_values_lose_the_table :
  forall (L : libs) (timed : list (instant * reading)) (data_type : string)
         (start_ end_ : instant),
    timed <> [] ->
    Forall (parses L) timed ->
    (Exists (fun p => inside start_ end_ (fst p) = true
                      /\ (List.length (r_values (snd p))
                          < if String.eqb data_type "Imbalance" then 1 else 2)%nat)
            timed ->
     Interactive.process_data L (payload_of (map snd timed)) data_type start_ end_
     = (NoFrame, [ProcessError data_type]))
    /\ (Exists (fun p => inside Fixed.start_date_cet Fixed.end_date_cet (fst p) = true
                         /\ (List.length (r_values (snd p))
                             < if String.eqb data_type "Imbalance" then 1 else 2)%nat)
               timed ->
        Fixed.process_data L (payload_of (map snd timed)) data_type
        = (NoFrame, [ProcessError data_type])).
Proof.
  intros L timed data_type start_ end_ Hne Hparse.
  assert (Hne' : map snd timed <> [])
    by (destruct timed; [contradiction|discriminate]).
  assert (Hcol : existsb (String.eqb "values")
                   (nodup string_dec
                      (flat_map (map fst) (map reading_fields (map snd timed)))) = true)
    by (apply readings_have_the_columns; auto).
  assert (Hat : forall s e,
             Exists (fun p => inside s e (fst p) = true
                              /\ (List.length (r_values (snd p))
                                  < if String.eqb data_type "Imbalance"
                                    then 1 else 2)%nat) timed ->
             Interactive.process_data L (payload_of (map snd timed)) data_type s e
             = (NoFrame, [ProcessError data_type])).
  { intros s e Hshort.
    destruct (one_format L (from_column (map snd timed))) eqn:Hone;
      [|apply mixed_formats_lose_the_table; assumption].
    assert (Hkept : Exists (fun p => (List.length (r_values (snd p))
                                      < if String.eqb data_type "Imbalance"
                                        then 1 else 2)%nat)
                           (filter (fun p => inside s e (fst p)) timed)).
    { apply Exists_exists in Hshort as (p & Hin & Hp & Hlen).
      apply Exists_exists. exists p. split; [|exact Hlen].
      apply filter_In. auto. }
    unfold Interactive.process_data.
    rewrite (normaliser_reaches_extraction L timed data_type s e Hne Hparse Hone).
    cbv zeta. destruct (String.eqb data_type "Imbalance").
    - destruct (values_column_Raise _ (filter (fun p => inside s e (fst p)) timed)
                  0 Hcol) as [ex ->]; [|reflexivity].
      eapply Exists_impl; [|exact Hkept]. intros p Hp. cbv beta in Hp. lia.
    - set (df := mk_frame _ _).
      destruct (apply_subscript "values" 0 df) as [v0|ex] eqn:E0; [|reflexivity].
      cbn [bind].
      destruct (values_column_Raise _ (filter (fun p => inside s e (fst p)) timed)
                  1 Hcol) as [ex Hex].
      { eapply Exists_impl; [|exact Hkept]. intros p Hp. cbv beta in Hp. lia. }
      fold df in Hex. rewrite Hex. reflexivity. }
  split; [apply Hat|].
  change (Fixed.process_data L (payload_of (map snd timed)) data_type)
    with (Interactive.process_data L (payload_of (map snd timed)) data_type
            Fixed.start_date_cet Fixed.end_date_cet).
  apply Hat.
Qed.

Lemma short_values_witness :
  Forall (parses Sample.L) timed_short_sample
  /\ Fixed.process_data Sample.L (payload_of (map snd timed_short_sample)) "Activation"
     = (NoFrame, [ProcessError "Activation"])
  /\ fst (Fixed.process_data Sample.L (payload_of (map snd timed_short_sample))
            "Imbalance")
     = ImbalanceFrame [mk_imbalance_row 1727049600 (JNum 80%Q);
                       mk_imbalance_row 1727053200 (JNum 5%Q)].
Proof.
  assert (Hne : timed_short_sample <> []) by discriminate.
  assert (Hparse : Forall (parses Sample.L) timed_short_sample)
    by (repeat constructor).
  split; [exact Hparse|]. split; [|reflexivity].
  apply (short_values_lose_the_table Sample.L timed_short_sample "Activation"
           Fixed.start_date_cet Fixed.end_date_cet Hne Hparse).
  apply Exists_cons_tl. apply Exists_cons_hd. split; [reflexivity|simpl; lia].
Defined.

(** X8. A single [from] text that pandas cannot read, anywhere in the
    payload, inside the window or not, costs the whole table as well. *)
Theorem unreadable_from_loses_the_table :
  forall (L : libs) (readings : list reading) (data_type : string)
         (start_ end_ : instant),
    Exists (fun r => to_datetime_cet L (JStr (r_from r)) = Unparsable) readings ->
    Interactive.process_data L (payload_of readings) data_type start_ end_
    = (NoFrame, [ProcessError data_type])
    /\ Fixed.process_data L (payload_of readings) data_type
       = (NoFrame, [ProcessError data_type]).
Proof.
  intros L readings data_type start_ end_ Hbad.
  assert (Hne : readings <> []) by (destruct Hbad; discriminate).
  assert (Hat : forall s e,
             Interactive.process_data L (payload_of readings) data_type s e
             = (NoFrame, [ProcessError data_type])).
  { intros s e. unfold Interactive.process_data, Interactive.process_data_try, payload_of.
    cbn [assoc String.eqb Ascii.eqb Bool.eqb].
    unfold DataFrame. rewrite as_records_readings. cbn [bind].
    unfold column at 1, has_column at 1. cbn [columns rows].
    rewrite (readings_have_the_columns _ "from" Hne) by auto.
    rewrite map_over_range_index. cbn [bind].
    unfold to_datetime_column.
    match goal with
    | |- context [mapM ?f ?l] =>
        destruct (mapM_some_Raise f l) as [ex Hex]; [|rewrite Hex; reflexivity]
    end.
    rewrite map_map. apply Exists_exists in Hbad as (r & Hin & Hr).
    apply Exists_exists. exists (Some (JStr (r_from r))). split.
    - apply in_map_iff. exists r. split; [reflexivity|exact Hin].
    - exists ValueError. cbn [to_datetime_cell]. rewrite Hr. reflexivity. }
  split; [apply Hat|].
  change (Fixed.process_data L (payload_of readings) data_type)
    with (Interactive.process_data L (payload_of readings) data_type
            Fixed.start_date_cet Fixed.end_date_cet).
  apply Hat.
Qed.

Lemma unreadable_from_witness :
  Fixed.process_data Sample.L
    (payload_of [mk_reading "2024-09-23T00:00Z" "2024-09-23T01:00Z" [JNum 150%Q];
                 mk_reading "23/09/2024 01:00" "23/09/2024 02:00" [JNum 0%Q]])
    "Imbalance"
  = (NoFrame, [ProcessError "Imbalance"]).
Proof.
  apply (unreadable_from_loses_the_table Sample.L
           [mk_reading "2024-09-23T00:00Z" "2024-09-23T01:00Z" [JNum 150%Q];
            mk_reading "23/09/2024 01:00" "23/09/2024 02:00" [JNum 0%Q]]
           "Imbalance" 0 0).
  apply Exists_cons_tl. apply Exists_cons_hd. reflexivity.
Defined.

(** ** The join and the rows of the analysis *)

Lemma joined_pair_joins (j : imbalance_row * activation_row) row :
  imb_timestamp (fst j) = act_timestamp (snd j) ->
  numeric_row j = Ok (timestamp row, baltic_imbalance row, up_regulation row,
                      down_regulation row) ->
  joins (fst j) (snd j) row.
Proof.
  intros Hk H. apply numeric_row_Ok in H as (Ht & Hb & Hu & Hd).
  unfold joins. rewrite <- Hk, Ht. auto.
Qed.

(** X9. The analysis table is the inner join on the timestamp.  Every row of
    it carries the imbalance of an imbalance row and the two regulation values
    of an activation row that have its timestamp, so that a timestamp missing
    from either table never shows up; and when the analysis does not fail,
    every pair of an imbalance row and an activation row of one timestamp has
    its row in the table.  So in both scripts. *)
Theorem analysis_table_is_the_inner_join :
  forall (L : libs) (l : list imbalance_row) (r : list activation_row),
    (forall row,
        In row (fst (Interactive.analyze_regulation (ImbalanceFrame l)
                       (ActivationFrame r))) ->
        exists ir ar, In ir l /\ In ar r /\ joins ir ar row)
    /\ (snd (Interactive.analyze_regulation (ImbalanceFrame l) (ActivationFrame r))
        <> [AnalysisError] ->
        forall ir ar,
          In ir l -> In ar r -> imb_timestamp ir = act_timestamp ar ->
          exists row,
            In row (fst (Interactive.analyze_regulation (ImbalanceFrame l)
                           (ActivationFrame r)))
            /\ joins ir ar row)
    /\ (forall row,
           In row (fst (Fixed.analyze_regulation L (ImbalanceFrame l)
                          (ActivationFrame r))) ->
           exists ir ar, In ir l /\ In ar r /\ joins ir ar (Fixed.core row))
    /\ (snd (Fixed.analyze_regulation L (ImbalanceFrame l) (ActivationFrame r))
        <> [AnalysisError] ->
        forall ir ar,
          In ir l -> In ar r -> imb_timestamp ir = act_timestamp ar ->
          exists row,
            In row (fst (Fixed.analyze_regulation L (ImbalanceFrame l)
                           (ActivationFrame r)))
            /\ joins ir ar (Fixed.core row)).
Proof.
  intros L l r.
  assert (Hsound : forall row,
             In row (fst (Interactive.analyze_regulation (ImbalanceFrame l)
                            (ActivationFrame r))) ->
             exists ir ar, In ir l /\ In ar r /\ joins ir ar row).
  { intros row Hin. pose proof (Interactive_rows_of_frames l r) as Hrows.
    destruct (mapM (Interactive.derive _) (merge imb_timestamp act_timestamp l r))
      as [rows|e] eqn:Em.
    - destruct Hrows as [Heq _]. rewrite Heq in Hin. cbn [fst] in Hin.
      destruct (mapM_In_result _ _ _ _ Em Hin) as ([ir ar] & Hj & Hd).
      apply In_merge in Hj as (Hir & Har & Hk).
      exists ir, ar. split; [exact Hir|]. split; [exact Har|].
      apply (joined_pair_joins (ir, ar) row Hk). eapply Interactive_derive_Ok. exact Hd.
    - rewrite Hrows in Hin. contradiction. }
  assert (Hcomplete :
            snd (Interactive.analyze_regulation (ImbalanceFrame l) (ActivationFrame r))
            <> [AnalysisError] ->
            forall ir ar,
              In ir l -> In ar r -> imb_timestamp ir = act_timestamp ar ->
              exists row,
                In row (fst (Interactive.analyze_regulation (ImbalanceFrame l)
                               (ActivationFrame r)))
                /\ joins ir ar row).
  { intros Hok ir ar Hir Har Hk. pose proof (Interactive_rows_of_frames l r) as Hrows.
    destruct (mapM (Interactive.derive _) (merge imb_timestamp act_timestamp l r))
      as [rows|e] eqn:Em.
    - destruct Hrows as [Heq _]. rewrite Heq. cbn [fst].
      assert (Hj : In (ir, ar) (merge imb_timestamp act_timestamp l r))
        by (apply In_merge; auto).
      destruct (mapM_In_argument _ _ _ _ Em Hj) as (row & Hin & Hd).
      exists row. split; [exact Hin|].
      apply (joined_pair_joins (ir, ar) row Hk). eapply Interactive_derive_Ok. exact Hd.
    - rewrite Hrows in Hok. contradiction. }
  pose proof (analysis_rows_related L (ImbalanceFrame l) (ActivationFrame r)) as [Hrows Hevs].
  split; [exact Hsound|]. split; [exact Hcomplete|]. split.
  - intros row Hin. apply Hsound. rewrite <- Hrows. apply in_map. exact Hin.
  - intros Hok ir ar Hir Har Hk.
    destruct (Hcomplete (proj1 Hevs Hok) ir ar Hir Har Hk) as (row & Hin & Hj).
    rewrite <- Hrows in Hin. apply in_map_iff in Hin as (frow & <- & Hin).
    exists frow. auto.
Qed.

Lemma analysis_table_is_the_inner_join_witness :
  exists row,
    In row (fst (Interactive.analyze_regulation
                   (ImbalanceFrame [mk_imbalance_row 1727049600 (JNum 150%Q);
                                    mk_imbalance_row 1727053200 (JNum 0%Q)])
                   (ActivationFrame [mk_activation_row 1727049600 (JNum 80%Q)
                                                       (JNum 20%Q)])))
    /\ joins (mk_imbalance_row 1727049600 (JNum 150%Q))
             (mk_activation_row 1727049600 (JNum 80%Q) (JNum 20%Q)) row.
Proof.
  destruct (analysis_table_is_the_inner_join Sample.L
              [mk_imbalance_row 1727049600 (JNum 150%Q);
               mk_imbalance_row 1727053200 (JNum 0%Q)]
              [mk_activation_row 1727049600 (JNum 80%Q) (JNum 20%Q)])
    as (_ & Hcomplete & _).
  apply Hcomplete.
  - vm_compute. discriminate.
  - simpl. auto.
  - simpl. auto.
  - reflexivity.
Defined.

Lemma analysis_failures_related (L : libs) (imbalance_df activation_df : table) :
  snd (Fixed.analyze_regulation L imbalance_df activation_df) = [AnalysisError]
  <-> snd (Interactive.analyze_regulation imbalance_df activation_df)
      = [AnalysisError].
Proof.
  unfold Fixed.analyze_regulation, Interactive.analyze_regulation.
  rewrite (analyze_regulation_try_related L imbalance_df activation_df).
  destruct (Fixed.analyze_regulation_try L imbalance_df activation_df)
    as [[[rows s] c]|e]; cbn [fst snd]; split; intros H; try discriminate;
    reflexivity.
Qed.

Lemma analysis_failure_of_frames (l : list imbalance_row) (r : list activation_row) :
  snd (Interactive.analyze_regulation (ImbalanceFrame l) (ActivationFrame r))
  = [AnalysisError]
  <-> exists ir ar,
      In ir l /\ In ar r /\ imb_timestamp ir = act_timestamp ar
      /\ numeric (imb_baltic_imbalance ir) && numeric (act_up_regulation ar)
         && numeric (act_down_regulation ar) = false.
Proof.
  pose proof (Interactive_rows_of_frames l r) as Hrows.
  destruct (mapM (Interactive.derive _) (merge imb_timestamp act_timestamp l r))
    as [rows|e] eqn:Em.
  - destruct Hrows as [_ Hne]. split; [intros H; contradiction|].
    intros (ir & ar & Hir & Har & Hk & Hnum). exfalso.
    assert (Hj : In (ir, ar) (merge imb_timestamp act_timestamp l r))
      by (apply In_merge; auto).
    destruct (mapM_In_argument _ _ _ _ Em Hj) as (row & _ & Hd).
    apply (proj2 (numeric_row_Raise (ir, ar))) in Hnum.
    apply (proj2 (Interactive_derive_Raise
                    (dtypes_of (ImbalanceFrame l) (ActivationFrame r)) (ir, ar)))
      in Hnum as [e Hraise].
    congruence.
  - rewrite Hrows. cbn [snd]. split; [intros _|reflexivity].
    destruct (mapM_Raise_some _ _ _ Em) as ([ir ar] & e' & Hj & Hraise).
    apply In_merge in Hj as (Hir & Har & Hk).
    exists ir, ar. repeat (split; [assumption|]).
    apply (proj1 (numeric_row_Raise (ir, ar))).
    eapply Interactive_derive_Raise. eauto.
Qed.

Lemma unusable_not_numeric (v : json) : unusable v = true -> numeric v = false.
Proof. destruct v; simpl; congruence. Qed.

Lemma number_numeric (v : json) : number v = true -> numeric v = true.
Proof. destruct v; simpl; congruence. Qed.

(** X10. A cell that is not a number matters to the analysis only in a row
    that is joined.  On the tables normalised from two payloads of the
    documented shape (the normaliser of the fixed script is that of the
    interactive one on its own window), when every imbalance row and
    activation row of one timestamp carry numbers, the analysis of either
    script does not fail, whatever the rows without a partner carry.  On any
    two tables, when some such pair carries text, a list or a dict in one of
    its three cells, the analysis fails: it prints its error line, writes no
    CSV and returns the empty table. *)
Theorem analysis_fails_on_joined_cells_only :
  forall (L : libs) (imbalance_readings activation_readings : list reading)
         (start_ end_ : instant) (l : list imbalance_row) (r : list activation_row),
    (fst (Interactive.process_data L (payload_of imbalance_readings) "Imbalance"
            start_ end_) = ImbalanceFrame l ->
     fst (Interactive.process_data L (payload_of activation_readings) "Activation"
            start_ end_) = ActivationFrame r ->
     (forall ir ar,
         In ir l -> In ar r -> imb_timestamp ir = act_timestamp ar ->
         number (imb_baltic_imbalance ir) && number (act_up_regulation ar)
         && number (act_down_regulation ar) = true) ->
     snd (Interactive.analyze_regulation (ImbalanceFrame l) (ActivationFrame r))
     <> [AnalysisError]
     /\ snd (Fixed.analyze_regulation L (ImbalanceFrame l) (ActivationFrame r))
        <> [AnalysisError])
    /\ ((exists ir ar,
            In ir l /\ In ar r /\ imb_timestamp ir = act_timestamp ar
            /\ unusable (imb_baltic_imbalance ir) || unusable (act_up_regulation ar)
               || unusable (act_down_regulation ar) = true) ->
        Interactive.analyze_regulation (ImbalanceFrame l) (ActivationFrame r)
        = ([], [AnalysisError])
        /\ Fixed.analyze_regulation L (ImbalanceFrame l) (ActivationFrame r)
           = ([], [AnalysisError])).
Proof.
  intros L ri ra start_ end_ l r. split.
  - intros _ _ Hall.
    assert (HI : snd (Interactive.analyze_regulation (ImbalanceFrame l)
                        (ActivationFrame r)) <> [AnalysisError]).
    { intros H. apply analysis_failure_of_frames in H.
      destruct H as (ir & ar & Hir & Har & Hk & Hnum).
      specialize (Hall ir ar Hir Har Hk).
      apply andb_true_iff in Hall as [Hall Hd].
      apply andb_true_iff in Hall as [Hb Hu].
      rewrite (number_numeric _ Hb), (number_numeric _ Hu), (number_numeric _ Hd)
        in Hnum.
      discriminate. }
    split; [exact HI|]. apply (analysis_rows_related L). exact HI.
  - intros (ir & ar & Hir & Har & Hk & Hbad).
    assert (HI : snd (Interactive.analyze_regulation (ImbalanceFrame l)
                        (ActivationFrame r)) = [AnalysisError]).
    { apply analysis_failure_of_frames. exists ir, ar.
      repeat (split; [assumption|]).
      apply orb_true_iff in Hbad as [Hbad|Hbad];
        [apply orb_true_iff in Hbad as [Hbad|Hbad]|];
        apply unusable_not_numeric in Hbad; rewrite Hbad;
        rewrite ?andb_false_r; reflexivity. }
    assert (HF : snd (Fixed.analyze_regulation L (ImbalanceFrame l)
                        (ActivationFrame r)) = [AnalysisError])
      by (apply analysis_failures_related; exact HI).
    split.
    + pose proof (Interactive_rows_of_frames l r) as Hrows.
      destruct (mapM (Interactive.derive _) (merge imb_timestamp act_timestamp l r)).
      * destruct Hrows as [_ Hne]. contradiction.
      * exact Hrows.
    + revert HF. unfold Fixed.analyze_regulation.
      destruct (Fixed.analyze_regulation_try L (ImbalanceFrame l) (ActivationFrame r))
        as [[[rows s] c]|e]; cbn [snd]; [discriminate|reflexivity].
Qed.

Lemma analysis_fails_witness :
  fst (Fixed.process_data Sample.L (payload_of noted_imbalance_sample) "Imbalance")
  = ImbalanceFrame [mk_imbalance_row 1727049600 (JNum 150%Q);
                    mk_imbalance_row 1727053200 (JStr "n/a")]
  /\ snd (Fixed.analyze_regulation Sample.L
            (ImbalanceFrame [mk_imbalance_row 1727049600 (JNum 150%Q);
                             mk_imbalance_row 1727053200 (JStr "n/a")])
            (ActivationFrame [mk_activation_row 1727049600 (JNum 80%Q) (JNum 20%Q)]))
     <> [AnalysisError]
  /\ Fixed.analyze_regulation Sample.L
       (ImbalanceFrame [mk_imbalance_row 1727049600 (JStr "n/a");
                        mk_imbalance_row 1727053200 (JNum 0%Q)])
       (ActivationFrame [mk_activation_row 1727049600 (JNum 80%Q) (JNum 20%Q)])
     = ([], [AnalysisError]).
Proof.
  split; [reflexivity|]. split.
  - apply (analysis_fails_on_joined_cells_only Sample.L
             noted_imbalance_sample first_hour_activation_sample
             Fixed.start_date_cet Fixed.end_date_cet
             [mk_imbalance_row 1727049600 (JNum 150%Q);
              mk_imbalance_row 1727053200 (JStr "n/a")]
             [mk_activation_row 1727049600 (JNum 80%Q) (JNum 20%Q)]);
      [reflexivity|reflexivity|].
    intros ir ar [<- | [<- | []]] [<- | []] Hk; simpl in *;
      [reflexivity|discriminate].
  - apply (analysis_fails_on_joined_cells_only Sample.L [] [] 0 0
             [mk_imbalance_row 1727049600 (JStr "n/a");
              mk_imbalance_row 1727053200 (JNum 0%Q)]
             [mk_activation_row 1727049600 (JNum 80%Q) (JNum 20%Q)]).
    exists (mk_imbalance_row 1727049600 (JStr "n/a")),
      (mk_activation_row 1727049600 (JNum 80%Q) (JNum 20%Q)).
    simpl. auto.
Defined.

(** ** The printed figures *)

Lemma Interactive_report_of_rows (imbalance_df activation_df : table) (s : summary) :
  In (Report s) (snd (Interactive.analyze_regulation imbalance_df activation_df)) ->
  let rows := fst (Interactive.analyze_regulation imbalance_df activation_df) in
  let k := dtypes_of imbalance_df activation_df in
  s = mk_summary
        (Z.of_nat (List.length rows))
        (count_true (map appropriate_regulation rows))
        (option_map (fun x => x * 100)%Q
           (np_divide (count_true (map appropriate_regulation rows))
                      (Z.of_nat (List.length rows))))
        (mean (map imbalance_magnitude rows))
        (col_max (map baltic_imbalance rows))
        (col_min (map baltic_imbalance rows))
        (mean (map regulation_magnitude rows))
        (np_sum (imbalance_int64 k) (map imbalance_magnitude rows))
        (np_sum (up_int64 k && down_int64 k) (map regulation_magnitude rows)).
Proof.
  unfold Interactive.analyze_regulation.
  destruct (Interactive.analyze_regulation_try imbalance_df activation_df)
    as [[[rows s'] c]|e] eqn:E; cbn [fst snd];
    [|intros [H|[]]; discriminate].
  intros [H|[H|[H|[]]]]; try discriminate. injection H as ->.
  unfold Interactive.analyze_regulation_try in E.
  apply bind_Ok in E as ([swapped joined] & _ & E). cbv zeta in E.
  apply bind_Ok in E as (rows' & _ & E).
  injection E as <- <- _. reflexivity.
Qed.

Lemma reports_related (L : libs) (imbalance_df activation_df : table) (s : summary) :
  In (Report s) (snd (Fixed.analyze_regulation L imbalance_df activation_df))
  <-> In (Report s) (snd (Interactive.analyze_regulation imbalance_df activation_df)).
Proof.
  unfold Fixed.analyze_regulation, Interactive.analyze_regulation.
  rewrite (analyze_regulation_try_related L imbalance_df activation_df).
  destruct (Fixed.analyze_regulation_try L imbalance_df activation_df)
    as [[[rows s'] c]|e]; cbn [fst snd].
  - split; (intros [H|[H|[H|[]]]]; try discriminate; left; exact H).
  - split; (intros [H|[]]; discriminate).
Qed.

Lemma percentage_bounds (effective total : Z) (e : Q) :
  0 <= effective <= total ->
  option_map (fun x => x * 100)%Q (np_divide effective total) = Some e ->
  (0 <= e <= 100)%Q.
Proof.
  intros [H0 Hle]. unfold np_divide. destruct (total =? 0) eqn:Et; [discriminate|].
  apply Z.eqb_neq in Et. cbn [option_map]. intros H. injection H as <-.
  assert (Htot : (0 < inject_Z total)%Q) by (unfold Qlt; simpl; lia).
  assert (Heff : (0 <= inject_Z effective)%Q) by (unfold Qle; simpl; lia).
  split.
  - apply Qmult_le_0_compat; [|discriminate].
    unfold Qdiv. apply Qmult_le_0_compat; [exact Heff|].
    apply Qinv_le_0_compat. apply Qlt_le_weak. exact Htot.
  - apply (Qle_trans _ (1 * 100)%Q); [|discriminate].
    apply Qmult_le_compat_r; [|discriminate].
    apply Qle_shift_div_r; [exact Htot|].
    rewrite Qmult_1_l. unfold Qle. simpl. lia.
Qed.

Lemma count_true_bounds (l : list bool) :
  0 <= count_true l <= Z.of_nat (List.length l).
Proof.
  unfold count_true. pose proof (filter_length_le (fun b : bool => b) l). lia.
Qed.

Lemma count_true_none (l : list bool) :
  count_true l = 0 <-> Forall (fun b => b = false) l.
Proof.
  unfold count_true. induction l as [|b l IH]; cbn [filter List.length].
  - split; [constructor|reflexivity].
  - destruct b; cbn [List.length].
    + split; [lia|intros H; inversion H; discriminate].
    + rewrite IH. split; [constructor; auto|intros H; inversion H; assumption].
Qed.

Lemma count_true_all (l : list bool) :
  count_true l = Z.of_nat (List.length l) <-> Forall (fun b => b = true) l.
Proof.
  unfold count_true. induction l as [|b l IH]; cbn [filter List.length].
  - split; [constructor|reflexivity].
  - pose proof (filter_length_le (fun b : bool => b) l) as Hle.
    destruct b; cbn [List.length].
    + split.
      * intros H. constructor; [reflexivity|]. apply IH. lia.
      * intros H. inversion H as [|? ? _ Hl]. apply IH in Hl. lia.
    + split; [lia|intros H; inversion H; discriminate].
Qed.

(** X11. The counts of a report stay within their bounds, in both scripts:
    the effective periods are between zero and the periods analysed, which
    are the rows of the analysis table; they are zero exactly when no row has
    [appropriate_regulation], and all of the periods exactly when every row
    has it; the effectiveness, when it is a number, is between 0 and 100. *)
Theorem report_figures_are_bounded :
  forall (L : libs) (imbalance_df activation_df : table) (s : summary),
    In (Report s) (snd (Fixed.analyze_regulation L imbalance_df activation_df))
    \/ In (Report s) (snd (Interactive.analyze_regulation imbalance_df activation_df)) ->
    let rows := fst (Interactive.analyze_regulation imbalance_df activation_df) in
    0 <= effective_periods s <= total_periods s
    /\ total_periods s = Z.of_nat (List.length rows)
    /\ (effective_periods s = 0
        <-> Forall (fun row => appropriate_regulation row = false) rows)
    /\ (effective_periods s = total_periods s
        <-> Forall (fun row => appropriate_regulation row = true) rows)
    /\ (forall e, effectiveness s = Some e -> (0 <= e <= 100)%Q).
Proof.
  intros L i a s H rows.
  assert (HI : In (Report s) (snd (Interactive.analyze_regulation i a)))
    by (destruct H as [H|H]; [apply (reports_related L); exact H|exact H]).
  pose proof (Interactive_report_of_rows i a s HI) as Hs. cbv zeta in Hs.
  fold rows in Hs.
  rewrite Hs. cbn [effective_periods total_periods effectiveness].
  pose proof (count_true_bounds (map appropriate_regulation rows)) as Hc.
  rewrite length_map in Hc.
  split; [exact Hc|]. split; [reflexivity|]. split; [|split].
  - rewrite count_true_none.
    exact (Forall_map appropriate_regulation (fun b => b = false) rows).
  - rewrite <- (length_map appropriate_regulation rows), count_true_all.
    exact (Forall_map appropriate_regulation (fun b => b = true) rows).
  - intros e. apply percentage_bounds. exact Hc.
Qed.

Lemma report_figures_witness :
  0 <= effective_periods Sample.report <= total_periods Sample.report
  /\ (0 <= 100 # 2 <= 100)%Q
  /\ total_periods Sample.report = 2.
Proof.
  destruct (report_figures_are_bounded Sample.L Sample.imbalance_df
              Sample.activation_df Sample.report)
    as (Hc & Ht & _ & _ & He).
  - left. vm_compute. left. reflexivity.
  - split; [exact Hc|]. split; [apply He; reflexivity|exact Ht].
Defined.

Lemma Qmax_cases (x y : Q) :
  (Qmax x y = y /\ (x <= y)%Q) \/ (Qmax x y = x /\ (y <= x)%Q).
Proof.
  unfold Qmax. destruct (Qle_bool x y) eqn:E.
  - left. split; [reflexivity|apply Qle_bool_iff; exact E].
  - right. split; [reflexivity|]. apply Qlt_le_weak. apply Qnot_le_lt.
    intros H. apply Qle_bool_iff in H. congruence.
Qed.

Lemma Qmin_cases (x y : Q) :
  (Qmin x y = x /\ (x <= y)%Q) \/ (Qmin x y = y /\ (y <= x)%Q).
Proof.
  unfold Qmin. destruct (Qle_bool x y) eqn:E.
  - left. split; [reflexivity|apply Qle_bool_iff; exact E].
  - right. split; [reflexivity|]. apply Qlt_le_weak. apply Qnot_le_lt.
    intros H. apply Qle_bool_iff in H. congruence.
Qed.

Lemma fold_left_Qmax (l : list Q) :
  forall a,
    (a <= fold_left Qmax l a)%Q
    /\ Forall (fun x => x <= fold_left Qmax l a)%Q l
    /\ (fold_left Qmax l a = a \/ In (fold_left Qmax l a) l).
Proof.
  induction l as [|x l IH]; intros a; cbn [fold_left].
  - split; [apply Qle_refl|]. split; [constructor|left; reflexivity].
  - destruct (IH (Qmax a x)) as (Hle & Hall & Hin).
    destruct (Qmax_cases a x) as [[Hm Hax]|[Hm Hxa]]; rewrite Hm in *.
    + split; [eapply Qle_trans; eauto|]. split; [constructor; assumption|].
      right. destruct Hin as [-> | Hin]; [left; reflexivity|right; exact Hin].
    + split; [exact Hle|]. split; [constructor; [eapply Qle_trans; eauto|assumption]|].
      destruct Hin as [Hin | Hin]; [left; exact Hin|right; right; exact Hin].
Qed.

Lemma fold_left_Qmin (l : list Q) :
  forall a,
    (fold_left Qmin l a <= a)%Q
    /\ Forall (fun x => fold_left Qmin l a <= x)%Q l
    /\ (fold_left Qmin l a = a \/ In (fold_left Qmin l a) l).
Proof.
  induction l as [|x l IH]; intros a; cbn [fold_left].
  - split; [apply Qle_refl|]. split; [constructor|left; reflexivity].
  - destruct (IH (Qmin a x)) as (Hle & Hall & Hin).
    destruct (Qmin_cases a x) as [[Hm Hax]|[Hm Hxa]]; rewrite Hm in *.
    + split; [exact Hle|]. split; [constructor; [eapply Qle_trans; eauto|assumption]|].
      destruct Hin as [Hin | Hin]; [left; exact Hin|right; right; exact Hin].
    + split; [eapply Qle_trans; eauto|]. split; [constructor; assumption|].
      right. destruct Hin as [-> | Hin]; [left; reflexivity|right; exact Hin].
Qed.

Lemma col_max_spec (l : list Q) (m : Q) :
  col_max l = Some m -> In m l /\ Forall (fun x => x <= m)%Q l.
Proof.
  destruct l as [|a l]; [discriminate|]. cbn [col_max]. intros H. injection H as <-.
  destruct (fold_left_Qmax l a) as (Hle & Hall & Hin). split.
  - destruct Hin as [-> | Hin]; [left; reflexivity|right; exact Hin].
  - constructor; assumption.
Qed.

Lemma col_min_spec (l : list Q) (m : Q) :
  col_min l = Some m -> In m l /\ Forall (fun x => m <= x)%Q l.
Proof.
  destruct l as [|a l]; [discriminate|]. cbn [col_min]. intros H. injection H as <-.
  destruct (fold_left_Qmin l a) as (Hle & Hall & Hin). split.
  - destruct Hin as [-> | Hin]; [left; reflexivity|right; exact Hin].
  - constructor; assumption.
Qed.

(** X12. On an imbalance table whose values are all numbers, the maximum and
    the minimum imbalance of a report are imbalances of rows of the analysis
    table, no row lies above the one or below the other, and the minimum does
    not exceed the maximum.  They are numbers exactly when the table has a
    row.  So in both scripts. *)
Theorem report_extremes_are_attained :
  forall (L : libs) (l : list imbalance_row) (r : list activation_row) (s : summary),
    Forall (fun ir => number (imb_baltic_imbalance ir) = true) l ->
    In (Report s)
       (snd (Fixed.analyze_regulation L (ImbalanceFrame l) (ActivationFrame r)))
    \/ In (Report s)
          (snd (Interactive.analyze_regulation (ImbalanceFrame l) (ActivationFrame r))) ->
    let rows :=
      fst (Interactive.analyze_regulation (ImbalanceFrame l) (ActivationFrame r)) in
    (forall hi,
        max_imbalance s = Some hi ->
        (exists row, In row rows /\ baltic_imbalance row = hi)
        /\ Forall (fun row => baltic_imbalance row <= hi)%Q rows)
    /\ (forall lo,
           min_imbalance s = Some lo ->
           (exists row, In row rows /\ baltic_imbalance row = lo)
           /\ Forall (fun row => lo <= baltic_imbalance row)%Q rows)
    /\ (forall lo hi,
           min_imbalance s = Some lo -> max_imbalance s = Some hi -> (lo <= hi)%Q)
    /\ (rows = [] <-> max_imbalance s = None)
    /\ (rows = [] <-> min_imbalance s = None).
Proof.
  intros L l r s _ H rows.
  assert (HI : In (Report s) (snd (Interactive.analyze_regulation
                                     (ImbalanceFrame l) (ActivationFrame r))))
    by (destruct H as [H|H]; [apply (reports_related L); exact H|exact H]).
  pose proof (Interactive_report_of_rows _ _ s HI) as Hs. cbv zeta in Hs.
  fold rows in Hs. rewrite Hs. cbn [max_imbalance min_imbalance].
  assert (Hmax : forall hi,
             col_max (map baltic_imbalance rows) = Some hi ->
             (exists row, In row rows /\ baltic_imbalance row = hi)
             /\ Forall (fun row => baltic_imbalance row <= hi)%Q rows).
  { intros hi Hhi. apply col_max_spec in Hhi as [Hin Hall]. split.
    - apply in_map_iff in Hin as (row & Heq & Hin). eauto.
    - exact (proj1 (Forall_map baltic_imbalance (fun x => x <= hi)%Q rows) Hall). }
  assert (Hmin : forall lo,
             col_min (map baltic_imbalance rows) = Some lo ->
             (exists row, In row rows /\ baltic_imbalance row = lo)
             /\ Forall (fun row => lo <= baltic_imbalance row)%Q rows).
  { intros lo Hlo. apply col_min_spec in Hlo as [Hin Hall]. split.
    - apply in_map_iff in Hin as (row & Heq & Hin). eauto.
    - exact (proj1 (Forall_map baltic_imbalance (fun x => lo <= x)%Q rows) Hall). }
  split; [exact Hmax|]. split; [exact Hmin|]. split.
  - intros lo hi Hlo Hhi.
    destruct (Hmin lo Hlo) as [(row & Hin & <-) _].
    destruct (Hmax hi Hhi) as [_ Hall].
    rewrite Forall_forall in Hall. apply Hall. exact Hin.
  - split; (split; [intros ->; reflexivity|]);
      (destruct rows; [reflexivity|discriminate]).
Qed.

Lemma report_extremes_witness :
  (0 <= 150)%Q
  /\ exists row,
      In row (fst (Interactive.analyze_regulation Sample.imbalance_df
                     Sample.activation_df))
      /\ baltic_imbalance row = 150%Q.
Proof.
  destruct (report_extremes_are_attained Sample.L
              [mk_imbalance_row 1727049600 (JNum 150%Q);
               mk_imbalance_row 1727053200 (JNum 0%Q)]
              [mk_activation_row 1727049600 (JNum 80%Q) (JNum 20%Q);
               mk_activation_row 1727053200 (JNum 5%Q) (JNum 30%Q)]
              Sample.report)
    as (Hmax & _ & Hle & _).
  - repeat constructor.
  - left. vm_compute. left. reflexivity.
  - split; [apply (Hle 0%Q 150%Q); reflexivity|].
    apply (Hmax 150%Q). reflexivity.
Defined.

(** ** The CSV *)

Lemma Interactive_table_kind (L : libs) (data : json) (data_type : string)
  (start_ end_ : instant) :
  fst (Interactive.process_data L data data_type start_ end_) = NoFrame
  \/ (String.eqb data_type "Imbalance" = true
      /\ exists rows, fst (Interactive.process_data L data data_type start_ end_)
                      = ImbalanceFrame rows)
  \/ (String.eqb data_type "Imbalance" = false
      /\ exists rows, fst (Interactive.process_data L data data_type start_ end_)
                      = ActivationFrame rows).
Proof.
  unfold Interactive.process_data.
  destruct (Interactive.process_data_try L data data_type start_ end_) as [out|e] eqn:E;
    [|left; reflexivity].
  cbn [fst]. unfold Interactive.process_data_try in E.
  destruct data as [| | | | | |fields]; try discriminate.
  apply bind_Ok in E as (df & _ & E).
  apply bind_Ok in E as (from_ & _ & E).
  apply bind_Ok in E as (stamps & _ & E).
  apply bind_Ok in E as (tbl & Hv & E).
  destruct (can_drop _ _) in E; [|discriminate]. injection E as <-.
  destruct (String.eqb data_type "Imbalance").
  - apply bind_Ok in Hv as (v0 & _ & Hv). injection Hv as <-.
    right. left. split; [reflexivity|eauto].
  - apply bind_Ok in Hv as (v0 & _ & Hv). apply bind_Ok in Hv as (v1 & _ & Hv).
    injection Hv as <-. right. right. split; [reflexivity|eauto].
Qed.

(** X13. On the tables normalised from two payloads of the documented shape
    (the normaliser of the fixed script is that of the interactive one on its
    own window), a CSV that is written is [regulation_analysis.csv] and is
    rectangular: nine columns in the fixed script, seven in the interactive
    one, with [timestamp] leading, each line with as many values as the header
    has columns, one line per row of the returned table and in its order,
    led by the row's timestamp. *)
Theorem csv_is_rectangular :
  forall (L : libs) (imbalance_readings activation_readings : list reading)
         (start_ end_ : instant) (file : string) (c : csv),
    let imbalance_df :=
      fst (Interactive.process_data L (payload_of imbalance_readings) "Imbalance"
             start_ end_) in
    let activation_df :=
      fst (Interactive.process_data L (payload_of activation_readings) "Activation"
             start_ end_) in
    (In (SaveCsv file c) (snd (Fixed.analyze_regulation L imbalance_df activation_df)) ->
     file = "regulation_analysis.csv"
     /\ header c = base_header ++ ["hour"; "day"]
     /\ Forall (fun line => List.length line = 9%nat) (body_rows c)
     /\ map (hd (VInt 0)) (body_rows c)
        = map (fun row => VTime (timestamp (Fixed.core row)))
              (fst (Fixed.analyze_regulation L imbalance_df activation_df)))
    /\ (In (SaveCsv file c)
           (snd (Interactive.analyze_regulation imbalance_df activation_df)) ->
        file = "regulation_analysis.csv"
        /\ header c = base_header
        /\ Forall (fun line => List.length line = 7%nat) (body_rows c)
        /\ map (hd (VInt 0)) (body_rows c)
           = map (fun row => VTime (timestamp row))
                 (fst (Interactive.analyze_regulation imbalance_df activation_df))).
Proof.
  intros L ri ra start_ end_ file c i a.
  assert (Hkind : forall swapped joined,
             merged i a = Ok (swapped, joined) -> swapped = false).
  { intros swapped joined. subst i a.
    destruct (Interactive_table_kind L (payload_of ri) "Imbalance" start_ end_)
      as [->|[[_ [l ->]]|[Hk _]]]; [discriminate| |discriminate].
    destruct (Interactive_table_kind L (payload_of ra) "Activation" start_ end_)
      as [->|[[Hk _]|[_ [r ->]]]]; [discriminate|discriminate|].
    cbn [merged]. intros H. injection H as <- _. reflexivity. }
  split.
  - unfold Fixed.analyze_regulation.
    destruct (Fixed.analyze_regulation_try L i a) as [[[rows s] c']|e] eqn:E;
      cbn [fst snd]; [|intros [H|[]]; discriminate].
    intros [H|[H|[H|[]]]]; try discriminate. injection H as <- <-.
    unfold Fixed.analyze_regulation_try in E.
    apply bind_Ok in E as ([swapped joined] & Hm & E). cbv zeta in E.
    apply bind_Ok in E as (rows' & _ & E). injection E as <- _ <-.
    rewrite (Hkind _ _ Hm).
    unfold Fixed.to_csv. cbn [header body_rows].
    split; [reflexivity|]. split; [reflexivity|]. split.
    + apply Forall_map. apply Forall_forall. intros row _. reflexivity.
    + rewrite map_map. apply map_ext. intros row. reflexivity.
  - unfold Interactive.analyze_regulation.
    destruct (Interactive.analyze_regulation_try i a) as [[[rows s] c']|e] eqn:E;
      cbn [fst snd]; [|intros [H|[]]; discriminate].
    intros [H|[H|[H|[]]]]; try discriminate. injection H as <- <-.
    unfold Interactive.analyze_regulation_try in E.
    apply bind_Ok in E as ([swapped joined] & Hm & E). cbv zeta in E.
    apply bind_Ok in E as (rows' & _ & E). injection E as <- _ <-.
    rewrite (Hkind _ _ Hm).
    unfold Interactive.to_csv. cbn [header body_rows].
    split; [reflexivity|]. split; [reflexivity|]. split.
    + apply Forall_map. apply Forall_forall. intros row _. reflexivity.
    + rewrite map_map. apply map_ext. intros row. reflexivity.
Qed.

Lemma csv_is_rectangular_witness :
  exists c,
    In (SaveCsv "regulation_analysis.csv" c)
       (snd (Fixed.analyze_regulation Sample.L
               (fst (Fixed.process_data Sample.L (payload_of noted_imbalance_sample)
                       "Imbalance"))
               (fst (Fixed.process_data Sample.L
                       (payload_of first_hour_activation_sample) "Activation"))))
    /\ header c = base_header ++ ["hour"; "day"]
    /\ List.length (body_rows c) = 1%nat
    /\ Forall (fun line => List.length line = 9%nat) (body_rows c).
Proof.
  eexists. split; [vm_compute; right; left; reflexivity|].
  destruct (csv_is_rectangular Sample.L noted_imbalance_sample
              first_hour_activation_sample Fixed.start_date_cet Fixed.end_date_cet
              "regulation_analysis.csv"
              (Fixed.to_csv false
                 (fst (Fixed.analyze_regulation Sample.L
                         (fst (Fixed.process_data Sample.L
                                 (payload_of noted_imbalance_sample) "Imbalance"))
                         (fst (Fixed.process_data Sample.L
                                 (payload_of first_hour_activation_sample)
                                 "Activation"))))))
    as [HF _].
  destruct HF as (_ & Hh & Hl & _); [vm_compute; right; left; reflexivity|].
  split; [exact Hh|]. split; [reflexivity|exact Hl].
Defined.

(** ** What a run enters *)

Lemma entered_renderer_app (a b : list event) :
  entered_renderer (a ++ b) = entered_renderer a || entered_renderer b.
Proof. apply existsb_app. Qed.

Lemma entered_analyser_app (a b : list event) :
  entered_analyser (a ++ b) = entered_analyser a || entered_analyser b.
Proof. apply existsb_app. Qed.

Lemma fetch_data_enters_nothing (url : string) (p : params) (w : world) :
  entered_renderer (snd (fetch_data url p w)) = false
  /\ entered_analyser (snd (fetch_data url p w)) = false.
Proof.
  destruct (fetch_data_events url p w) as [-> | ->]; split; reflexivity.
Qed.

Lemma Fixed_process_data_enters_nothing (L : libs) data data_type :
  entered_renderer (snd (Fixed.process_data L data data_type)) = false
  /\ entered_analyser (snd (Fixed.process_data L data data_type)) = false.
Proof.
  unfold Fixed.process_data.
  destruct (Fixed.process_data_try L data data_type); split; reflexivity.
Qed.

Lemma Interactive_process_data_enters_nothing (L : libs) data data_type start_ end_ :
  entered_renderer (snd (Interactive.process_data L data data_type start_ end_)) = false
  /\ entered_analyser (snd (Interactive.process_data L data data_type start_ end_))
     = false.
Proof.
  unfold Interactive.process_data.
  destruct (Interactive.process_data_try L data data_type start_ end_);
    split; reflexivity.
Qed.

Lemma Fixed_stages_enter (L : libs) (imbalance_df activation_df : table) :
  entered_renderer (Fixed.create_visualization imbalance_df activation_df
                    ++ snd (Fixed.analyze_regulation L imbalance_df activation_df))
  = true
  /\ entered_analyser (Fixed.create_visualization imbalance_df activation_df
                       ++ snd (Fixed.analyze_regulation L imbalance_df activation_df))
     = true
  /\ no_rendering_or_analysis
       (Fixed.create_visualization imbalance_df activation_df
        ++ snd (Fixed.analyze_regulation L imbalance_df activation_df)) = false.
Proof.
  unfold Fixed.create_visualization, Fixed.analyze_regulation.
  destruct (Fixed.create_visualization_try imbalance_df activation_df) as [p|ev];
    destruct (Fixed.analyze_regulation_try L imbalance_df activation_df)
      as [[[rows s] c]|ea]; repeat split.
Qed.

Lemma Interactive_stages_enter (imbalance_df activation_df : table)
  (start_ end_ : instant) :
  entered_renderer
    (Interactive.create_visualization imbalance_df activation_df start_ end_
     ++ snd (Interactive.analyze_regulation imbalance_df activation_df)) = true
  /\ entered_analyser
       (Interactive.create_visualization imbalance_df activation_df start_ end_
        ++ snd (Interactive.analyze_regulation imbalance_df activation_df)) = true
  /\ no_rendering_or_analysis
       (Interactive.create_visualization imbalance_df activation_df start_ end_
        ++ snd (Interactive.analyze_regulation imbalance_df activation_df)) = false.
Proof.
  unfold Interactive.create_visualization, Interactive.analyze_regulation.
  destruct (Interactive.create_visualization_try imbalance_df activation_df
              start_ end_) as [p|ev];
    destruct (Interactive.analyze_regulation_try imbalance_df activation_df)
      as [[[rows s] c]|ea]; repeat split.
Qed.

(** X14. A run of the fixed script enters the renderer exactly when it enters
    the analyser, and exactly when both fetched values are truthy and both
    normalised tables have a row: a failed rendering does not keep the analysis
    from running, and nothing else lets either of them run. *)
Theorem Fixed_stages_run_together :
  forall (L : libs) (w : world),
    let fi := fetch_data IMBALANCE_URL Fixed.imbalance_params w in
    let fa := fetch_data ACTIVATION_URL Fixed.activation_params (snd (fst fi)) in
    let gates :=
      truthy (fst (fst fi)) && truthy (fst (fst fa))
      && (negb (empty (fst (Fixed.process_data L (fst (fst fi)) "Imbalance")))
          && negb (empty (fst (Fixed.process_data L (fst (fst fa)) "Activation")))) in
    entered_renderer (Fixed.main L w) = gates
    /\ entered_analyser (Fixed.main L w) = gates
    /\ no_rendering_or_analysis (Fixed.main L w) = negb gates.
Proof.
  intros L w. cbv zeta. rewrite Fixed_main_shape. cbv zeta.
  destruct (fetch_data_enters_nothing IMBALANCE_URL Fixed.imbalance_params w)
    as [Hri Hai].
  pose proof (proj2 (fetch_data_quiet IMBALANCE_URL Fixed.imbalance_params w)) as Hqi.
  set (fi := fetch_data IMBALANCE_URL Fixed.imbalance_params w) in *.
  destruct (fetch_data_enters_nothing ACTIVATION_URL Fixed.activation_params
              (snd (fst fi))) as [Hra Haa].
  pose proof (proj2 (fetch_data_quiet ACTIVATION_URL Fixed.activation_params
                       (snd (fst fi)))) as Hqa.
  set (fa := fetch_data ACTIVATION_URL Fixed.activation_params (snd (fst fi))) in *.
  destruct (Fixed_process_data_enters_nothing L (fst (fst fi)) "Imbalance")
    as [Hrpi Hapi].
  destruct (Fixed_process_data_enters_nothing L (fst (fst fa)) "Activation")
    as [Hrpa Hapa].
  pose proof (Fixed_process_data_quiet L (fst (fst fi)) "Imbalance") as Hqpi.
  pose proof (Fixed_process_data_quiet L (fst (fst fa)) "Activation") as Hqpa.
  rewrite !entered_renderer_app, !entered_analyser_app, !no_rendering_or_analysis_app.
  rewrite Hri, Hai, Hra, Haa, Hqi, Hqa.
  cbn [entered_renderer entered_analyser no_rendering_or_analysis
         existsb forallb orb andb].
  destruct (truthy (fst (fst fi)) && truthy (fst (fst fa))); cbn [andb];
    [|repeat split].
  rewrite !entered_renderer_app, !entered_analyser_app, !no_rendering_or_analysis_app.
  rewrite Hrpi, Hapi, Hrpa, Hapa, Hqpi, Hqpa. cbn [orb andb].
  destruct (negb (empty _) && negb (empty _)); [|repeat split].
  apply Fixed_stages_enter.
Qed.

(** X15. The same for a run of the interactive script on its window. *)
Theorem Interactive_stages_run_together :
  forall (L : libs) (start_ end_ : instant) (w : world),
    let fi := fetch_data IMBALANCE_URL
                (mk_params "imbalance_volumes" (start_ - 3 * 3600) (end_ + 3 * 3600)
                           "CET" "json" "0") w in
    let fa := fetch_data ACTIVATION_URL
                (mk_params "normal_activations_total" (start_ - 3 * 3600)
                           (end_ + 3 * 3600) "CET" "json" "0") (snd (fst fi)) in
    let gates :=
      truthy (fst (fst fi)) && truthy (fst (fst fa))
      && (negb (empty (fst (Interactive.process_data L (fst (fst fi)) "Imbalance"
                              start_ end_)))
          && negb (empty (fst (Interactive.process_data L (fst (fst fa)) "Activation"
                                 start_ end_)))) in
    entered_renderer (Interactive.run L start_ end_ w) = gates
    /\ entered_analyser (Interactive.run L start_ end_ w) = gates
    /\ no_rendering_or_analysis (Interactive.run L start_ end_ w) = negb gates.
Proof.
  intros L start_ end_ w. cbv zeta. rewrite Interactive_run_shape. cbv zeta.
  set (ip := mk_params "imbalance_volumes" (start_ - 3 * 3600) (end_ + 3 * 3600)
                       "CET" "json" "0").
  set (ap := mk_params "normal_activations_total" (start_ - 3 * 3600)
                       (end_ + 3 * 3600) "CET" "json" "0").
  destruct (fetch_data_enters_nothing IMBALANCE_URL ip w) as [Hri Hai].
  pose proof (proj2 (fetch_data_quiet IMBALANCE_URL ip w)) as Hqi.
  set (fi := fetch_data IMBALANCE_URL ip w) in *.
  destruct (fetch_data_enters_nothing ACTIVATION_URL ap (snd (fst fi))) as [Hra Haa].
  pose proof (proj2 (fetch_data_quiet ACTIVATION_URL ap (snd (fst fi)))) as Hqa.
  set (fa := fetch_data ACTIVATION_URL ap (snd (fst fi))) in *.
  destruct (Interactive_process_data_enters_nothing L (fst (fst fi)) "Imbalance"
              start_ end_) as [Hrpi Hapi].
  destruct (Interactive_process_data_enters_nothing L (fst (fst fa)) "Activation"
              start_ end_) as [Hrpa Hapa].
  pose proof (Interactive_process_data_quiet L (fst (fst fi)) "Imbalance"
                start_ end_) as Hqpi.
  pose proof (Interactive_process_data_quiet L (fst (fst fa)) "Activation"
                start_ end_) as Hqpa.
  rewrite !entered_renderer_app, !entered_analyser_app, !no_rendering_or_analysis_app.
  rewrite Hri, Hai, Hra, Haa, Hqi, Hqa.
  cbn [entered_renderer entered_analyser no_rendering_or_analysis
         existsb forallb orb andb].
  destruct (truthy (fst (fst fi)) && truthy (fst (fst fa))); cbn [andb];
    [|repeat split].
  rewrite !entered_renderer_app, !entered_analyser_app, !no_rendering_or_analysis_app.
  rewrite Hrpi, Hapi, Hrpa, Hapa, Hqpi, Hqpa. cbn [orb andb].
  destruct (negb (empty _) && negb (empty _)); [|repeat split].
  apply Interactive_stages_enter.
Qed.

(** X16. Outside the renderer and the analyser the two scripts differ in
    their first line only: on the window of the fixed script and the same
    answers of the network, a run that enters neither is, event for event, the
    same run in both scripts once past the heading of the period, which the
    interactive script prints after an empty line. *)
Theorem runs_that_stop_early_coincide :
  forall (L : libs) (w : world),
    no_rendering_or_analysis (Fixed.main L w) = true ->
    exists rest,
      Fixed.main L w = Say "Analysis period (CET):" :: rest
      /\ Interactive.run L Fixed.start_date_cet Fixed.end_date_cet w
         = Say (after_blank_line "Analysis period (CET):") :: rest.
Proof.
  intros L w H. rewrite Fixed_main_shape in *. rewrite Interactive_run_shape.
  cbv zeta in *.
  change (mk_params "imbalance_volumes" (Fixed.start_date_cet - 3 * 3600)
                    (Fixed.end_date_cet + 3 * 3600) "CET" "json" "0")
    with Fixed.imbalance_params.
  change (mk_params "normal_activations_total" (Fixed.start_date_cet - 3 * 3600)
                    (Fixed.end_date_cet + 3 * 3600) "CET" "json" "0")
    with Fixed.activation_params.
  set (fi := fetch_data IMBALANCE_URL Fixed.imbalance_params w) in *.
  set (fa := fetch_data ACTIVATION_URL Fixed.activation_params (snd (fst fi))) in *.
  change (Interactive.process_data L (fst (fst fi)) "Imbalance"
            Fixed.start_date_cet Fixed.end_date_cet)
    with (Fixed.process_data L (fst (fst fi)) "Imbalance").
  change (Interactive.process_data L (fst (fst fa)) "Activation"
            Fixed.start_date_cet Fixed.end_date_cet)
    with (Fixed.process_data L (fst (fst fa)) "Activation").
  destruct (truthy (fst (fst fi)) && truthy (fst (fst fa)));
    [|eexists; split; reflexivity].
  destruct (negb (empty (fst (Fixed.process_data L (fst (fst fi)) "Imbalance")))
            && negb (empty (fst (Fixed.process_data L (fst (fst fa)) "Activation"))));
    [|eexists; split; reflexivity].
  exfalso.
  pose proof (proj2 (proj2 (Fixed_stages_enter L
                              (fst (Fixed.process_data L (fst (fst fi)) "Imbalance"))
                              (fst (Fixed.process_data L (fst (fst fa)) "Activation")))))
    as Hstages.
  rewrite no_rendering_or_analysis_app in Hstages.
  rewrite !no_rendering_or_analysis_app, Hstages, !andb_false_r in H. discriminate.
Qed.

Lemma runs_that_stop_early_witness :
  exists rest,
    Fixed.main Sample.L [served Sample.fromless_payload; Response 503 None]
    = Say "Analysis period (CET):" :: rest
    /\ Interactive.run Sample.L Fixed.start_date_cet Fixed.end_date_cet
         [served Sample.fromless_payload; Response 503 None]
       = Say (after_blank_line "Analysis period (CET):") :: rest.
Proof.
  apply (runs_that_stop_early_coincide Sample.L
           [served Sample.fromless_payload; Response 503 None]).
  reflexivity.
Defined.

(** ** A whole run of the interactive script *)

Lemma periods_of_app (a b : list event) :
  periods_of (a ++ b) = periods_of a ++ periods_of b.
Proof. apply flat_map_app. Qed.

Lemma prompt_events_plain (L : libs) (prompt : string) (is_start : bool)
  (global_start : option instant) (inputs : list string) :
  requests_of (snd (Interactive.get_valid_datetime L prompt is_start global_start inputs))
  = []
  /\ periods_of (snd (Interactive.get_valid_datetime L prompt is_start global_start
                        inputs)) = [].
Proof.
  induction inputs as [|line inputs IH]; [split; reflexivity|].
  cbn [Interactive.get_valid_datetime].
  destruct (Interactive.get_valid_datetime L prompt is_start global_start inputs)
    as [r evs]. cbn [snd] in IH.
  destruct (strptime_cet L line) as [d|]; [|exact IH].
  destruct (if is_start then None else global_start) as [s|]; [|split; reflexivity].
  destruct (d <=? s); [exact IH|].
  destruct (Interactive.days d s >? 30); [exact IH|split; reflexivity].
Qed.

Lemma fetch_data_periods (url : string) (p : params) (w : world) :
  periods_of (snd (fetch_data url p w)) = [].
Proof.
  destruct (fetch_data_events url p w) as [-> | ->]; reflexivity.
Qed.

Lemma Interactive_after_fetch_no_periods (L : libs) (d_i d_a : json)
  (start_ end_ : instant) :
  periods_of
    (snd (Interactive.process_data L d_i "Imbalance" start_ end_)
     ++ snd (Interactive.process_data L d_a "Activation" start_ end_)
     ++ (if negb (empty (fst (Interactive.process_data L d_i "Imbalance" start_ end_)))
            && negb (empty (fst (Interactive.process_data L d_a "Activation"
                                   start_ end_)))
         then Interactive.create_visualization
                (fst (Interactive.process_data L d_i "Imbalance" start_ end_))
                (fst (Interactive.process_data L d_a "Activation" start_ end_))
                start_ end_
              ++ snd (Interactive.analyze_regulation
                        (fst (Interactive.process_data L d_i "Imbalance" start_ end_))
                        (fst (Interactive.process_data L d_a "Activation" start_ end_)))
         else [Say "No data available for processing"])) = [].
Proof.
  unfold Interactive.process_data.
  destruct (Interactive.process_data_try L d_i "Imbalance" start_ end_) as [ti|e1];
    destruct (Interactive.process_data_try L d_a "Activation" start_ end_) as [ta|e2];
    cbn [fst snd]; rewrite !periods_of_app;
    try (destruct (negb (empty _) && negb (empty _)));
    unfold Interactive.create_visualization, Interactive.analyze_regulation;
    try (destruct (Interactive.create_visualization_try _ _ _ _));
    try (destruct (Interactive.analyze_regulation_try _ _) as [[[rows s] c]|e3]);
    reflexivity.
Qed.

Lemma Interactive_run_periods (L : libs) (start_ end_ : instant) (w : world) :
  periods_of (Interactive.run L start_ end_ w) = [(start_, end_)].
Proof.
  rewrite Interactive_run_shape. cbv zeta.
  rewrite !periods_of_app, !fetch_data_periods.
  match goal with
  | |- context [if ?c then _ else _] => destruct c
  end.
  - rewrite Interactive_after_fetch_no_periods. reflexivity.
  - reflexivity.
Qed.

(** X17. One call of [main] of the interactive script goes one of two ways.
    Either no start and end come to be accepted: then the run announces no
    window and sends no request.  Or it announces exactly one window, whose end
    lies after its start and less than 31 days after it, and sends exactly the
    two requests for that window widened by three hours on either side. *)
Theorem interactive_main_window :
  forall (L : libs) (inputs : list string) (w : world),
    (periods_of (Interactive.main L inputs w) = []
     /\ requests_of (Interactive.main L inputs w) = [])
    \/ (exists start_ end_,
           periods_of (Interactive.main L inputs w) = [(start_, end_)]
           /\ start_ < end_
           /\ end_ - start_ < 31 * 86400
           /\ requests_of (Interactive.main L inputs w)
              = [HttpGet IMBALANCE_URL
                   (mk_params "imbalance_volumes" (start_ - 10800) (end_ + 10800)
                              "CET" "json" "0");
                 HttpGet ACTIVATION_URL
                   (mk_params "normal_activations_total" (start_ - 10800)
                              (end_ + 10800) "CET" "json" "0")]).
Proof.
  intros L inputs w. unfold Interactive.main.
  pose proof (prompt_events_plain L "Enter start date and time" true None inputs)
    as [Hrs Hps].
  destruct (Interactive.get_valid_datetime L "Enter start date and time" true None
              inputs) as [[[start_ inputs1]|] asked_start]; cbn [fst snd] in *.
  - pose proof (prompt_events_plain L "Enter end date and time" false (Some start_)
                  inputs1) as [Hre Hpe].
    pose proof (accepted_end_passed_the_tests L "Enter end date and time" start_
                  inputs1) as Hrange.
    destruct (Interactive.get_valid_datetime L "Enter end date and time" false
                (Some start_) inputs1) as [[[end_ inputs2]|] asked_end];
      cbn [fst snd] in *.
    + right. exists start_, end_.
      destruct (Hrange end_ inputs2 eq_refl) as (Hlt & Hdays & _).
      pose proof (whole_days_bound end_ start_ Hdays) as Hspan.
      rewrite !periods_of_app, !requests_of_app, Hps, Hpe, Hrs, Hre,
        Interactive_run_periods.
      rewrite Interactive_run_requests.
      repeat split; assumption.
    + left. rewrite !periods_of_app, !requests_of_app, Hps, Hpe, Hrs, Hre.
      split; reflexivity.
  - left. rewrite !periods_of_app, !requests_of_app, Hps, Hrs.
    split; reflexivity.
Qed.

(** ** The session *)

Lemma start_prompt_ignores_global (L : libs) (prompt : string)
  (global_start : option instant) (inputs : list string) :
  Interactive.get_valid_datetime L prompt true global_start inputs
  = Interactive.get_valid_datetime L prompt true None inputs.
Proof.
  induction inputs as [|line inputs IH]; [reflexivity|].
  cbn [Interactive.get_valid_datetime]. rewrite IH. reflexivity.
Qed.

Lemma prompt_consumes_a_line (L : libs) (prompt : string) (is_start : bool)
  (global_start : option instant) (inputs : list string) t rest :
  fst (Interactive.get_valid_datetime L prompt is_start global_start inputs)
  = Some (t, rest) ->
  (List.length rest < List.length inputs)%nat.
Proof.
  pose proof (prompts_and_lines L prompt is_start global_start inputs) as H.
  destruct (Interactive.get_valid_datetime L prompt is_start global_start inputs)
    as [[[t' rest']|] evs]; cbn [fst]; [|discriminate].
  intros Heq. injection Heq as <- <-. lia.
Qed.

Lemma main_leftover_shorter (L : libs) (inputs : list string) (w : world) rest w' :
  main_leftover L inputs w = Some (rest, w') ->
  (List.length rest + 2 <= List.length inputs)%nat.
Proof.
  unfold main_leftover.
  pose proof (prompt_consumes_a_line L "Enter start date and time" true None inputs)
    as Hs.
  destruct (Interactive.get_valid_datetime L "Enter start date and time" true None
              inputs) as [[[start_ inputs1]|] evs1]; [|discriminate].
  specialize (Hs start_ inputs1 eq_refl).
  pose proof (prompt_consumes_a_line L "Enter end date and time" false (Some start_)
                inputs1) as He.
  destruct (Interactive.get_valid_datetime L "Enter end date and time" false
              (Some start_) inputs1) as [[[end_ inputs2]|] evs2]; [|discriminate].
  specialize (He end_ inputs2 eq_refl). cbv zeta.
  destruct (fetch_data IMBALANCE_URL _ w) as [[v1 w1] e1].
  destruct (fetch_data ACTIVATION_URL _ w1) as [[v2 w2] e2].
  intros H. injection H as <- <-. lia.
Qed.

Lemma session_fuel (L : libs) :
  forall (fuel extra : nat) (inputs : list string) (w : world),
    (List.length inputs < fuel)%nat ->
    session (fuel + extra) L inputs w = session fuel L inputs w.
Proof.
  induction fuel as [|fuel IH]; intros extra inputs w Hlen; [lia|].
  cbn [Nat.add session]. f_equal.
  destruct (main_leftover L inputs w) as [[rest w']|] eqn:E; [|reflexivity].
  apply main_leftover_shorter in E.
  destruct rest as [|answer rest]; [reflexivity|].
  destruct (String.eqb (lower answer) "y"); [|reflexivity].
  f_equal. apply IH. cbn [List.length] in E. lia.
Qed.

Lemma lower_ascii_y (c : Ascii.ascii) :
  lower_ascii c = "y"%char <-> c = "y"%char \/ c = "Y"%char.
Proof.
  destruct c as [[] [] [] [] [] [] [] []]; vm_compute; split;
    try (intros H; discriminate H);
    try (intros [H|H]; discriminate H);
    auto.
Qed.

Lemma lower_y (s : string) : lower s = "y" <-> s = "y" \/ s = "Y".
Proof.
  destruct s as [|c [|c' s]]; cbn [lower].
  - split; [discriminate|intros [H|H]; discriminate H].
  - split.
    + intros H. injection H as H. apply lower_ascii_y in H as [-> | ->]; auto.
    + intros [H|H]; injection H as ->; reflexivity.
  - split; [discriminate|intros [H|H]; discriminate H].
Qed.

(** X18. The session ends on every finite input: each call of [main] that
    returns has read at least two lines and the question that follows reads
    one more, so no more calls are made than there are lines, and the run is
    the same for every bound above the number of lines.  After a call that
    returns, [main] is called again, on the lines and the network answers
    that are left, exactly when the answer is "y" or "Y"; any other answer
    ends the session, and so does the end of the input. *)
Theorem session_repeats_while_the_answer_is_yes :
  forall (L : libs) (inputs : list string) (w : world) (fuel : nat),
    (List.length inputs < fuel)%nat ->
    session fuel L inputs w = session (S (List.length inputs)) L inputs w
    /\ (main_leftover L inputs w = None ->
        session fuel L inputs w = Interactive.main L inputs w)
    /\ (forall w', main_leftover L inputs w = Some ([], w') ->
                   session fuel L inputs w
                   = Interactive.main L inputs w
                     ++ [Prompt "Would you like to analyze another time period? (y/n)";
                         Uncaught EOFError])
    /\ (forall answer rest w',
           main_leftover L inputs w = Some (answer :: rest, w') ->
           (List.length rest + 3 <= List.length inputs)%nat
           /\ (answer = "y" \/ answer = "Y" ->
               session fuel L inputs w
               = Interactive.main L inputs w
                 ++ Prompt "Would you like to analyze another time period? (y/n)"
                 :: session fuel L rest w')
           /\ (answer <> "y" -> answer <> "Y" ->
               session fuel L inputs w
               = Interactive.main L inputs w
                 ++ [Prompt "Would you like to analyze another time period? (y/n)"])).
Proof.
  intros L inputs w fuel Hlen.
  assert (Hfuel : session fuel L inputs w
                  = session (S (List.length inputs)) L inputs w).
  { replace fuel with (S (List.length inputs) + (fuel - S (List.length inputs)))%nat
      by lia.
    apply session_fuel. lia. }
  split; [exact Hfuel|].
  destruct fuel as [|fuel]; [lia|].
  assert (Hstep : session (S fuel) L inputs w
                  = Interactive.main L inputs w ++
                    match main_leftover L inputs w with
                    | None => []
                    | Some (inputs, w) =>
                        Prompt "Would you like to analyze another time period? (y/n)" ::
                        match inputs with
                        | [] => [Uncaught EOFError]
                        | answer :: inputs =>
                            if String.eqb (lower answer) "y"
                            then session fuel L inputs w else []
                        end
                    end) by reflexivity.
  split; [intros E; rewrite Hstep, E; apply app_nil_r|].
  split; [intros w' E; rewrite Hstep, E; reflexivity|].
  intros answer rest w' E.
  pose proof (main_leftover_shorter L inputs w _ _ E) as Hshort.
  cbn [List.length] in Hshort.
  split; [lia|]. split.
  - intros Hyes. apply lower_y in Hyes. rewrite Hstep, E, Hyes.
    cbn [String.eqb Ascii.eqb Bool.eqb].
    rewrite <- (session_fuel L fuel 1 rest w') by lia.
    replace (fuel + 1)%nat with (S fuel) by lia. reflexivity.
  - intros Hn1 Hn2. rewrite Hstep, E.
    destruct (String.eqb (lower answer) "y") eqn:Eq; [|reflexivity].
    apply String.eqb_eq in Eq. apply lower_y in Eq as [-> | ->]; contradiction.
Qed.

(** [main_leftover] goes with [main]: it is [None] exactly for the calls that
    announce no window, and a call that returns has used two answers of the
    network. *)
Lemma main_leftover_agrees (L : libs) (inputs : list string) (w : world) :
  (main_leftover L inputs w = None <-> periods_of (Interactive.main L inputs w) = [])
  /\ (forall o1 o2 w' rest w'',
         w = o1 :: o2 :: w' ->
         main_leftover L inputs w = Some (rest, w'') -> w'' = w').
Proof.
  unfold main_leftover, Interactive.main.
  pose proof (prompt_events_plain L "Enter start date and time" true None inputs)
    as [_ Hps].
  destruct (Interactive.get_valid_datetime L "Enter start date and time" true None
              inputs) as [[[start_ inputs1]|] asked_start]; cbn [snd] in Hps.
  - pose proof (prompt_events_plain L "Enter end date and time" false (Some start_)
                  inputs1) as [_ Hpe].
    destruct (Interactive.get_valid_datetime L "Enter end date and time" false
                (Some start_) inputs1) as [[[end_ inputs2]|] asked_end];
      cbn [snd] in Hpe.
    + split.
      * cbv zeta.
        destruct (fetch_data IMBALANCE_URL _ w) as [[v1 w1] e1].
        destruct (fetch_data ACTIVATION_URL _ w1) as [[v2 w2] e2].
        split; [discriminate|].
        rewrite !periods_of_app, Hps, Hpe, Interactive_run_periods. discriminate.
      * intros o1 o2 w' rest w'' ->. cbv zeta.
        pose proof (fetch_data_consumes IMBALANCE_URL
                      (mk_params "imbalance_volumes" (start_ - 3 * 3600)
                                 (end_ + 3 * 3600) "CET" "json" "0") o1 (o2 :: w'))
          as H1.
        destruct (fetch_data IMBALANCE_URL _ (o1 :: o2 :: w')) as [[v1 w1] e1].
        cbn [fst snd] in H1. subst w1.
        pose proof (fetch_data_consumes ACTIVATION_URL
                      (mk_params "normal_activations_total" (start_ - 3 * 3600)
                                 (end_ + 3 * 3600) "CET" "json" "0") o2 w') as H2.
        destruct (fetch_data ACTIVATION_URL _ (o2 :: w')) as [[v2 w2] e2].
        cbn [fst snd] in H2. subst w2.
        intros H. injection H as _ <-. reflexivity.
    + split; [|discriminate]. split; [intros _|reflexivity].
      rewrite !periods_of_app, Hps, Hpe. reflexivity.
  - split; [|discriminate]. split; [intros _|reflexivity].
    rewrite !periods_of_app, Hps. reflexivity.
Qed.

Lemma session_witness :
  periods_of
    (session 7 Sample.L
       ["2024-01-01 00:00"; "2024-01-31 00:00"; "Y";
        "2024-09-23 00:00"; "2024-09-29 00:00"; "no"]
       [served Sample.imbalance_payload; served Sample.activation_payload;
        served Sample.imbalance_payload; served Sample.activation_payload])
  = [(1704063600, 1706655600); (1727042400, 1727560800)].
Proof.
  destruct (session_repeats_while_the_answer_is_yes Sample.L
              ["2024-01-01 00:00"; "2024-01-31 00:00"; "Y";
               "2024-09-23 00:00"; "2024-09-29 00:00"; "no"]
              [served Sample.imbalance_payload; served Sample.activation_payload;
               served Sample.imbalance_payload; served Sample.activation_payload]
              7%nat) as (_ & _ & _ & Hanswer); [simpl; lia|].
  destruct (Hanswer "Y"
              ["2024-09-23 00:00"; "2024-09-29 00:00"; "no"]
              [served Sample.imbalance_payload; served Sample.activation_payload]
              eq_refl) as (_ & Hyes & _).
  rewrite (Hyes (or_intror eq_refl)). reflexivity.
Defined.
